(** * Character-record extraction engine: a shallow embedding and its properties

    The development follows the two program variants of the repository:
    [src/main.go] (category driven, rule tables gathered in [rules]) and
    [src/unnamed/part_000] (URL-list driven, rule tables as separate globals).

    - Go [string]s are byte strings; they are embedded as [string] whose
      characters are the bytes of the UTF-8 encoding.
    - Go [int] is the 64-bit signed integer; it is embedded as [Z], with the
      wrap-around written out at the only arithmetic the extractors perform.
    - [*html.Node] is embedded as a rose tree; the extractors never mutate
      or compare nodes by address, so a node is passed by value.
    - Network, clock, log and process exit are threaded through an explicit
      state with a trace of events. *)

From Stdlib Require Import String Ascii List ZArith Bool Lia DecimalString.
Import ListNotations.
Open Scope string_scope.

(** ** Models of the Go standard-library functions the program calls *)

Module Go.


(** [s[n:]] *)
Fixpoint drop (n : nat) (s : string) : string :=
  match n, s with
  | O, _ => s
  | S n', String _ s' => drop n' s'
  | S _, EmptyString => EmptyString
  end.

(** [s[:n]] *)
Fixpoint take (n : nat) (s : string) : string :=
  match n, s with
  | S n', String a s' => String a (take n' s')
  | _, _ => EmptyString
  end.

(** [strings.HasPrefix] *)
Fixpoint HasPrefix (s p : string) : bool :=
  match p, s with
  | EmptyString, _ => true
  | String a p', String b s' => Ascii.eqb a b && HasPrefix s' p'
  | String _ _, EmptyString => false
  end.

(** [strings.Index]: the byte offset of the first occurrence, [None] for -1. *)
Fixpoint Index (s sub : string) : option nat :=
  if HasPrefix s sub then Some O
  else match s with
       | EmptyString => None
       | String _ s' => option_map S (Index s' sub)
       end.

(** [strings.Contains] *)
Definition Contains (s sub : string) : bool :=
  match Index s sub with Some _ => true | None => false end.

(** [strings.Cut] *)
Definition Cut (s sep : string) : string * string * bool :=
  match Index s sep with
  | Some i => (take i s, drop (i + String.length sep) s, true)
  | None => (s, EmptyString, false)
  end.

(** [strings.Split] for a non-empty separator (the program only splits on
    one-byte separators).  Every round consumes at least [length sep]
    bytes, so [length s] rounds are enough. *)
Fixpoint genSplit (rounds : nat) (s sep : string) : list string :=
  match rounds with
  | O => [s]
  | S r =>
      match Index s sep with
      | None => [s]
      | Some i => take i s :: genSplit r (drop (i + String.length sep) s) sep
      end
  end.

Definition Split (s sep : string) : list string :=
  genSplit (String.length s) s sep.

(** [strings.Join] *)
Fixpoint Join (elems : list string) (sep : string) : string :=
  match elems with
  | [] => EmptyString
  | [a] => a
  | a :: rest => a ++ sep ++ Join rest sep
  end.

(** [slices.Contains] on a slice of strings *)
Fixpoint slices_Contains (l : list string) (x : string) : bool :=
  match l with
  | [] => false
  | y :: l' => String.eqb y x || slices_Contains l' x
  end.

(** *** [strings.TrimSpace]

    Leading and trailing white space as defined by Unicode is removed.
    The white-space runes are U+0009..U+000D, U+0020, U+0085, U+00A0,
    U+1680, U+2000..U+200A, U+2028, U+2029, U+202F, U+205F and U+3000;
    a rune is recognised by its UTF-8 encoding. *)

Definition byte_in (c : ascii) (lo hi : N) : bool :=
  (lo <=? N_of_ascii c)%N && (N_of_ascii c <=? hi)%N.

Definition byte_is (c : ascii) (b : N) : bool := (N_of_ascii c =? b)%N.

Definition asciiSpace (c : ascii) : bool :=
  byte_in c 9 13 || byte_is c 32.

(** two-byte white space: U+0085 and U+00A0 *)
Definition space2 (a b : ascii) : bool :=
  byte_is a 194 && (byte_is b 133 || byte_is b 160).

(** three-byte white space *)
Definition space3 (a b c : ascii) : bool :=
  (byte_is a 225 && byte_is b 154 && byte_is c 128)
  || (byte_is a 226 && byte_is b 128
      && (byte_in c 128 138 || byte_is c 168 || byte_is c 169 || byte_is c 175))
  || (byte_is a 226 && byte_is b 129 && byte_is c 159)
  || (byte_is a 227 && byte_is b 128 && byte_is c 128).

Fixpoint TrimLeftSpace (s : string) : string :=
  match s with
  | EmptyString => EmptyString
  | String a s1 =>
      if asciiSpace a then TrimLeftSpace s1
      else match s1 with
           | EmptyString => s
           | String b s2 =>
               if space2 a b then TrimLeftSpace s2
               else match s2 with
                    | EmptyString => s
                    | String c s3 =>
                        if space3 a b c then TrimLeftSpace s3 else s
                    end
           end
  end.

Fixpoint rev (s : string) : string :=
  match s with
  | EmptyString => EmptyString
  | String a s' => rev s' ++ String a EmptyString
  end.

(** The trailing runes are read backwards: on the reversed string the
    encodings appear last byte first. *)
Fixpoint TrimLeftSpaceRev (s : string) : string :=
  match s with
  | EmptyString => EmptyString
  | String a s1 =>
      if asciiSpace a then TrimLeftSpaceRev s1
      else match s1 with
           | EmptyString => s
           | String b s2 =>
               if space2 b a then TrimLeftSpaceRev s2
               else match s2 with
                    | EmptyString => s
                    | String c s3 =>
                        if space3 c b a then TrimLeftSpaceRev s3 else s
                    end
           end
  end.

Definition TrimRightSpace (s : string) : string :=
  rev (TrimLeftSpaceRev (rev s)).

Definition TrimSpace (s : string) : string :=
  TrimRightSpace (TrimLeftSpace s).

(** *** [strconv.Atoi]

    An optional sign followed by one or more decimal digits, whose value
    fits the 64-bit [int]; anything else is an error ([None]). *)

Definition minInt : Z := (- 2 ^ 63)%Z.
Definition maxInt : Z := (2 ^ 63 - 1)%Z.

(** the conversion of a 64-bit result of [int] arithmetic *)
Definition wrapInt (z : Z) : Z := ((z + 2 ^ 63) mod 2 ^ 64 - 2 ^ 63)%Z.

Definition isDigit (c : ascii) : bool := byte_in c 48 57.

Fixpoint parseDigits (s : string) (acc : Z) : option Z :=
  match s with
  | EmptyString => Some acc
  | String c s' =>
      if isDigit c
      then parseDigits s' (acc * 10 + (Z.of_N (N_of_ascii c) - 48))%Z
      else None
  end.

Definition parseSigned (neg : bool) (body : string) : option Z :=
  match body with
  | EmptyString => None
  | String _ _ =>
      match parseDigits body 0%Z with
      | None => None
      | Some n =>
          let v := if neg then (- n)%Z else n in
          if (minInt <=? v)%Z && (v <=? maxInt)%Z then Some v else None
      end
  end.

(** [%d] of an [int] *)
Definition Itoa (z : Z) : string := NilZero.string_of_int (Z.to_int z).

Definition Atoi (s : string) : option Z :=
  match s with
  | EmptyString => None
  | String c s' =>
      if byte_is c 45 then parseSigned true s'
      else if byte_is c 43 then parseSigned false s'
      else parseSigned false s
  end.

(** [slices.Index] on a slice of strings: the first position of [x], -1
    when it is absent *)
Fixpoint slices_Index (l : list string) (x : string) : Z :=
  match l with
  | [] => (-1)%Z
  | y :: l' =>
      if String.eqb y x then 0%Z
      else match slices_Index l' x with
           | Zneg _ => (-1)%Z
           | k => (k + 1)%Z
           end
  end.

(** *** [url.QueryEscape]

    Letters, digits and the marks [-], [_], [.], [~] are kept; a space
    becomes [+]; every other byte becomes [%] and its two upper-case
    hexadecimal digits. *)

Definition isAlnum (c : ascii) : bool :=
  byte_in c 97 122 || byte_in c 65 90 || byte_in c 48 57.

Definition shouldEscape (c : ascii) : bool :=
  if isAlnum c then false
  else if byte_is c 45 || byte_is c 95 || byte_is c 46 || byte_is c 126 then false
       else true.

(** [upperhex[n]] for [n] below 16 *)
Definition upperhex (n : N) : ascii :=
  if (n <? 10)%N then ascii_of_N (48 + n) else ascii_of_N (55 + n).

Fixpoint QueryEscape (s : string) : string :=
  match s with
  | EmptyString => EmptyString
  | String c s' =>
      if shouldEscape c
      then if byte_is c 32
           then String "+" (QueryEscape s')
           else String "%"
                  (String (upperhex (N.shiftr (N_of_ascii c) 4))
                     (String (upperhex (N.land (N_of_ascii c) 15)) (QueryEscape s')))
      else String c (QueryEscape s')
  end.

End Go.

(** ** Control flow of the Go loops

    A loop body either falls through to the next iteration ([Next], also
    for [continue]) or leaves the loop ([Stop], for [break] and [return]). *)

Inductive Flow (A : Type) : Type :=
| Next (a : A)
| Stop (a : A).
Arguments Next {A} a.
Arguments Stop {A} a.

Definition result {A : Type} (f : Flow A) : A :=
  match f with Next a => a | Stop a => a end.

(** [for _, x := range l { body }], keeping whether the body left the loop *)
Fixpoint rangeFlow {A B : Type} (body : B -> A -> Flow A) (l : list B) (a : A)
  : Flow A :=
  match l with
  | [] => Next a
  | x :: l' =>
      match body x a with
      | Next a' => rangeFlow body l' a'
      | Stop a' => Stop a'
      end
  end.

Definition forRange {A B : Type} (body : B -> A -> Flow A) (l : list B) (a : A)
  : A :=
  result (rangeFlow body l a).

(** the indices of [for k := from; k < upto; k++] *)
Definition upTo (from upto : nat) : list nat := seq from (upto - from).

(** the pairs of [for j, x := range l] *)
Definition indexed {B : Type} (l : list B) : list (nat * B) :=
  combine (seq 0 (length l)) l.

(** ** The parsed document and the tree query primitives

    These helpers are the same, line for line, in both program variants. *)

Module Html.
Import Go.

Inductive NodeType : Type :=
| ErrorNode | TextNode | DocumentNode | ElementNode
| CommentNode | DoctypeNode | RawNode.

Definition NodeType_eqb (a b : NodeType) : bool :=
  match a, b with
  | ErrorNode, ErrorNode | TextNode, TextNode | DocumentNode, DocumentNode
  | ElementNode, ElementNode | CommentNode, CommentNode
  | DoctypeNode, DoctypeNode | RawNode, RawNode => true
  | _, _ => false
  end.

Record Attribute : Type := { Namespace : string; Key : string; Val : string }.

(** [html.Node]: the sibling chain from [FirstChild] is the list of
    children. *)
#[warnings="-register-all"]
Inductive Node : Type :=
| MkNode (Type_ : NodeType) (Data : string) (Attr : list Attribute)
         (children : list Node).

Definition nodeType (n : Node) : NodeType :=
  match n with MkNode t _ _ _ => t end.
Definition nodeData (n : Node) : string :=
  match n with MkNode _ d _ _ => d end.
Definition nodeAttr (n : Node) : list Attribute :=
  match n with MkNode _ _ a _ => a end.

(** the value of [cells[k]]; every indexing in the program sits under a
    test [k < len(cells)], so the default is never returned *)
Definition noNode : Node := MkNode ErrorNode "" [] [].
Definition at_ (cells : list Node) (k : nat) : Node := nth k cells noNode.

Fixpoint findAllNodes (n : Node) (tagName : string) : list Node :=
  match n with
  | MkNode t d _ cs =>
      (if NodeType_eqb t ElementNode && String.eqb d tagName then [n] else [])
        ++ flat_map (fun child => findAllNodes child tagName) cs
  end.

Fixpoint findNodeWithText (n : Node) (tagName : string) : option Node :=
  match n with
  | MkNode t d _ cs =>
      if NodeType_eqb t ElementNode && String.eqb d tagName then Some n
      else
        (fix traverse (l : list Node) : option Node :=
           match l with
           | [] => None
           | child :: l' =>
               match findNodeWithText child tagName with
               | Some r => Some r
               | None => traverse l'
               end
           end) cs
  end.

Fixpoint getNodeText (n : Node) : string :=
  match n with
  | MkNode t d _ cs =>
      (if NodeType_eqb t TextNode then d else "")
        ++ fold_right (fun child acc => getNodeText child ++ acc) "" cs
  end.

Definition hasStyle (n : Node) (style : string) : bool :=
  existsb (fun attr => String.eqb (Key attr) "style" && Contains (Val attr) style)
          (nodeAttr n).

Definition hasStyleWidth (n : Node) (width : string) : bool :=
  existsb (fun attr =>
             String.eqb (Key attr) "style" && Contains (Val attr) ("width:" ++ width))
          (nodeAttr n).

Definition hasAnyStyleWidth (n : Node) (widths : list string) : bool :=
  existsb (fun attr =>
             String.eqb (Key attr) "style"
             && existsb (fun width => Contains (Val attr) ("width:" ++ width)) widths)
          (nodeAttr n).

Definition containsAnyString (text : string) (substrings : list string) : bool :=
  existsb (fun substring => Contains text substring) substrings.

Definition containsAllTexts (n : Node) (texts : list string) : bool :=
  let nodeText := getNodeText n in
  forallb (fun text => Contains nodeText text) texts.

Definition containsAnyTexts (n : Node) (texts : list string) : bool :=
  let nodeText := getNodeText n in
  existsb (fun text => Contains nodeText text) texts.

(** *** Builders for concrete documents *)

Definition text (s : string) : Node := MkNode TextNode s [] [].
Definition elem (tag : string) (cs : list Node) : Node :=
  MkNode ElementNode tag [] cs.
Definition styled (tag style : string) (cs : list Node) : Node :=
  MkNode ElementNode tag [{| Namespace := ""; Key := "style"; Val := style |}] cs.
Definition td (s : string) : Node := elem "td" [text s].
Definition tdStyle (style s : string) : Node := styled "td" style [text s].
Definition tr (cells : list Node) : Node := elem "tr" cells.
Definition table (rows : list Node) : Node := elem "table" rows.
Definition document (cs : list Node) : Node := MkNode DocumentNode "" [] cs.

End Html.


(** ** The program of [src/main.go] *)

Module MainGo.
Import Go Html.

(** [Config]; a [time.Duration] is a 64-bit count of nanoseconds *)
Record Config : Type := {
  DefaultJSONFile : string;
  BaseURL : string;
  MaxRetries : Z;
  BaseDelay : Z;
  RequestDelay : Z;
  HTTPTimeout : Z
}.

Definition Millisecond : Z := 1000000%Z.
Definition Second : Z := 1000000000%Z.

Record ParsingRules : Type := {
  TacticCategories : list string;
  SkillCategories : list string;
  InterestItems : list string;
  PersonalityTypes : list string;
  FameTypes : list string;
  StrategyTypes : list string;
  InterestWidths : list string;
  ExcludeTexts : list string;
  RetryErrors : list string;
  BasicInfoHeaders : list string;
  AbilityHeaders : list string;
  StatusHeaders : list string;
  TalentHeaders : list string;
  TacticsHeaders : list string;
  SkillsHeaders : list string
}.

Definition config : Config := {|
  DefaultJSONFile := "characters.json";
  BaseURL := "https://wikiwiki.jp/sangokushi8r/";
  MaxRetries := 3%Z;
  BaseDelay := (2 * Second)%Z;
  RequestDelay := (500 * Millisecond)%Z;
  HTTPTimeout := (30 * Second)%Z
|}.

Definition rules : ParsingRules := {|
  TacticCategories := ["歩兵"; "騎兵"; "弓兵"; "艦船"; "軍略"; "補助"; "遁甲"];
  SkillCategories := ["任務"; "智謀"; "兵科"; "軍事"];
  InterestItems := ["武具"; "書物"; "宝物"; "茶器"; "名馬"; "美術"; "酒"; "音楽";
                    "詩歌"; "絵画"; "香"; "薬草"];
  PersonalityTypes := ["豪胆"; "冷静"; "剛胆"; "沈着"; "猪突"; "温和"; "臆病"];
  FameTypes := ["無関心"; "重視"; "文武不問"; "武名"; "高名"];
  StrategyTypes := ["好戦"; "普通"; "積極"; "消極"; "私欲"];
  InterestWidths := ["60px"; "53px"; "52px"; "51px"; "50px"];
  ExcludeTexts := ["ー"; ""; "興味"; "-"];
  RetryErrors := ["429"; "Too Many Requests"];
  BasicInfoHeaders := ["字"; "没年"];
  AbilityHeaders := ["統率"; "武力"];
  StatusHeaders := ["重視名声"; "物欲"; "戦略傾向"];
  TalentHeaders := ["奇才"];
  TacticsHeaders := ["戦法"];
  SkillsHeaders := ["特技"]
|}.

(** [Character]: the record the pipeline fills, field by field *)
Record Character : Type := {
  Name : string;
  Reading : string;
  Azana : string;
  Leadership : Z;
  Force : Z;
  Intelligence : Z;
  Politics : Z;
  Charm : Z;
  Talent : string;
  Interest : string;
  Greed : string;
  Loyalty : Z;
  Personality : string;
  Strategy : string;
  DeathYear : Z;
  DeathMinus13 : Z;
  Tactics : string;
  Skills : string;
  Fame : string
}.

(** [Character{}] *)
Definition emptyCharacter : Character :=
  {| Name := EmptyString; Reading := EmptyString; Azana := EmptyString;
     Leadership := 0%Z; Force := 0%Z; Intelligence := 0%Z;
     Politics := 0%Z; Charm := 0%Z; Talent := EmptyString;
     Interest := EmptyString; Greed := EmptyString; Loyalty := 0%Z;
     Personality := EmptyString; Strategy := EmptyString;
     DeathYear := 0%Z; DeathMinus13 := 0%Z; Tactics := EmptyString;
     Skills := EmptyString; Fame := EmptyString |}.

(** [character.F = v], one assignment per field *)
Definition set_Name (v : string) (c : Character) : Character :=
  {| Name := v; Reading := Reading c; Azana := Azana c;
     Leadership := Leadership c; Force := Force c;
     Intelligence := Intelligence c; Politics := Politics c;
     Charm := Charm c; Talent := Talent c; Interest := Interest c;
     Greed := Greed c; Loyalty := Loyalty c;
     Personality := Personality c; Strategy := Strategy c;
     DeathYear := DeathYear c; DeathMinus13 := DeathMinus13 c;
     Tactics := Tactics c; Skills := Skills c; Fame := Fame c |}.

Definition set_Reading (v : string) (c : Character) : Character :=
  {| Name := Name c; Reading := v; Azana := Azana c;
     Leadership := Leadership c; Force := Force c;
     Intelligence := Intelligence c; Politics := Politics c;
     Charm := Charm c; Talent := Talent c; Interest := Interest c;
     Greed := Greed c; Loyalty := Loyalty c;
     Personality := Personality c; Strategy := Strategy c;
     DeathYear := DeathYear c; DeathMinus13 := DeathMinus13 c;
     Tactics := Tactics c; Skills := Skills c; Fame := Fame c |}.

Definition set_Azana (v : string) (c : Character) : Character :=
  {| Name := Name c; Reading := Reading c; Azana := v;
     Leadership := Leadership c; Force := Force c;
     Intelligence := Intelligence c; Politics := Politics c;
     Charm := Charm c; Talent := Talent c; Interest := Interest c;
     Greed := Greed c; Loyalty := Loyalty c;
     Personality := Personality c; Strategy := Strategy c;
     DeathYear := DeathYear c; DeathMinus13 := DeathMinus13 c;
     Tactics := Tactics c; Skills := Skills c; Fame := Fame c |}.

Definition set_Leadership (v : Z) (c : Character) : Character :=
  {| Name := Name c; Reading := Reading c; Azana := Azana c;
     Leadership := v; Force := Force c; Intelligence := Intelligence c;
     Politics := Politics c; Charm := Charm c; Talent := Talent c;
     Interest := Interest c; Greed := Greed c; Loyalty := Loyalty c;
     Personality := Personality c; Strategy := Strategy c;
     DeathYear := DeathYear c; DeathMinus13 := DeathMinus13 c;
     Tactics := Tactics c; Skills := Skills c; Fame := Fame c |}.

Definition set_Force (v : Z) (c : Character) : Character :=
  {| Name := Name c; Reading := Reading c; Azana := Azana c;
     Leadership := Leadership c; Force := v;
     Intelligence := Intelligence c; Politics := Politics c;
     Charm := Charm c; Talent := Talent c; Interest := Interest c;
     Greed := Greed c; Loyalty := Loyalty c;
     Personality := Personality c; Strategy := Strategy c;
     DeathYear := DeathYear c; DeathMinus13 := DeathMinus13 c;
     Tactics := Tactics c; Skills := Skills c; Fame := Fame c |}.

Definition set_Intelligence (v : Z) (c : Character) : Character :=
  {| Name := Name c; Reading := Reading c; Azana := Azana c;
     Leadership := Leadership c; Force := Force c; Intelligence := v;
     Politics := Politics c; Charm := Charm c; Talent := Talent c;
     Interest := Interest c; Greed := Greed c; Loyalty := Loyalty c;
     Personality := Personality c; Strategy := Strategy c;
     DeathYear := DeathYear c; DeathMinus13 := DeathMinus13 c;
     Tactics := Tactics c; Skills := Skills c; Fame := Fame c |}.

Definition set_Politics (v : Z) (c : Character) : Character :=
  {| Name := Name c; Reading := Reading c; Azana := Azana c;
     Leadership := Leadership c; Force := Force c;
     Intelligence := Intelligence c; Politics := v; Charm := Charm c;
     Talent := Talent c; Interest := Interest c; Greed := Greed c;
     Loyalty := Loyalty c; Personality := Personality c;
     Strategy := Strategy c; DeathYear := DeathYear c;
     DeathMinus13 := DeathMinus13 c; Tactics := Tactics c;
     Skills := Skills c; Fame := Fame c |}.

Definition set_Charm (v : Z) (c : Character) : Character :=
  {| Name := Name c; Reading := Reading c; Azana := Azana c;
     Leadership := Leadership c; Force := Force c;
     Intelligence := Intelligence c; Politics := Politics c; Charm := v;
     Talent := Talent c; Interest := Interest c; Greed := Greed c;
     Loyalty := Loyalty c; Personality := Personality c;
     Strategy := Strategy c; DeathYear := DeathYear c;
     DeathMinus13 := DeathMinus13 c; Tactics := Tactics c;
     Skills := Skills c; Fame := Fame c |}.

Definition set_Talent (v : string) (c : Character) : Character :=
  {| Name := Name c; Reading := Reading c; Azana := Azana c;
     Leadership := Leadership c; Force := Force c;
     Intelligence := Intelligence c; Politics := Politics c;
     Charm := Charm c; Talent := v; Interest := Interest c;
     Greed := Greed c; Loyalty := Loyalty c;
     Personality := Personality c; Strategy := Strategy c;
     DeathYear := DeathYear c; DeathMinus13 := DeathMinus13 c;
     Tactics := Tactics c; Skills := Skills c; Fame := Fame c |}.

Definition set_Interest (v : string) (c : Character) : Character :=
  {| Name := Name c; Reading := Reading c; Azana := Azana c;
     Leadership := Leadership c; Force := Force c;
     Intelligence := Intelligence c; Politics := Politics c;
     Charm := Charm c; Talent := Talent c; Interest := v;
     Greed := Greed c; Loyalty := Loyalty c;
     Personality := Personality c; Strategy := Strategy c;
     DeathYear := DeathYear c; DeathMinus13 := DeathMinus13 c;
     Tactics := Tactics c; Skills := Skills c; Fame := Fame c |}.

Definition set_Greed (v : string) (c : Character) : Character :=
  {| Name := Name c; Reading := Reading c; Azana := Azana c;
     Leadership := Leadership c; Force := Force c;
     Intelligence := Intelligence c; Politics := Politics c;
     Charm := Charm c; Talent := Talent c; Interest := Interest c;
     Greed := v; Loyalty := Loyalty c; Personality := Personality c;
     Strategy := Strategy c; DeathYear := DeathYear c;
     DeathMinus13 := DeathMinus13 c; Tactics := Tactics c;
     Skills := Skills c; Fame := Fame c |}.

Definition set_Loyalty (v : Z) (c : Character) : Character :=
  {| Name := Name c; Reading := Reading c; Azana := Azana c;
     Leadership := Leadership c; Force := Force c;
     Intelligence := Intelligence c; Politics := Politics c;
     Charm := Charm c; Talent := Talent c; Interest := Interest c;
     Greed := Greed c; Loyalty := v; Personality := Personality c;
     Strategy := Strategy c; DeathYear := DeathYear c;
     DeathMinus13 := DeathMinus13 c; Tactics := Tactics c;
     Skills := Skills c; Fame := Fame c |}.

Definition set_Personality (v : string) (c : Character) : Character :=
  {| Name := Name c; Reading := Reading c; Azana := Azana c;
     Leadership := Leadership c; Force := Force c;
     Intelligence := Intelligence c; Politics := Politics c;
     Charm := Charm c; Talent := Talent c; Interest := Interest c;
     Greed := Greed c; Loyalty := Loyalty c; Personality := v;
     Strategy := Strategy c; DeathYear := DeathYear c;
     DeathMinus13 := DeathMinus13 c; Tactics := Tactics c;
     Skills := Skills c; Fame := Fame c |}.

Definition set_Strategy (v : string) (c : Character) : Character :=
  {| Name := Name c; Reading := Reading c; Azana := Azana c;
     Leadership := Leadership c; Force := Force c;
     Intelligence := Intelligence c; Politics := Politics c;
     Charm := Charm c; Talent := Talent c; Interest := Interest c;
     Greed := Greed c; Loyalty := Loyalty c;
     Personality := Personality c; Strategy := v;
     DeathYear := DeathYear c; DeathMinus13 := DeathMinus13 c;
     Tactics := Tactics c; Skills := Skills c; Fame := Fame c |}.

Definition set_DeathYear (v : Z) (c : Character) : Character :=
  {| Name := Name c; Reading := Reading c; Azana := Azana c;
     Leadership := Leadership c; Force := Force c;
     Intelligence := Intelligence c; Politics := Politics c;
     Charm := Charm c; Talent := Talent c; Interest := Interest c;
     Greed := Greed c; Loyalty := Loyalty c;
     Personality := Personality c; Strategy := Strategy c;
     DeathYear := v; DeathMinus13 := DeathMinus13 c;
     Tactics := Tactics c; Skills := Skills c; Fame := Fame c |}.

Definition set_DeathMinus13 (v : Z) (c : Character) : Character :=
  {| Name := Name c; Reading := Reading c; Azana := Azana c;
     Leadership := Leadership c; Force := Force c;
     Intelligence := Intelligence c; Politics := Politics c;
     Charm := Charm c; Talent := Talent c; Interest := Interest c;
     Greed := Greed c; Loyalty := Loyalty c;
     Personality := Personality c; Strategy := Strategy c;
     DeathYear := DeathYear c; DeathMinus13 := v; Tactics := Tactics c;
     Skills := Skills c; Fame := Fame c |}.

Definition set_Tactics (v : string) (c : Character) : Character :=
  {| Name := Name c; Reading := Reading c; Azana := Azana c;
     Leadership := Leadership c; Force := Force c;
     Intelligence := Intelligence c; Politics := Politics c;
     Charm := Charm c; Talent := Talent c; Interest := Interest c;
     Greed := Greed c; Loyalty := Loyalty c;
     Personality := Personality c; Strategy := Strategy c;
     DeathYear := DeathYear c; DeathMinus13 := DeathMinus13 c;
     Tactics := v; Skills := Skills c; Fame := Fame c |}.

Definition set_Skills (v : string) (c : Character) : Character :=
  {| Name := Name c; Reading := Reading c; Azana := Azana c;
     Leadership := Leadership c; Force := Force c;
     Intelligence := Intelligence c; Politics := Politics c;
     Charm := Charm c; Talent := Talent c; Interest := Interest c;
     Greed := Greed c; Loyalty := Loyalty c;
     Personality := Personality c; Strategy := Strategy c;
     DeathYear := DeathYear c; DeathMinus13 := DeathMinus13 c;
     Tactics := Tactics c; Skills := v; Fame := Fame c |}.

Definition set_Fame (v : string) (c : Character) : Character :=
  {| Name := Name c; Reading := Reading c; Azana := Azana c;
     Leadership := Leadership c; Force := Force c;
     Intelligence := Intelligence c; Politics := Politics c;
     Charm := Charm c; Talent := Talent c; Interest := Interest c;
     Greed := Greed c; Loyalty := Loyalty c;
     Personality := Personality c; Strategy := Strategy c;
     DeathYear := DeathYear c; DeathMinus13 := DeathMinus13 c;
     Tactics := Tactics c; Skills := Skills c; Fame := v |}.

(** *** Field extractors *)

Definition extractNameAndReading (character : Character) (doc : Node) : Character :=
  match findNodeWithText doc "strong" with
  | None => character
  | Some nameNode =>
      let text := getNodeText nameNode in
      let '(name, rest, found) := Cut text "(" in
      if negb found then character
      else
        let '(reading, _, found) := Cut rest ")" in
        if negb found then character
        else set_Reading (TrimSpace reading) (set_Name (TrimSpace name) character)
  end.

Definition extractBasicInfoFromTable (character : Character) (table : Node)
  : Character :=
  let rows := findAllNodes table "tr" in
  forRange
    (fun row character =>
       let cells := findAllNodes row "td" in
       if (length cells <? 9)%nat then Next character
       else
         let character :=
           if (1 <? length cells)%nat
           then set_Azana (TrimSpace (getNodeText (at_ cells 1))) character
           else character in
         let character :=
           if (6 <? length cells)%nat
           then match Atoi (TrimSpace (getNodeText (at_ cells 6))) with
                | Some deathYear =>
                    set_DeathMinus13 (wrapInt (deathYear - 13))
                                     (set_DeathYear deathYear character)
                | None => character
                end
           else character in
         Stop character)
    rows character.

(** [abilities[i] = val] on the five-element slice *)
Fixpoint assign (abilities : list Z) (i : nat) (val : Z) : list Z :=
  match abilities, i with
  | [], _ => []
  | _ :: rest, O => val :: rest
  | a :: rest, S i' => a :: assign rest i' val
  end.

Definition extractAbilities (character : Character) (cells : list Node)
  : Character :=
  if (length cells <? 5)%nat then character
  else
    let '(abilities, allNumbers) :=
      forRange
        (fun i '(abilities, allNumbers) =>
           let text := TrimSpace (getNodeText (at_ cells i)) in
           match Atoi text with
           | Some val => Next (assign abilities i val, allNumbers)
           | None => Stop (abilities, false)
           end)
        (upTo 0 (Nat.min 5 (length cells)))
        (repeat 0%Z 5, true) in
    if allNumbers && (0 <? nth 0 abilities 0)%Z
    then set_Charm (nth 4 abilities 0%Z)
           (set_Politics (nth 3 abilities 0%Z)
              (set_Intelligence (nth 2 abilities 0%Z)
                 (set_Force (nth 1 abilities 0%Z)
                    (set_Leadership (nth 0 abilities 0%Z) character))))
    else character.

Definition extractPersonalityAndLoyalty (character : Character)
  (cells : list Node) : Character :=
  if (length cells <? 2)%nat then character
  else
    forRange
      (fun '(j, cell) character =>
         let text := TrimSpace (getNodeText cell) in
         if negb (slices_Contains (PersonalityTypes rules) text) then Next character
         else
           let character := set_Personality text character in
           Stop
             (forRange
                (fun k character =>
                   let loyaltyText := TrimSpace (getNodeText (at_ cells k)) in
                   match Atoi loyaltyText with
                   | Some val => Stop (set_Loyalty val character)
                   | None => Next character
                   end)
                (upTo (j + 1) (length cells)) character))
      (indexed cells) character.

Definition extractGreed (character : Character) (cells : list Node)
  (startIndex : nat) : Character :=
  if (length cells <=? startIndex + 1)%nat then character
  else
    let greedText := TrimSpace (getNodeText (at_ cells (startIndex + 1))) in
    if negb (greedText =? "") && negb (greedText =? "-") && negb (greedText =? "ー")
    then set_Greed greedText character
    else character.

Definition extractStrategy (character : Character) (cells : list Node)
  (startIndex : nat) : Character :=
  forRange
    (fun k character =>
       let strategyText := TrimSpace (getNodeText (at_ cells k)) in
       if (strategyText =? "") || (strategyText =? "ー") then Next character
       else if slices_Contains (StrategyTypes rules) strategyText
            then Stop (set_Strategy strategyText character)
            else if strategyText =? "-"
                 then Stop (set_Strategy "-" character)
                 else Next character)
    (upTo (startIndex + 2) (Nat.min (length cells) (startIndex + 4)))
    character.

Definition extractStatusInfo (character : Character) (row : Node)
  (cells : list Node) : Character :=
  if containsAnyTexts row (StatusHeaders rules) then character
  else if (length cells <? 3)%nat then character
  else
    forRange
      (fun '(j, cell) character =>
         let text := TrimSpace (getNodeText cell) in
         if negb (slices_Contains (FameTypes rules) text) then Next character
         else
           let character := set_Fame text character in
           let character := extractGreed character cells j in
           let character := extractStrategy character cells j in
           Stop character)
      (indexed cells) character.

Definition processTableRow (character : Character) (row : Node)
  (cells : list Node) : Character :=
  let character := extractAbilities character cells in
  let character := extractPersonalityAndLoyalty character cells in
  extractStatusInfo character row cells.

Definition extractAbilitiesFromTable (character : Character) (table : Node)
  : Character :=
  let rows := findAllNodes table "tr" in
  forRange
    (fun row character =>
       let cells := findAllNodes row "td" in
       Next (processTableRow character row cells))
    rows character.

Definition isTalentTable (table : Node) : bool :=
  let tableText := getNodeText table in
  Contains tableText "奇才" && Contains tableText "効果".

Definition extractTalentFromTable (character : Character) (table : Node)
  : Character :=
  if negb (isTalentTable table) then character
  else
    let rows := findAllNodes table "tr" in
    forRange
      (fun row character =>
         let cells := findAllNodes row "td" in
         rangeFlow
           (fun cell character =>
              if hasStyle cell "background-color:gold"
              then Stop (set_Talent (TrimSpace (getNodeText cell)) character)
              else Next character)
           cells character)
      rows character.

(** the [switch] of the first loop of [extractFromTables] *)
Definition classifyAndExtract (character : Character) (table : Node)
  : Character :=
  if containsAllTexts table (BasicInfoHeaders rules)
  then extractBasicInfoFromTable character table
  else if containsAllTexts table (AbilityHeaders rules)
       then
         let character := extractAbilitiesFromTable character table in
         extractTalentFromTable character table
       else if containsAnyTexts table (TalentHeaders rules)
            then extractTalentFromTable character table
            else character.

(** the second loop of [extractFromTables], entered when no talent was found *)
Definition talentFallback (character : Character) (tables : list Node)
  : Character :=
  forRange
    (fun table character =>
       let character := extractTalentFromTable character table in
       if negb (Talent character =? "") then Stop character else Next character)
    tables character.

Definition extractFromTables (character : Character) (doc : Node) : Character :=
  let tables := findAllNodes doc "table" in
  let character :=
    forRange (fun table character => Next (classifyAndExtract character table))
             tables character in
  if Talent character =? "" then talentFallback character tables else character.

Definition isTacticCategory (text : string) : bool :=
  slices_Contains (TacticCategories rules) text.

Definition isSkillCategory (text : string) : bool :=
  slices_Contains (SkillCategories rules) text.

Definition isInterestCell (text : string) : bool :=
  slices_Contains (InterestItems rules) text.

Definition cleanTacticSkillText (text : string) : string :=
  let '(before, _, _) := Cut text "(" in
  TrimSpace before.

Definition extractInterests (character : Character) (doc : Node) : Character :=
  let allCells := findAllNodes doc "td" in
  let interests :=
    forRange
      (fun cell interests =>
         if negb (hasAnyStyleWidth cell (InterestWidths rules)) then Next interests
         else
           let text := TrimSpace (getNodeText cell) in
           if slices_Contains (ExcludeTexts rules) text || negb (isInterestCell text)
           then Next interests
           else Next (interests ++ [text])%list)
      allCells [] in
  set_Interest (Join interests ", ") character.

Definition extractFromSkillTable (table : Node) (isCategory : string -> bool)
  : list string :=
  let rows := findAllNodes table "tr" in
  forRange
    (fun row items =>
       let cells := findAllNodes row "td" in
       Next
         (forRange
            (fun cell items =>
               if negb (hasStyleWidth cell "70px") then Next items
               else
                 let text := cleanTacticSkillText (TrimSpace (getNodeText cell)) in
                 if negb (text =? "") && negb (isCategory text)
                 then Next (items ++ [text])%list
                 else Next items)
            cells items))
    rows [].

(** the [switch] of the loop of [extractTacticsAndSkills], on the pair of
    slices [tactics], [skills] *)
Definition classifySkillTable (table : Node) (acc : list string * list string)
  : list string * list string :=
  let '(tactics, skills) := acc in
  if containsAnyTexts table (TacticsHeaders rules)
  then (extractFromSkillTable table isTacticCategory, skills)
  else if containsAnyTexts table (SkillsHeaders rules)
       then (tactics, extractFromSkillTable table isSkillCategory)
       else (tactics, skills).

Definition tacticsAndSkillsOf (tables : list Node) : list string * list string :=
  forRange (fun table acc => Next (classifySkillTable table acc)) tables ([], []).

Definition extractTacticsAndSkills (doc : Node) : string * string :=
  let tables := findAllNodes doc "table" in
  let '(tactics, skills) := tacticsAndSkillsOf tables in
  (Join tactics ", ", Join skills ", ").

Definition extractBasicInfo (doc : Node) : Character :=
  let character := emptyCharacter in
  let character := extractNameAndReading character doc in
  let character := extractFromTables character doc in
  extractInterests character doc.

(** the part of [extractCharacterInfo] that follows a successful fetch *)
Definition characterOfDocument (doc : Node) : Character :=
  let character := extractBasicInfo doc in
  let '(tactics, skills) := extractTacticsAndSkills doc in
  set_Skills skills (set_Tactics tactics character).

(** *** Loading the list of pages

    [loadCharactersFromJSON] reads a file and decodes it; what the file
    system and the JSON decoder deliver is a [Source].  The decoded
    [map[string][]string] is a list of bindings with distinct keys. *)

Definition generateURL (name : string) : string :=
  BaseURL config ++ QueryEscape name.

(** [seen[url]], with the [exists] flag as [option] *)
Fixpoint seenAt (seen : list (string * nat)) (url : string) : option nat :=
  match seen with
  | [] => None
  | (key, i) :: rest => if String.eqb key url then Some i else seenAt rest url
  end.

Definition findDuplicateURLs (urls : list string) : list string :=
  let '(_, duplicates) :=
    forRange
      (fun '(i, url) '(seen, duplicates) =>
         match seenAt seen url with
         | Some firstIndex =>
             let duplicateInfo :=
               url ++ " (位置: " ++ Itoa (Z.of_nat firstIndex + 1) ++ ", "
                   ++ Itoa (Z.of_nat i + 1) ++ ")" in
             if (slices_Index duplicates duplicateInfo =? -1)%Z
             then Next (seen, (duplicates ++ [duplicateInfo])%list)
             else Next (seen, duplicates)
         | None => Next ((url, i) :: seen, duplicates)
         end)
      (indexed urls) ([], []) in
  duplicates.

Inductive Source : Type :=
| FileUnreadable (e : string)
| JSONInvalid (e : string)
| Decoded (categorizedNames : list (string * list string)).

(** what the loader writes: the listing of the categories on standard
    error (whose order the language leaves open) and the announcement on
    standard output *)
Inductive LoaderEvent : Type :=
| ListedCategories (categorizedNames : list (string * list string))
| Announced (category : string) (count : nat).

(** [categorizedNames[category]] *)
Fixpoint namesOf (categorizedNames : list (string * list string))
  (category : string) : option (list string) :=
  match categorizedNames with
  | [] => None
  | (key, names) :: rest =>
      if String.eqb key category then Some names else namesOf rest category
  end.

Definition loadCharactersFromJSON (category : string) (source : Source)
  : (list string + string) * list LoaderEvent :=
  match source with
  | FileUnreadable e => (inr ("ファイル読み込みエラー: " ++ e), [])
  | JSONInvalid e => (inr ("JSON解析エラー: " ++ e), [])
  | Decoded categorizedNames =>
      match namesOf categorizedNames category with
      | None =>
          (inr ("カテゴリ '" ++ category ++ "' が見つかりません"),
           [ListedCategories categorizedNames])
      | Some selectedNames =>
          let urls := map generateURL selectedNames in
          let duplicates := findDuplicateURLs urls in
          if (0 <? length duplicates)%nat
          then (inr ("重複するURLが見つかりました: [" ++ Join duplicates " " ++ "]"),
                [Announced category (length selectedNames)])
          else (inl urls, [Announced category (length selectedNames)])
      end
  end.

(** *** Fetching, retrying and the batch loop

    [fetchAndParseHTML] talks to the network; what one call of it obtains
    from [http.NewRequest], [client.Do], [io.ReadAll] and [html.Parse] is an
    [Exchange] delivered by the world.  The clock, standard output, the log
    and [os.Exit] are recorded in a trace. *)

Inductive Body : Type :=
| ReadFailed (e : string)
| ParseFailed (e : string)
| Parsed (doc : Node).

Inductive Exchange : Type :=
| RequestFailed (e : string)
| TransportFailed (e : string)
| Responded (StatusCode : Z) (Status : string) (body : Body).

Inductive Arg : Type :=
| AInt (z : Z)
| AStr (s : string)
| ADuration (d : Z).

Inductive Event : Type :=
| Slept (d : Z)
| Printed (format : string) (args : list Arg)
| Logged (line : string).

(** the durations of the [time.Sleep] calls of a trace, in order *)
Fixpoint sleeps (t : list Event) : list Z :=
  match t with
  | [] => []
  | Slept d :: t' => d :: sleeps t'
  | _ :: t' => sleeps t'
  end.

(** the lines written to the log, in order *)
Fixpoint logged (t : list Event) : list string :=
  match t with
  | [] => []
  | Logged l :: t' => l :: logged t'
  | _ :: t' => logged t'
  end.

(** [ProcessingError] and its [Error] method *)
Record ProcessingError : Type := {
  URL : string;
  Message : string;
  Err : string
}.

Definition ProcessingError_Error (e : ProcessingError) : string :=
  "URL " ++ URL e ++ " の処理エラー: " ++ Message e.

Definition exhaustedMessage : string := "最大リトライ回数に達しました".

(** an [error] is embedded as the text its [Error] method returns *)
Definition checkHTTPStatus (StatusCode : Z) (Status : string) : option string :=
  if (StatusCode =? 429)%Z then Some "429 Too Many Requests"
  else if negb (StatusCode =? 200)%Z
       then Some ("HTTPエラー: " ++ Itoa StatusCode ++ " " ++ Status)
       else None.

Definition isRateLimitError (err : string) : bool :=
  containsAnyString err (RetryErrors rules) || Contains err exhaustedMessage.

Definition shouldRetry (err : string) (attempt maxRetries : Z) : bool :=
  containsAnyString err (RetryErrors rules) && (attempt <? maxRetries - 1)%Z.

(** a computation either returns or ends the process ([os.Exit]) *)
Inductive Outcome (A : Type) : Type :=
| Returned (a : A)
| Exited (code : Z).
Arguments Returned {A} a.
Arguments Exited {A} code.

(** the sequence of error tests of [fetchAndParseHTML] on what the
    exchange delivered: the document, or the first error met *)
Definition documentOrError (x : Exchange) : Node + string :=
  match x with
  | RequestFailed e => inr ("リクエスト作成エラー: " ++ e)
  | TransportFailed e => inr ("HTTPリクエストエラー: " ++ e)
  | Responded StatusCode Status body =>
      match checkHTTPStatus StatusCode Status with
      | Some err => inr err
      | None =>
          match body with
          | ReadFailed e => inr ("レスポンス読み込みエラー: " ++ e)
          | ParseFailed e => inr ("HTMLパースエラー: " ++ e)
          | Parsed doc => inl doc
          end
      end
  end.

Section Pipeline.

Context {World : Type}.
Variable roundTrip : string -> World -> Exchange * World.

Record Sys : Type := { world : World; trace : list Event }.

Definition M (A : Type) : Type := Sys -> Outcome A * Sys.

Definition ret {A : Type} (a : A) : M A := fun s => (Returned a, s).

Definition bind {A B : Type} (m : M A) (k : A -> M B) : M B :=
  fun s =>
    match m s with
    | (Returned a, s') => k a s'
    | (Exited code, s') => (Exited code, s')
    end.

Notation "x <- m ;; k" := (bind m (fun x => k))
  (at level 100, m at next level, right associativity).
Notation "m ;;; k" := (bind m (fun _ => k))
  (at level 100, right associativity).

Definition emit (e : Event) : M unit :=
  fun s => (Returned tt, {| world := world s; trace := trace s ++ [e] |}).

Definition exit {A : Type} (code : Z) : M A := fun s => (Exited code, s).

Definition fetchAndParseHTML (url : string) : M (Node + string) :=
  fun s =>
    let '(x, w) := roundTrip url (world s) in
    (Returned (documentOrError x), {| world := w; trace := trace s |}).

Definition extractCharacterInfo (url : string) : M (Character * option string) :=
  r <- fetchAndParseHTML url ;;
  match r with
  | inr err => ret (emptyCharacter, Some err)
  | inl doc => ret (characterOfDocument doc, None)
  end.

Definition newline : string := String (ascii_of_nat 10) "".

(** the loop of [extractCharacterInfoWithRetry], with [remaining] the
    number of iterations left before [attempt] reaches [maxRetries] *)
Fixpoint retryLoop (maxRetries baseDelay : Z) (remaining : nat) (attempt : Z)
  (url : string) : M (Character * option string) :=
  match remaining with
  | O => ret (emptyCharacter, Some exhaustedMessage)
  | S remaining' =>
      r <- extractCharacterInfo url ;;
      match r with
      | (character, None) => ret (character, None)
      | (character, Some err) =>
          if shouldRetry err attempt maxRetries
          then
            let delay := wrapInt (baseDelay * (attempt + 1)) in
            emit (Printed ("429エラーが発生しました。%v後にリトライします... (試行 %d/%d)"
                             ++ newline)
                          [ADuration delay; AInt (attempt + 2); AInt maxRetries]) ;;;
            emit (Slept delay) ;;;
            retryLoop maxRetries baseDelay remaining' (attempt + 1) url
          else ret (character, Some err)
      end
  end.

Definition extractCharacterInfoWithRetry (url : string)
  : M (Character * option string) :=
  retryLoop (MaxRetries config) (BaseDelay config)
            (Z.to_nat (MaxRetries config)) 0 url.

Definition handleProcessingError (url err : string) : M unit :=
  let procErr := {| URL := url; Message := err; Err := err |} in
  if isRateLimitError err
  then
    emit (Logged ("レート制限に達しました。しばらく時間を置いてから再実行してください: "
                    ++ ProcessingError_Error procErr)) ;;;
    exit 1
  else emit (Logged (ProcessingError_Error procErr)).

Definition sleepBetweenRequests (currentIndex totalCount : Z) : M unit :=
  if (currentIndex <? totalCount - 1)%Z
  then emit (Slept (RequestDelay config))
  else ret tt.

(** the loop of [processCategory] over the loaded URLs, from index [i] *)
Fixpoint processUrls (i totalCount : Z) (urls : list string)
  (characters : list Character) : M (list Character) :=
  match urls with
  | [] => ret characters
  | url :: rest =>
      emit (Printed ("処理中 (%d/%d): %s" ++ newline)
                    [AInt (i + 1); AInt totalCount; AStr url]) ;;;
      r <- extractCharacterInfoWithRetry url ;;
      match r with
      | (_, Some err) =>
          handleProcessingError url err ;;;
          processUrls (i + 1) totalCount rest characters
      | (character, None) =>
          let characters := (characters ++ [character])%list in
          sleepBetweenRequests i totalCount ;;;
          processUrls (i + 1) totalCount rest characters
      end
  end.

(** [processCategory], given what [loadCharactersFromJSON] returned *)
Definition processCategory (loaded : list string + string) : M (list Character) :=
  match loaded with
  | inr err =>
      emit (Logged ("キャラクターファイルの読み込みエラー:" ++ err)) ;;;
      exit 1
  | inl urls => processUrls 0 (Z.of_nat (length urls)) urls []
  end.

End Pipeline.

End MainGo.

(** ** The program of [src/unnamed/part_000]

    The variant differs from [src/main.go] in the name/reading parser, in
    the talent extractor (no keyword test), in the ability case of the table
    switch, in the derived year and in the personality vocabulary.  The
    extractors up to [extractFromTables] are embedded here; the retry loop,
    the batch loop and the tactics/skills pass are those of [MainGo], line
    for line. *)

Module Part000.
Import Go Html.

Definition personalityTypes : list string := ["豪胆"; "冷静"; "剛胆"; "沈着"; "猪突"].
Definition fameTypes : list string := ["無関心"; "重視"; "文武不問"; "武名"; "高名"].
Definition strategyTypes : list string := ["好戦"; "普通"; "積極"; "消極"; "私欲"].
Definition basicInfoHeaders : list string := ["字"; "没年"].
Definition abilityHeaders : list string := ["統率"; "武力"].
Definition statusHeaders : list string := ["重視名声"; "物欲"; "戦略傾向"].
Definition talentHeaders : list string := ["奇才"].

(** [Character]: the record the pipeline fills, field by field *)
Record Character : Type := {
  Name : string;
  Reading : string;
  Zi : string;
  DeathYear : Z;
  DeathPlus1 : Z;
  Leadership : Z;
  Force : Z;
  Intelligence : Z;
  Politics : Z;
  Charm : Z;
  Personality : string;
  Loyalty : Z;
  Fame : string;
  Greed : string;
  Strategy : string;
  Interest : string;
  Talent : string;
  Tactics : string;
  Skills : string
}.

(** [Character{}] *)
Definition emptyCharacter : Character :=
  {| Name := EmptyString; Reading := EmptyString; Zi := EmptyString;
     DeathYear := 0%Z; DeathPlus1 := 0%Z; Leadership := 0%Z;
     Force := 0%Z; Intelligence := 0%Z; Politics := 0%Z; Charm := 0%Z;
     Personality := EmptyString; Loyalty := 0%Z; Fame := EmptyString;
     Greed := EmptyString; Strategy := EmptyString;
     Interest := EmptyString; Talent := EmptyString;
     Tactics := EmptyString; Skills := EmptyString |}.

(** [character.F = v], one assignment per field *)
Definition set_Name (v : string) (c : Character) : Character :=
  {| Name := v; Reading := Reading c; Zi := Zi c;
     DeathYear := DeathYear c; DeathPlus1 := DeathPlus1 c;
     Leadership := Leadership c; Force := Force c;
     Intelligence := Intelligence c; Politics := Politics c;
     Charm := Charm c; Personality := Personality c;
     Loyalty := Loyalty c; Fame := Fame c; Greed := Greed c;
     Strategy := Strategy c; Interest := Interest c; Talent := Talent c;
     Tactics := Tactics c; Skills := Skills c |}.

Definition set_Reading (v : string) (c : Character) : Character :=
  {| Name := Name c; Reading := v; Zi := Zi c; DeathYear := DeathYear c;
     DeathPlus1 := DeathPlus1 c; Leadership := Leadership c;
     Force := Force c; Intelligence := Intelligence c;
     Politics := Politics c; Charm := Charm c;
     Personality := Personality c; Loyalty := Loyalty c; Fame := Fame c;
     Greed := Greed c; Strategy := Strategy c; Interest := Interest c;
     Talent := Talent c; Tactics := Tactics c; Skills := Skills c |}.

Definition set_Zi (v : string) (c : Character) : Character :=
  {| Name := Name c; Reading := Reading c; Zi := v;
     DeathYear := DeathYear c; DeathPlus1 := DeathPlus1 c;
     Leadership := Leadership c; Force := Force c;
     Intelligence := Intelligence c; Politics := Politics c;
     Charm := Charm c; Personality := Personality c;
     Loyalty := Loyalty c; Fame := Fame c; Greed := Greed c;
     Strategy := Strategy c; Interest := Interest c; Talent := Talent c;
     Tactics := Tactics c; Skills := Skills c |}.

Definition set_DeathYear (v : Z) (c : Character) : Character :=
  {| Name := Name c; Reading := Reading c; Zi := Zi c; DeathYear := v;
     DeathPlus1 := DeathPlus1 c; Leadership := Leadership c;
     Force := Force c; Intelligence := Intelligence c;
     Politics := Politics c; Charm := Charm c;
     Personality := Personality c; Loyalty := Loyalty c; Fame := Fame c;
     Greed := Greed c; Strategy := Strategy c; Interest := Interest c;
     Talent := Talent c; Tactics := Tactics c; Skills := Skills c |}.

Definition set_DeathPlus1 (v : Z) (c : Character) : Character :=
  {| Name := Name c; Reading := Reading c; Zi := Zi c;
     DeathYear := DeathYear c; DeathPlus1 := v;
     Leadership := Leadership c; Force := Force c;
     Intelligence := Intelligence c; Politics := Politics c;
     Charm := Charm c; Personality := Personality c;
     Loyalty := Loyalty c; Fame := Fame c; Greed := Greed c;
     Strategy := Strategy c; Interest := Interest c; Talent := Talent c;
     Tactics := Tactics c; Skills := Skills c |}.

Definition set_Leadership (v : Z) (c : Character) : Character :=
  {| Name := Name c; Reading := Reading c; Zi := Zi c;
     DeathYear := DeathYear c; DeathPlus1 := DeathPlus1 c;
     Leadership := v; Force := Force c; Intelligence := Intelligence c;
     Politics := Politics c; Charm := Charm c;
     Personality := Personality c; Loyalty := Loyalty c; Fame := Fame c;
     Greed := Greed c; Strategy := Strategy c; Interest := Interest c;
     Talent := Talent c; Tactics := Tactics c; Skills := Skills c |}.

Definition set_Force (v : Z) (c : Character) : Character :=
  {| Name := Name c; Reading := Reading c; Zi := Zi c;
     DeathYear := DeathYear c; DeathPlus1 := DeathPlus1 c;
     Leadership := Leadership c; Force := v;
     Intelligence := Intelligence c; Politics := Politics c;
     Charm := Charm c; Personality := Personality c;
     Loyalty := Loyalty c; Fame := Fame c; Greed := Greed c;
     Strategy := Strategy c; Interest := Interest c; Talent := Talent c;
     Tactics := Tactics c; Skills := Skills c |}.

Definition set_Intelligence (v : Z) (c : Character) : Character :=
  {| Name := Name c; Reading := Reading c; Zi := Zi c;
     DeathYear := DeathYear c; DeathPlus1 := DeathPlus1 c;
     Leadership := Leadership c; Force := Force c; Intelligence := v;
     Politics := Politics c; Charm := Charm c;
     Personality := Personality c; Loyalty := Loyalty c; Fame := Fame c;
     Greed := Greed c; Strategy := Strategy c; Interest := Interest c;
     Talent := Talent c; Tactics := Tactics c; Skills := Skills c |}.

Definition set_Politics (v : Z) (c : Character) : Character :=
  {| Name := Name c; Reading := Reading c; Zi := Zi c;
     DeathYear := DeathYear c; DeathPlus1 := DeathPlus1 c;
     Leadership := Leadership c; Force := Force c;
     Intelligence := Intelligence c; Politics := v; Charm := Charm c;
     Personality := Personality c; Loyalty := Loyalty c; Fame := Fame c;
     Greed := Greed c; Strategy := Strategy c; Interest := Interest c;
     Talent := Talent c; Tactics := Tactics c; Skills := Skills c |}.

Definition set_Charm (v : Z) (c : Character) : Character :=
  {| Name := Name c; Reading := Reading c; Zi := Zi c;
     DeathYear := DeathYear c; DeathPlus1 := DeathPlus1 c;
     Leadership := Leadership c; Force := Force c;
     Intelligence := Intelligence c; Politics := Politics c; Charm := v;
     Personality := Personality c; Loyalty := Loyalty c; Fame := Fame c;
     Greed := Greed c; Strategy := Strategy c; Interest := Interest c;
     Talent := Talent c; Tactics := Tactics c; Skills := Skills c |}.

Definition set_Personality (v : string) (c : Character) : Character :=
  {| Name := Name c; Reading := Reading c; Zi := Zi c;
     DeathYear := DeathYear c; DeathPlus1 := DeathPlus1 c;
     Leadership := Leadership c; Force := Force c;
     Intelligence := Intelligence c; Politics := Politics c;
     Charm := Charm c; Personality := v; Loyalty := Loyalty c;
     Fame := Fame c; Greed := Greed c; Strategy := Strategy c;
     Interest := Interest c; Talent := Talent c; Tactics := Tactics c;
     Skills := Skills c |}.

Definition set_Loyalty (v : Z) (c : Character) : Character :=
  {| Name := Name c; Reading := Reading c; Zi := Zi c;
     DeathYear := DeathYear c; DeathPlus1 := DeathPlus1 c;
     Leadership := Leadership c; Force := Force c;
     Intelligence := Intelligence c; Politics := Politics c;
     Charm := Charm c; Personality := Personality c; Loyalty := v;
     Fame := Fame c; Greed := Greed c; Strategy := Strategy c;
     Interest := Interest c; Talent := Talent c; Tactics := Tactics c;
     Skills := Skills c |}.

Definition set_Fame (v : string) (c : Character) : Character :=
  {| Name := Name c; Reading := Reading c; Zi := Zi c;
     DeathYear := DeathYear c; DeathPlus1 := DeathPlus1 c;
     Leadership := Leadership c; Force := Force c;
     Intelligence := Intelligence c; Politics := Politics c;
     Charm := Charm c; Personality := Personality c;
     Loyalty := Loyalty c; Fame := v; Greed := Greed c;
     Strategy := Strategy c; Interest := Interest c; Talent := Talent c;
     Tactics := Tactics c; Skills := Skills c |}.

Definition set_Greed (v : string) (c : Character) : Character :=
  {| Name := Name c; Reading := Reading c; Zi := Zi c;
     DeathYear := DeathYear c; DeathPlus1 := DeathPlus1 c;
     Leadership := Leadership c; Force := Force c;
     Intelligence := Intelligence c; Politics := Politics c;
     Charm := Charm c; Personality := Personality c;
     Loyalty := Loyalty c; Fame := Fame c; Greed := v;
     Strategy := Strategy c; Interest := Interest c; Talent := Talent c;
     Tactics := Tactics c; Skills := Skills c |}.

Definition set_Strategy (v : string) (c : Character) : Character :=
  {| Name := Name c; Reading := Reading c; Zi := Zi c;
     DeathYear := DeathYear c; DeathPlus1 := DeathPlus1 c;
     Leadership := Leadership c; Force := Force c;
     Intelligence := Intelligence c; Politics := Politics c;
     Charm := Charm c; Personality := Personality c;
     Loyalty := Loyalty c; Fame := Fame c; Greed := Greed c;
     Strategy := v; Interest := Interest c; Talent := Talent c;
     Tactics := Tactics c; Skills := Skills c |}.

Definition set_Interest (v : string) (c : Character) : Character :=
  {| Name := Name c; Reading := Reading c; Zi := Zi c;
     DeathYear := DeathYear c; DeathPlus1 := DeathPlus1 c;
     Leadership := Leadership c; Force := Force c;
     Intelligence := Intelligence c; Politics := Politics c;
     Charm := Charm c; Personality := Personality c;
     Loyalty := Loyalty c; Fame := Fame c; Greed := Greed c;
     Strategy := Strategy c; Interest := v; Talent := Talent c;
     Tactics := Tactics c; Skills := Skills c |}.

Definition set_Talent (v : string) (c : Character) : Character :=
  {| Name := Name c; Reading := Reading c; Zi := Zi c;
     DeathYear := DeathYear c; DeathPlus1 := DeathPlus1 c;
     Leadership := Leadership c; Force := Force c;
     Intelligence := Intelligence c; Politics := Politics c;
     Charm := Charm c; Personality := Personality c;
     Loyalty := Loyalty c; Fame := Fame c; Greed := Greed c;
     Strategy := Strategy c; Interest := Interest c; Talent := v;
     Tactics := Tactics c; Skills := Skills c |}.

Definition set_Tactics (v : string) (c : Character) : Character :=
  {| Name := Name c; Reading := Reading c; Zi := Zi c;
     DeathYear := DeathYear c; DeathPlus1 := DeathPlus1 c;
     Leadership := Leadership c; Force := Force c;
     Intelligence := Intelligence c; Politics := Politics c;
     Charm := Charm c; Personality := Personality c;
     Loyalty := Loyalty c; Fame := Fame c; Greed := Greed c;
     Strategy := Strategy c; Interest := Interest c; Talent := Talent c;
     Tactics := v; Skills := Skills c |}.

Definition set_Skills (v : string) (c : Character) : Character :=
  {| Name := Name c; Reading := Reading c; Zi := Zi c;
     DeathYear := DeathYear c; DeathPlus1 := DeathPlus1 c;
     Leadership := Leadership c; Force := Force c;
     Intelligence := Intelligence c; Politics := Politics c;
     Charm := Charm c; Personality := Personality c;
     Loyalty := Loyalty c; Fame := Fame c; Greed := Greed c;
     Strategy := Strategy c; Interest := Interest c; Talent := Talent c;
     Tactics := Tactics c; Skills := v |}.

(** the value of [parts[k]] on a slice of strings, under the length test
    of the source *)
Definition part (parts : list string) (k : nat) : string := nth k parts "".

Definition extractNameAndReading (character : Character) (doc : Node) : Character :=
  match findNodeWithText doc "strong" with
  | None => character
  | Some nameNode =>
      let text := getNodeText nameNode in
      if negb (Contains text "(") || negb (Contains text ")") then character
      else
        let parts := Split text "(" in
        if (length parts <? 2)%nat then character
        else
          let character := set_Name (TrimSpace (part parts 0)) character in
          let reading := part (Split (part parts 1) ")") 0 in
          set_Reading (TrimSpace reading) character
  end.

Definition extractBasicInfoFromTable (character : Character) (table : Node)
  : Character :=
  let rows := findAllNodes table "tr" in
  forRange
    (fun row character =>
       let cells := findAllNodes row "td" in
       if (length cells <? 9)%nat then Next character
       else
         let character :=
           if (1 <? length cells)%nat
           then set_Zi (TrimSpace (getNodeText (at_ cells 1))) character
           else character in
         let character :=
           if (6 <? length cells)%nat
           then match Atoi (TrimSpace (getNodeText (at_ cells 6))) with
                | Some deathYear =>
                    set_DeathPlus1 (wrapInt (deathYear + 1))
                                   (set_DeathYear deathYear character)
                | None => character
                end
           else character in
         Stop character)
    rows character.

Fixpoint assign (abilities : list Z) (i : nat) (val : Z) : list Z :=
  match abilities, i with
  | [], _ => []
  | _ :: rest, O => val :: rest
  | a :: rest, S i' => a :: assign rest i' val
  end.

Definition extractAbilities (character : Character) (cells : list Node)
  : Character :=
  if (length cells <? 5)%nat then character
  else
    let '(abilities, allNumbers) :=
      forRange
        (fun i '(abilities, allNumbers) =>
           let text := TrimSpace (getNodeText (at_ cells i)) in
           match Atoi text with
           | Some val => Next (assign abilities i val, allNumbers)
           | None => Stop (abilities, false)
           end)
        (upTo 0 (Nat.min 5 (length cells)))
        (repeat 0%Z 5, true) in
    if allNumbers && (0 <? nth 0 abilities 0)%Z
    then set_Charm (nth 4 abilities 0%Z)
           (set_Politics (nth 3 abilities 0%Z)
              (set_Intelligence (nth 2 abilities 0%Z)
                 (set_Force (nth 1 abilities 0%Z)
                    (set_Leadership (nth 0 abilities 0%Z) character))))
    else character.

Definition extractPersonalityAndLoyalty (character : Character)
  (cells : list Node) : Character :=
  if (length cells <? 2)%nat then character
  else
    forRange
      (fun '(j, cell) character =>
         let text := TrimSpace (getNodeText cell) in
         if negb (slices_Contains personalityTypes text) then Next character
         else
           let character := set_Personality text character in
           Stop
             (forRange
                (fun k character =>
                   let loyaltyText := TrimSpace (getNodeText (at_ cells k)) in
                   match Atoi loyaltyText with
                   | Some val => Stop (set_Loyalty val character)
                   | None => Next character
                   end)
                (upTo (j + 1) (length cells)) character))
      (indexed cells) character.

Definition extractGreed (character : Character) (cells : list Node)
  (startIndex : nat) : Character :=
  if (length cells <=? startIndex + 1)%nat then character
  else
    let greedText := TrimSpace (getNodeText (at_ cells (startIndex + 1))) in
    if negb (greedText =? "") && negb (greedText =? "-") && negb (greedText =? "ー")
    then set_Greed greedText character
    else character.

Definition extractStrategy (character : Character) (cells : list Node)
  (startIndex : nat) : Character :=
  forRange
    (fun k character =>
       let strategyText := TrimSpace (getNodeText (at_ cells k)) in
       if (strategyText =? "") || (strategyText =? "ー") then Next character
       else if slices_Contains strategyTypes strategyText
            then Stop (set_Strategy strategyText character)
            else if strategyText =? "-"
                 then Stop (set_Strategy "-" character)
                 else Next character)
    (upTo (startIndex + 2) (Nat.min (length cells) (startIndex + 4)))
    character.

Definition extractStatusInfo (character : Character) (row : Node)
  (cells : list Node) : Character :=
  if containsAnyTexts row statusHeaders then character
  else if (length cells <? 3)%nat then character
  else
    forRange
      (fun '(j, cell) character =>
         let text := TrimSpace (getNodeText cell) in
         if negb (slices_Contains fameTypes text) then Next character
         else
           let character := set_Fame text character in
           let character := extractGreed character cells j in
           let character := extractStrategy character cells j in
           Stop character)
      (indexed cells) character.

Definition extractAbilitiesFromTable (character : Character) (table : Node)
  : Character :=
  let rows := findAllNodes table "tr" in
  forRange
    (fun row character =>
       let cells := findAllNodes row "td" in
       let character := extractAbilities character cells in
       let character := extractPersonalityAndLoyalty character cells in
       Next (extractStatusInfo character row cells))
    rows character.

Definition extractTalentFromTable (character : Character) (table : Node)
  : Character :=
  let rows := findAllNodes table "tr" in
  forRange
    (fun row character =>
       let cells := findAllNodes row "td" in
       rangeFlow
         (fun cell character =>
            if hasStyle cell "background-color:gold"
            then Stop (set_Talent (TrimSpace (getNodeText cell)) character)
            else Next character)
         cells character)
    rows character.

(** the [switch] of the first loop of [extractFromTables] *)
Definition classifyAndExtract (character : Character) (table : Node)
  : Character :=
  if containsAllTexts table basicInfoHeaders
  then extractBasicInfoFromTable character table
  else if containsAllTexts table abilityHeaders
       then extractAbilitiesFromTable character table
       else if containsAnyTexts table talentHeaders
            then extractTalentFromTable character table
            else character.

(** the second loop of [extractFromTables], entered when no talent was found *)
Definition talentFallback (character : Character) (tables : list Node)
  : Character :=
  forRange
    (fun table character =>
       let character := extractTalentFromTable character table in
       if negb (Talent character =? "") then Stop character else Next character)
    tables character.

Definition extractFromTables (character : Character) (doc : Node) : Character :=
  let tables := findAllNodes doc "table" in
  let character :=
    forRange (fun table character => Next (classifyAndExtract character table))
             tables character in
  if Talent character =? "" then talentFallback character tables else character.

End Part000.

(** ** Reference notions used to state the properties *)

Import Go Html.

(** the text an extractor reads from a cell *)
Definition cellText (cell : Node) : string := TrimSpace (getNodeText cell).

(** the first cell satisfying [p], with its index counted from [k] *)
Fixpoint firstFrom (p : Node -> bool) (k : nat) (cells : list Node)
  : option (nat * Node) :=
  match cells with
  | [] => None
  | cell :: rest => if p cell then Some (k, cell) else firstFrom p (S k) rest
  end.

Definition firstCell (p : Node -> bool) (cells : list Node) : option (nat * Node) :=
  firstFrom p 0 cells.

Definition isFameCell (cell : Node) : bool :=
  slices_Contains (MainGo.FameTypes MainGo.rules) (cellText cell).

Definition isPersonalityCell (cell : Node) : bool :=
  slices_Contains (MainGo.PersonalityTypes MainGo.rules) (cellText cell).

Definition parsesAsInt (cell : Node) : bool :=
  match Atoi (cellText cell) with Some _ => true | None => false end.

(** a row that [extractStatusInfo] reads as data: no status header keyword
    in its text and at least three cells *)
Definition isDataRow (row : Node) (cells : list Node) : bool :=
  negb (containsAnyTexts row (MainGo.StatusHeaders MainGo.rules))
  && (3 <=? length cells)%nat.

(** the strategy scan in the words of the specification: over the texts of
    the cells offered to it, skip the empty text and the long dash, commit
    a vocabulary member or the hyphen, skip anything else; [old] is the
    value kept when nothing is committed *)
Fixpoint strategyScan (texts : list string) (old : string) : string :=
  match texts with
  | [] => old
  | t :: rest =>
      if (t =? "") || (t =? "ー") then strategyScan rest old
      else if slices_Contains (MainGo.StrategyTypes MainGo.rules) t || (t =? "-")
           then t
           else strategyScan rest old
  end.

(** the cells at positions [j+2] and [j+3], as far as the row has them *)
Definition twoAfterGreed (cells : list Node) (j : nat) : list Node :=
  firstn 2 (skipn (j + 2) cells).

(** the three cell texts that suppress the assignment of greed *)
Definition greedSuppressed (t : string) : bool :=
  (t =? "") || (t =? "-") || (t =? "ー").

(** ** Sample rows and documents *)

Definition cellsOfTexts (texts : list string) : list Node := map td texts.

(** the status row of the specification's example *)
Definition statusCells : list Node := cellsOfTexts ["武名"; "高"; "ー"; "好戦"].
Definition statusRow : Node := tr statusCells.

(** the value of the first cell of [cells] that parses as an integer *)
Fixpoint firstInt (cells : list Node) : option Z :=
  match cells with
  | [] => None
  | cell :: rest =>
      match Atoi (cellText cell) with
      | Some v => Some v
      | None => firstInt rest
      end
  end.

(** a one-cell row holding a personality *)
Definition lonePersonality : list Node := cellsOfTexts ["豪胆"].

(** a personality followed by cells that are not numbers *)
Definition personalityNoLoyalty : list Node := cellsOfTexts ["豪胆"; "ー"; "高"].

(** the five ability fields of a record *)
Definition abilities (c : MainGo.Character) : Z * Z * Z * Z * Z :=
  (MainGo.Leadership c, MainGo.Force c, MainGo.Intelligence c,
   MainGo.Politics c, MainGo.Charm c).

(** the values of the first five cells of a row, when the row has five
    cells and each of the five texts parses as an integer *)
Definition firstFive (cells : list Node) : option (Z * Z * Z * Z * Z) :=
  match cells with
  | c0 :: c1 :: c2 :: c3 :: c4 :: _ =>
      match Atoi (cellText c0), Atoi (cellText c1), Atoi (cellText c2),
            Atoi (cellText c3), Atoi (cellText c4) with
      | Some a0, Some a1, Some a2, Some a3, Some a4 => Some (a0, a1, a2, a3, a4)
      | _, _, _, _, _ => None
      end
  | _ => None
  end.

(** the five assignments of a committed row *)
Definition commitAbilities (q : Z * Z * Z * Z * Z) (c : MainGo.Character)
  : MainGo.Character :=
  let '(a0, a1, a2, a3, a4) := q in
  MainGo.set_Charm a4
    (MainGo.set_Politics a3
       (MainGo.set_Intelligence a2
          (MainGo.set_Force a1 (MainGo.set_Leadership a0 c)))).


(** the classification tests of the tactics/skills pass *)
Definition isTacticsTable (table : Node) : bool :=
  containsAnyTexts table (MainGo.TacticsHeaders MainGo.rules).

Definition isSkillsTable (table : Node) : bool :=
  containsAnyTexts table (MainGo.SkillsHeaders MainGo.rules).

(** the cells met under the rows of a table, row after row *)
Definition rowCells (table : Node) : list Node :=
  flat_map (fun row => findAllNodes row "td") (findAllNodes table "tr").

(** the cleaned texts of the 70px cells of a table, without the empty text
    and the category keywords *)
Definition cleanedItems (table : Node) (isCategory : string -> bool) : list string :=
  filter (fun text => negb (text =? "") && negb (isCategory text))
    (map (fun cell => MainGo.cleanTacticSkillText (TrimSpace (getNodeText cell)))
       (filter (fun cell => hasStyleWidth cell "70px") (rowCells table))).

(** the last table of a list that satisfies [p] *)
Definition lastMatch (p : Node -> bool) (tables : list Node) : option Node :=
  find p (List.rev tables).

Definition itemsOfLast (p : Node -> bool) (isCategory : string -> bool)
  (tables : list Node) : list string :=
  match lastMatch p tables with
  | Some table => cleanedItems table isCategory
  | None => []
  end.

(** the Tactics output in the words of the specification: the cleaned
    texts of all tactics tables, accumulated in document order *)
Definition accumulatedTactics (doc : Node) : string :=
  Join (flat_map (fun table => cleanedItems table MainGo.isTacticCategory)
          (filter isTacticsTable (findAllNodes doc "table")))
       ", ".

(** a page with two tables that classify as tactics *)
Definition twoTacticsTables : Node :=
  document
    [elem "html"
       [elem "body"
          [table [tr [td "戦法"];
                  tr [tdStyle "width:70px" "火計(強)"; tdStyle "width:70px" "歩兵"]];
           table [tr [td "戦法"; tdStyle "width:70px;" "突撃"]]]]].

(** a table whose text has both header keywords, between two other tables *)
Definition bothKeywordsTable : Node :=
  table [tr [td "戦法"; td "特技"]; tr [tdStyle "width:70px" "連環"]].

Definition skillsOnlyTable : Node :=
  table [tr [td "特技"]; tr [tdStyle "width:70px" "神算"]].

Definition isGoldCell (cell : Node) : bool := hasStyle cell "background-color:gold".

(** the text of the first gold-styled cell under the rows of a table *)
Definition goldText (table : Node) : option string :=
  option_map cellText (find isGoldCell (rowCells table)).

(** the talent of the first table, in order, whose first gold-styled cell
    has a non-empty text; empty when there is none *)
Fixpoint firstTalent (tables : list Node) : string :=
  match tables with
  | [] => ""
  | table :: rest =>
      match goldText table with
      | Some s => if s =? "" then firstTalent rest else s
      | None => firstTalent rest
      end
  end.

(** the fallback in the words of the specification: the talent is taken
    from the first table that contains a gold-styled cell, whatever its
    classification *)
Definition talentOfFirstGoldTable (tables : list Node) : string :=
  match find (fun table => existsb isGoldCell (rowCells table)) tables with
  | Some table => match goldText table with Some s => s | None => "" end
  | None => ""
  end.

(** the first loop of [extractFromTables] *)
Definition classifiedPass (c : MainGo.Character) (doc : Node) : MainGo.Character :=
  forRange (fun table character => Next (MainGo.classifyAndExtract character table))
           (findAllNodes doc "table") c.

Definition classifiedPass000 (c : Part000.Character) (doc : Node)
  : Part000.Character :=
  forRange (fun table character => Next (Part000.classifyAndExtract character table))
           (findAllNodes doc "table") c.

(** a gold cell in a table without the talent keywords *)
Definition goldOutsideTalentTable : Node :=
  document
    [elem "body" [table [tr [td "名称"; tdStyle "background-color:gold;" "神算"]]]].

(** a gold cell without text, then a table with a named gold cell *)
Definition emptyGoldThenNamed : Node :=
  document
    [elem "body"
       [table [tr [tdStyle "background-color:gold;" " "]];
        table [tr [tdStyle "background-color:gold;" "鬼謀"]]]].

(** the text of the first [strong] element, when there is one *)
Definition strongText (doc : Node) : option string :=
  option_map getNodeText (findNodeWithText doc "strong").

(** the texts on which the two name/reading parsers agree: no '(' at all,
    no ')' at all, or a ')' after the first '(' with no second '(' before
    it *)
Definition parsersAgreeOn (text : string) : bool :=
  negb (Contains text "(")
  || negb (Contains text ")")
  || (let '(_, rest, _) := Cut text "(" in
      let '(reading, _, found) := Cut rest ")" in
      found && negb (Contains reading "(")).

(** name and reading in the words of the specification *)
Definition nameAndReadingOf (text : string) : string * string :=
  let '(name, rest, found) := Cut text "(" in
  if found
  then let '(reading, _, found') := Cut rest ")" in
       if found' then (TrimSpace name, TrimSpace reading) else ("", "")
  else ("", "").

Definition heading (s : string) : Node := document [elem "body" [elem "strong" [text s]]].

(** ** Sample worlds *)

(** a server that answers every request with status 429 *)
Definition alwaysRateLimited (url : string) (w : unit) : MainGo.Exchange * unit :=
  (MainGo.Responded 429 "429 Too Many Requests" (MainGo.Parsed (document [])), w).

(** a server that answers every request with status 500 *)
Definition alwaysServerError (url : string) (w : unit) : MainGo.Exchange * unit :=
  (MainGo.Responded 500 "500 Internal Server Error" (MainGo.Parsed (document [])), w).

(** a server that answers the first request with status 429 and every later
    one with the page [doc]; the world counts the requests *)
Definition rateLimitedOnce (doc : Node) (url : string) (w : nat) : MainGo.Exchange * nat :=
  match w with
  | O => (MainGo.Responded 429 "429 Too Many Requests" (MainGo.Parsed (document [])), S w)
  | S _ => (MainGo.Responded 200 "200 OK" (MainGo.Parsed doc), S w)
  end.

Definition start {World : Type} (w : World) : MainGo.Sys :=
  {| MainGo.world := w; MainGo.trace := [] |}.

(** the state [s] after the events [evs] *)
Definition after {World : Type} (s : @MainGo.Sys World) (evs : list MainGo.Event)
  : MainGo.Sys :=
  {| MainGo.world := MainGo.world s; MainGo.trace := (MainGo.trace s ++ evs)%list |}.

(** the progress line of the batch loop *)
Definition progressLine (i totalCount : Z) (url : string) : MainGo.Event :=
  MainGo.Printed ("処理中 (%d/%d): %s" ++ MainGo.newline)
                 [MainGo.AInt (i + 1); MainGo.AInt totalCount; MainGo.AStr url].

(** the notice printed before a backoff sleep *)
Definition retryNotice (delay attempt maxRetries : Z) : MainGo.Event :=
  MainGo.Printed
    ("429エラーが発生しました。%v後にリトライします... (試行 %d/%d)" ++ MainGo.newline)
    [MainGo.ADuration delay; MainGo.AInt (attempt + 2); MainGo.AInt maxRetries].

(** the fatal test in the words of the specification *)
Definition fatalText (err : string) : bool :=
  Contains err "429" || Contains err "Too Many Requests"
  || Contains err "最大リトライ回数に達しました".

(** the two log lines of [handleProcessingError] *)
Definition errorLine (url err : string) : string :=
  "URL " ++ url ++ " の処理エラー: " ++ err.

Definition fatalLine (url err : string) : string :=
  "レート制限に達しました。しばらく時間を置いてから再実行してください: "
    ++ errorLine url err.

(** the enumerated fields hold a word of their vocabulary or nothing;
    strategy may also hold the hyphen *)
Definition validEnums (c : MainGo.Character) : Prop :=
  (MainGo.Personality c = ""
   \/ slices_Contains (MainGo.PersonalityTypes MainGo.rules) (MainGo.Personality c) = true)
  /\ (MainGo.Fame c = ""
      \/ slices_Contains (MainGo.FameTypes MainGo.rules) (MainGo.Fame c) = true)
  /\ (MainGo.Strategy c = ""
      \/ MainGo.Strategy c = "-"
      \/ slices_Contains (MainGo.StrategyTypes MainGo.rules) (MainGo.Strategy c) = true).

(** the fields [extractFromTables] has no assignment for *)
Definition outsideTables (c : MainGo.Character)
  : string * string * string * string * string :=
  (MainGo.Name c, MainGo.Reading c, MainGo.Interest c, MainGo.Tactics c,
   MainGo.Skills c).

(** the width test and the vocabulary test of the interest scan *)
Definition hasInterestWidth (cell : Node) : bool :=
  hasAnyStyleWidth cell (MainGo.InterestWidths MainGo.rules).

Definition interestTexts (doc : Node) : list string :=
  filter MainGo.isInterestCell
    (map cellText (filter hasInterestWidth (findAllNodes doc "td"))).

(** the cells of the specification's interest example, all of width 60px *)
Definition interestPage : Node :=
  document
    [table [tr (map (tdStyle "width:60px;") ["興味"; "武具"; "ー"; "書物"; "-"])]].

(** the first row of a table with at least nine cells *)
Definition firstLongRow (table : Node) : option Node :=
  find (fun row => (9 <=? length (findAllNodes row "td"))%nat)
       (findAllNodes table "tr").

(** two ability rows *)
Definition abilityRowA : list Node := cellsOfTexts ["70"; "71"; "72"; "73"; "74"].
Definition abilityRowB : list Node := cellsOfTexts ["120"; "95"; "60"; "70"; "80"].

(** a server that plays a script of exchanges, one per request, and refuses
    the connection once the script is over *)
Definition scripted (url : string) (w : list MainGo.Exchange)
  : MainGo.Exchange * list MainGo.Exchange :=
  match w with
  | x :: rest => (x, rest)
  | [] => (MainGo.TransportFailed "connection refused", [])
  end.

Definition tooManyRequests : MainGo.Exchange :=
  MainGo.Responded 429 "429 Too Many Requests" (MainGo.Parsed (document [])).

Definition serverError : MainGo.Exchange :=
  MainGo.Responded 500 "500 Internal Server Error" (MainGo.Parsed (document [])).

(** a server that answers every request for [url] with the page [pages url] *)
Definition serving (pages : string -> Node) (url : string) (w : unit)
  : MainGo.Exchange * unit :=
  (MainGo.Responded 200 "200 OK" (MainGo.Parsed (pages url)), w).

(** the backoff sleeps a call of [extractCharacterInfoWithRetry] can make *)
Definition backoffs : list (list Z) :=
  [[]; [2 * MainGo.Second]; [2 * MainGo.Second; 4 * MainGo.Second]]%Z.

(** the value of an upper-case hexadecimal digit *)
Definition unhex (c : ascii) : N :=
  if byte_in c 48 57 then (N_of_ascii c - 48)%N else (N_of_ascii c - 55)%N.

(** the reading back of an escaped query component: [+] is a space, [%]
    and two digits a byte, any other byte itself; a text that ends inside
    an escape is returned as it is *)
Fixpoint unescapeQuery (s : string) : string :=
  match s with
  | EmptyString => EmptyString
  | String c s1 =>
      if byte_is c 43 then String " " (unescapeQuery s1)
      else if byte_is c 37
           then match s1 with
                | String h (String l s3) =>
                    String (ascii_of_N (unhex h * 16 + unhex l)) (unescapeQuery s3)
                | _ => s
                end
           else String c (unescapeQuery s1)
  end.

(** a category file with one repeated name, and one without *)
Definition repeatedNames : list (string * list string) :=
  [("奇才", ["曹操"; "関羽"; "曹操"])].

Definition distinctNames : list (string * list string) :=
  [("奇才", ["曹操"; "関羽"]); ("武官", ["張飛"])].

(** the bytes an escaped query component is made of *)
Definition isQuerySafe (c : ascii) : bool :=
  isAlnum c || byte_is c 45 || byte_is c 95 || byte_is c 46 || byte_is c 126
  || byte_is c 43 || byte_is c 37.

Fixpoint allBytes (p : ascii -> bool) (s : string) : bool :=
  match s with
  | EmptyString => true
  | String c s' => p c && allBytes p s'
  end.

(** the error text of a response of status 500 *)
Definition serverErrorText : string := "HTTPエラー: 500 500 Internal Server Error".

(** two data rows of one ability table: the first sets greed, the second
    has a hyphen after its fame word *)
Definition greedRowA : list Node := cellsOfTexts ["武名"; "高"; "好戦"].
Definition greedRowB : list Node := cellsOfTexts ["高名"; "-"; "普通"].
Definition twoStatusRows : Node := table [tr greedRowA; tr greedRowB].

(** a table with both header keywords that holds, in one of its cells, a
    table with the skills keyword only *)
Definition nestedSkillsCell : Node := tdStyle "width:70px" "神算".
Definition innerSkillsTable : Node := table [tr [td "特技"; nestedSkillsCell]].
Definition outerBothTable : Node :=
  table [tr [td "戦法"; elem "td" [innerSkillsTable]]].
Definition nestedTablesPage : Node := document [elem "body" [outerBothTable]].




(** * Properties *)

(** ** The loops *)

Section Loops.

Context {A B : Type}.

Lemma rangeFlow_app (body : B -> A -> Flow A) (l1 l2 : list B) (a : A) :
  rangeFlow body (l1 ++ l2) a =
    match rangeFlow body l1 a with
    | Next a' => rangeFlow body l2 a'
    | Stop a' => Stop a'
    end.
Proof.
  revert a; induction l1 as [|x l1 IH]; intros a; simpl; [reflexivity|].
  destruct (body x a); [apply IH | reflexivity].
Qed.

(** a loop whose body never leaves it is a left fold *)
Lemma forRange_fold (f : B -> A -> A) (l : list B) (a : A) :
  forRange (fun x a => Next (f x a)) l a = fold_left (fun a x => f x a) l a.
Proof.
  unfold forRange; revert a; induction l as [|x l IH]; intros a; simpl;
    [reflexivity | apply IH].
Qed.

(** a loop that leaves at the first element satisfying [p] *)
Lemma rangeFlow_find (p : B -> bool) (f : B -> A -> A) (l : list B) (a : A) :
  rangeFlow (fun x a => if p x then Stop (f x a) else Next a) l a =
    match find p l with
    | Some x => Stop (f x a)
    | None => Next a
    end.
Proof.
  induction l as [|x l IH]; simpl; [reflexivity|].
  destruct (p x); [reflexivity | apply IH].
Qed.

(** nested [range] loops whose inner [return] leaves both *)
Lemma rangeFlow_flat_map {C : Type} (g : C -> list B) (body : B -> A -> Flow A)
  (rows : list C) (a : A) :
  rangeFlow (fun row a => rangeFlow body (g row) a) rows a =
    rangeFlow body (flat_map g rows) a.
Proof.
  revert a; induction rows as [|row rows IH]; intros a; simpl; [reflexivity|].
  rewrite rangeFlow_app.
  destruct (rangeFlow body (g row) a); [apply IH | reflexivity].
Qed.

(** a property kept by every iteration is kept by the loop *)
Lemma rangeFlow_invariant (P : A -> Prop) (body : B -> A -> Flow A) (l : list B) :
  (forall x a, P a -> P (result (body x a))) ->
  forall a, P a -> P (result (rangeFlow body l a)).
Proof.
  intros Hbody; induction l as [|x l IH]; intros a Ha; simpl; [exact Ha|].
  specialize (Hbody x a Ha).
  destruct (body x a) as [a'|a']; simpl in *; [apply IH; exact Hbody | exact Hbody].
Qed.

Lemma forRange_invariant (P : A -> Prop) (body : B -> A -> Flow A) (l : list B) :
  (forall x a, P a -> P (result (body x a))) ->
  forall a, P a -> P (forRange body l a).
Proof. apply rangeFlow_invariant. Qed.

End Loops.

(** the [for j, cell := range cells] loop that handles the first cell
    satisfying [p] and leaves *)
Lemma rangeFlow_first {A : Type} (p : Node -> bool) (f : nat -> Node -> A -> A)
  (cells : list Node) (k : nat) (a : A) :
  rangeFlow (fun '(j, cell) a => if negb (p cell) then Next a else Stop (f j cell a))
            (combine (seq k (length cells)) cells) a =
    match firstFrom p k cells with
    | Some (j, cell) => Stop (f j cell a)
    | None => Next a
    end.
Proof.
  revert k; induction cells as [|cell cells IH]; intros k; simpl; [reflexivity|].
  destruct (p cell); simpl; [reflexivity | apply IH].
Qed.

Lemma firstFrom_spec (p : Node -> bool) (cells : list Node) (k j : nat) (cell : Node) :
  firstFrom p k cells = Some (j, cell) ->
  (k <= j)%nat /\ nth_error cells (j - k) = Some cell /\ p cell = true.
Proof.
  revert k; induction cells as [|c cells IH]; intros k; simpl; [discriminate|].
  destruct (p c) eqn:Hp.
  - intros H; injection H as <- <-. rewrite Nat.sub_diag. auto.
  - intros H. destruct (IH _ H) as (Hle & Hnth & Hc).
    split; [lia|]. split; [|exact Hc].
    replace (j - k)%nat with (S (j - S k)) by lia. exact Hnth.
Qed.

Lemma at_nth_error (cells : list Node) (k : nat) (cell : Node) :
  nth_error cells k = Some cell -> at_ cells k = cell.
Proof. intros H; unfold at_; apply nth_error_nth; exact H. Qed.

(** ** Indexing a row *)

Lemma skipn_at (cells : list Node) (a : nat) :
  (a < length cells)%nat -> skipn a cells = at_ cells a :: skipn (S a) cells.
Proof.
  revert a; induction cells as [|c cells IH]; intros a Ha; simpl in Ha; [lia|].
  destruct a as [|a]; [reflexivity|].
  change (skipn a cells = at_ cells a :: skipn (S a) cells).
  apply IH; lia.
Qed.

Lemma map_at_seq (cells : list Node) (n a : nat) :
  (a + n <= length cells)%nat -> map (at_ cells) (seq a n) = firstn n (skipn a cells).
Proof.
  revert a; induction n as [|n IH]; intros a Ha; [reflexivity|].
  rewrite (skipn_at cells a) by lia. simpl. f_equal. apply IH; lia.
Qed.

Lemma map_at_upTo (cells : list Node) (a w : nat) :
  map (at_ cells) (upTo a (Nat.min (length cells) (a + w))) = firstn w (skipn a cells).
Proof.
  unfold upTo.
  destruct (Nat.le_ge_cases (length cells) a) as [Ha|Ha].
  - replace (Nat.min (length cells) (a + w) - a)%nat with 0%nat by lia.
    rewrite skipn_all2 by exact Ha. rewrite firstn_nil. reflexivity.
  - rewrite map_at_seq by lia.
    destruct (Nat.le_ge_cases (a + w) (length cells)) as [H|H].
    + f_equal; lia.
    + rewrite !firstn_all2;
        [reflexivity | rewrite length_skipn; lia | rewrite length_skipn; lia].
Qed.

(** ** Record bookkeeping *)

Lemma set_Strategy_same (c : MainGo.Character) :
  MainGo.set_Strategy (MainGo.Strategy c) c = c.
Proof. destruct c; reflexivity. Qed.

(** ** Strategy (claim C7) *)

Lemma strategy_loop_scan (cells : list Node) (ks : list nat) (c : MainGo.Character) :
  forRange
    (fun k character =>
       let strategyText := TrimSpace (getNodeText (at_ cells k)) in
       if (strategyText =? "") || (strategyText =? "ー") then Next character
       else if slices_Contains (MainGo.StrategyTypes MainGo.rules) strategyText
            then Stop (MainGo.set_Strategy strategyText character)
            else if strategyText =? "-"
                 then Stop (MainGo.set_Strategy "-" character)
                 else Next character)
    ks c
  = MainGo.set_Strategy
      (strategyScan (map cellText (map (at_ cells) ks)) (MainGo.Strategy c)) c.
Proof.
  unfold forRange.
  induction ks as [|k ks IH]; cbn [rangeFlow map strategyScan result].
  - symmetry; apply set_Strategy_same.
  - fold (cellText (at_ cells k)). cbv zeta.
    destruct ((cellText (at_ cells k) =? "") || (cellText (at_ cells k) =? "ー"));
      [exact IH|].
    destruct (slices_Contains (MainGo.StrategyTypes MainGo.rules) (cellText (at_ cells k)));
      cbn [orb result]; [reflexivity|].
    destruct (cellText (at_ cells k) =? "-") eqn:E; [|exact IH].
    apply String.eqb_eq in E. rewrite E. reflexivity.
Qed.

Lemma extractStrategy_scan (c : MainGo.Character) (cells : list Node) (j : nat) :
  MainGo.extractStrategy c cells j =
    MainGo.set_Strategy
      (strategyScan (map cellText (twoAfterGreed cells j)) (MainGo.Strategy c)) c.
Proof.
  unfold MainGo.extractStrategy, twoAfterGreed.
  rewrite strategy_loop_scan.
  replace (j + 4)%nat with (j + 2 + 2)%nat by lia.
  rewrite map_at_upTo. reflexivity.
Qed.

(** ** Fame, greed and strategy of a data row (claims C7 and C8) *)

Lemma extractGreed_nth (c : MainGo.Character) (cells : list Node) (j : nat) :
  MainGo.extractGreed c cells j =
    match nth_error cells (j + 1) with
    | Some cell =>
        if greedSuppressed (cellText cell) then c
        else MainGo.set_Greed (cellText cell) c
    | None => c
    end.
Proof.
  unfold MainGo.extractGreed.
  destruct (length cells <=? j + 1)%nat eqn:E.
  - apply Nat.leb_le in E. apply nth_error_None in E. rewrite E. reflexivity.
  - apply Nat.leb_gt in E.
    destruct (nth_error cells (j + 1)) as [cell|] eqn:N;
      [|apply nth_error_None in N; lia].
    rewrite (at_nth_error _ _ _ N). cbv zeta. fold (cellText cell).
    unfold greedSuppressed.
    destruct (cellText cell =? ""), (cellText cell =? "-"), (cellText cell =? "ー");
      reflexivity.
Qed.

Lemma extractGreed_Strategy (c : MainGo.Character) (cells : list Node) (j : nat) :
  MainGo.Strategy (MainGo.extractGreed c cells j) = MainGo.Strategy c.
Proof.
  rewrite extractGreed_nth.
  destruct (nth_error cells (j + 1)) as [cell|]; [|reflexivity].
  destruct (greedSuppressed (cellText cell)); reflexivity.
Qed.

(** in a data row the first fame cell decides the three status fields *)
Lemma extractStatusInfo_data (c : MainGo.Character) (row : Node)
  (cells : list Node) (j : nat) (fameCell : Node) :
  isDataRow row cells = true ->
  firstCell isFameCell cells = Some (j, fameCell) ->
  MainGo.extractStatusInfo c row cells =
    MainGo.extractStrategy
      (MainGo.extractGreed (MainGo.set_Fame (cellText fameCell) c) cells j) cells j.
Proof.
  unfold isDataRow, firstCell. intros Hrow Hfame.
  apply andb_true_iff in Hrow as [Hhead Hlen].
  apply negb_true_iff in Hhead. apply Nat.leb_le in Hlen.
  unfold MainGo.extractStatusInfo. rewrite Hhead.
  replace (length cells <? 3)%nat with false by (symmetry; apply Nat.ltb_ge; lia).
  pose proof
    (rangeFlow_first isFameCell
       (fun j cell character =>
          MainGo.extractStrategy
            (MainGo.extractGreed (MainGo.set_Fame (cellText cell) character) cells j)
            cells j)
       cells 0 c) as R.
  rewrite Hfame in R.
  exact (f_equal result R).
Qed.

(** a row without a fame cell, a header row and a short row change nothing *)
Lemma extractStatusInfo_skip (c : MainGo.Character) (row : Node) (cells : list Node) :
  isDataRow row cells = false \/ firstCell isFameCell cells = None ->
  MainGo.extractStatusInfo c row cells = c.
Proof.
  unfold isDataRow, firstCell, MainGo.extractStatusInfo.
  intros [Hrow|Hfame].
  - destruct (containsAnyTexts row (MainGo.StatusHeaders MainGo.rules));
      [reflexivity|].
    cbn [negb andb] in Hrow. apply Nat.leb_gt in Hrow.
    replace (length cells <? 3)%nat with true by (symmetry; apply Nat.ltb_lt; lia).
    reflexivity.
  - destruct (containsAnyTexts row (MainGo.StatusHeaders MainGo.rules));
      [reflexivity|].
    destruct (length cells <? 3)%nat; [reflexivity|].
    pose proof
      (rangeFlow_first isFameCell
         (fun j cell character =>
            MainGo.extractStrategy
              (MainGo.extractGreed (MainGo.set_Fame (cellText cell) character) cells j)
              cells j)
         cells 0 c) as R.
    rewrite Hfame in R.
    exact (f_equal result R).
Qed.

(** C7.  In a data row whose fame cell is at index [j], the strategy scan
    reads only the cells [j+2] and [j+3]: it skips the empty text and the
    long dash, commits the first text that is in the strategy vocabulary or
    is the hyphen and stops there, and skips any other text; when nothing is
    committed the field keeps its value.  On the cells
    [fame, greed, "ー", "好戦"] the strategy becomes "好戦". *)
Theorem C7_strategy_scan :
  forall (c : MainGo.Character) (row : Node) (cells : list Node) (j : nat)
         (fameCell : Node),
    MainGo.extractStrategy c cells j =
      MainGo.set_Strategy
        (strategyScan (map cellText (twoAfterGreed cells j)) (MainGo.Strategy c)) c
    /\ (isDataRow row cells = true ->
        firstCell isFameCell cells = Some (j, fameCell) ->
        MainGo.Strategy (MainGo.extractStatusInfo c row cells) =
          strategyScan (map cellText (twoAfterGreed cells j)) (MainGo.Strategy c))
    /\ (forall fame greed : Node,
          MainGo.Strategy
            (MainGo.extractStrategy c [fame; greed; td "ー"; td "好戦"] 0) = "好戦").
Proof.
  intros c row cells j fameCell. split; [apply extractStrategy_scan|]. split.
  - intros Hrow Hfame.
    rewrite (extractStatusInfo_data c row cells j fameCell Hrow Hfame).
    rewrite extractStrategy_scan.
    unfold MainGo.set_Strategy at 1. cbn [MainGo.Strategy].
    rewrite extractGreed_Strategy. reflexivity.
  - intros fame greed. rewrite extractStrategy_scan.
    unfold MainGo.set_Strategy. cbn [MainGo.Strategy].
    reflexivity.
Qed.

Lemma C7_strategy_scan_witness :
  MainGo.Strategy (MainGo.extractStatusInfo MainGo.emptyCharacter statusRow statusCells)
  = strategyScan (map cellText (twoAfterGreed statusCells 0)) "".
Proof.
  apply (proj1 (proj2 (C7_strategy_scan MainGo.emptyCharacter statusRow statusCells
                         0 (td "武名"))));
    vm_compute; reflexivity.
Defined.

(** C8 (as amended).  In a data row whose fame cell is at index [j], greed
    becomes the trimmed text of cell [j+1] exactly when that text is none of
    the empty text, the hyphen and the long dash; each of the three, and a
    missing cell, suppresses the assignment and leaves the field as it was:
    empty on a fresh record, the greed of an earlier row otherwise.  Any
    other text is stored as it is. *)
Theorem C8_greed_after_fame :
  forall (c : MainGo.Character) (row : Node) (cells : list Node) (j : nat)
         (fameCell : Node),
    isDataRow row cells = true ->
    firstCell isFameCell cells = Some (j, fameCell) ->
    MainGo.Greed (MainGo.extractStatusInfo c row cells) =
      match nth_error cells (j + 1) with
      | Some cell =>
          if greedSuppressed (cellText cell) then MainGo.Greed c else cellText cell
      | None => MainGo.Greed c
      end.
Proof.
  intros c row cells j fameCell Hrow Hfame.
  rewrite (extractStatusInfo_data c row cells j fameCell Hrow Hfame).
  rewrite extractStrategy_scan.
  unfold MainGo.set_Strategy at 1. cbn [MainGo.Greed].
  rewrite extractGreed_nth.
  destruct (nth_error cells (j + 1)) as [cell|]; [|reflexivity].
  destruct (greedSuppressed (cellText cell)); reflexivity.
Qed.

Lemma C8_greed_after_fame_witness :
  MainGo.Greed (MainGo.extractStatusInfo MainGo.emptyCharacter statusRow statusCells)
  = "高".
Proof.
  apply (eq_trans
           (C8_greed_after_fame MainGo.emptyCharacter statusRow statusCells 0
              (td "武名") eq_refl eq_refl)).
  vm_compute; reflexivity.
Defined.

(** C8 as stated fails on the second data row of a table: its cell after
    the fame word is the hyphen, yet greed is not left empty but keeps the
    text the first row stored. *)
Lemma C8_counterexample :
  isDataRow (tr greedRowB) greedRowB = true
  /\ firstCell isFameCell greedRowB = Some (0%nat, td "高名")
  /\ option_map cellText (nth_error greedRowB 1) = Some "-"
  /\ MainGo.Greed
       (MainGo.extractStatusInfo
          (MainGo.extractStatusInfo MainGo.emptyCharacter (tr greedRowA) greedRowA)
          (tr greedRowB) greedRowB) = "高"
  /\ MainGo.Greed (MainGo.extractAbilitiesFromTable MainGo.emptyCharacter twoStatusRows)
     = "高"
  /\ MainGo.Greed (MainGo.extractAbilitiesFromTable MainGo.emptyCharacter twoStatusRows)
     <> "".
Proof.
  repeat split; try (vm_compute; reflexivity). vm_compute. discriminate.
Qed.

(** ** Personality and loyalty (claim C10) *)

Lemma loyalty_loop_firstInt (cells : list Node) (ks : list nat) (c : MainGo.Character) :
  forRange
    (fun k character =>
       let loyaltyText := TrimSpace (getNodeText (at_ cells k)) in
       match Atoi loyaltyText with
       | Some val => Stop (MainGo.set_Loyalty val character)
       | None => Next character
       end)
    ks c
  = match firstInt (map (at_ cells) ks) with
    | Some v => MainGo.set_Loyalty v c
    | None => c
    end.
Proof.
  unfold forRange.
  induction ks as [|k ks IH]; cbn [rangeFlow map firstInt result]; [reflexivity|].
  cbv zeta. fold (cellText (at_ cells k)).
  destruct (Atoi (cellText (at_ cells k))); [reflexivity | exact IH].
Qed.

Lemma map_at_from (cells : list Node) (a : nat) :
  map (at_ cells) (upTo a (length cells)) = skipn a cells.
Proof.
  replace (length cells) with (Nat.min (length cells) (a + length cells)) at 1 by lia.
  rewrite map_at_upTo. apply firstn_all2. rewrite length_skipn. lia.
Qed.

(** what [extractPersonalityAndLoyalty] does to a row *)
Lemma extractPersonalityAndLoyalty_row (c : MainGo.Character) (cells : list Node) :
  MainGo.extractPersonalityAndLoyalty c cells =
    if (length cells <? 2)%nat then c
    else match firstCell isPersonalityCell cells with
         | None => c
         | Some (j, cell) =>
             let c' := MainGo.set_Personality (cellText cell) c in
             match firstInt (skipn (j + 1) cells) with
             | Some v => MainGo.set_Loyalty v c'
             | None => c'
             end
         end.
Proof.
  unfold MainGo.extractPersonalityAndLoyalty, firstCell.
  destruct (length cells <? 2)%nat; [reflexivity|].
  pose proof
    (rangeFlow_first isPersonalityCell
       (fun j cell character =>
          forRange
            (fun k character =>
               let loyaltyText := TrimSpace (getNodeText (at_ cells k)) in
               match Atoi loyaltyText with
               | Some val => Stop (MainGo.set_Loyalty val character)
               | None => Next character
               end)
            (upTo (j + 1) (length cells))
            (MainGo.set_Personality (cellText cell) character))
       cells 0 c) as R.
  apply (f_equal result) in R.
  etransitivity; [exact R|].
  destruct (firstFrom isPersonalityCell 0 cells) as [[j cell]|]; [|reflexivity].
  cbn [result]. rewrite loyalty_loop_firstInt, map_at_from. reflexivity.
Qed.

(** C10 (as amended).  [extractPersonalityAndLoyalty] writes no field other
    than Personality and Loyalty; and on a row of at least two cells whose
    first personality cell has no integer cell after it, Personality reads
    back as the text of that cell while Loyalty, like every other field,
    keeps its value. *)
Theorem C10_personality_without_loyalty :
  forall (c : MainGo.Character) (cells : list Node),
    (let r := MainGo.extractPersonalityAndLoyalty c cells in
     r = MainGo.set_Loyalty (MainGo.Loyalty r)
           (MainGo.set_Personality (MainGo.Personality r) c))
    /\ (forall (j : nat) (cell : Node),
          (2 <= length cells)%nat ->
          firstCell isPersonalityCell cells = Some (j, cell) ->
          firstInt (skipn (j + 1) cells) = None ->
          MainGo.extractPersonalityAndLoyalty c cells =
            MainGo.set_Personality (cellText cell) c
          /\ MainGo.Personality (MainGo.extractPersonalityAndLoyalty c cells)
             = cellText cell
          /\ MainGo.Loyalty (MainGo.extractPersonalityAndLoyalty c cells)
             = MainGo.Loyalty c).
Proof.
  intros c cells. split.
  - cbv zeta. rewrite extractPersonalityAndLoyalty_row.
    destruct (length cells <? 2)%nat; [destruct c; reflexivity|].
    destruct (firstCell isPersonalityCell cells) as [[j cell]|];
      [|destruct c; reflexivity].
    cbv zeta. destruct (firstInt (skipn (j + 1) cells)); destruct c; reflexivity.
  - intros j cell Hlen Hfirst Hint.
    rewrite extractPersonalityAndLoyalty_row, Hfirst, Hint.
    replace (length cells <? 2)%nat with false by (symmetry; apply Nat.ltb_ge; lia).
    split; [reflexivity|]. split; reflexivity.
Qed.

Lemma C10_personality_without_loyalty_witness :
  MainGo.extractPersonalityAndLoyalty MainGo.emptyCharacter personalityNoLoyalty =
    MainGo.set_Personality "豪胆" MainGo.emptyCharacter.
Proof.
  apply (eq_trans
           (proj1
              (proj2 (C10_personality_without_loyalty MainGo.emptyCharacter
                        personalityNoLoyalty)
                     0 (td "豪胆") (le_S _ _ (le_n 2)) eq_refl eq_refl))).
  vm_compute; reflexivity.
Defined.

(** C10 as stated fails on a one-cell row: the cell is a personality and no
    integer cell follows it, yet Personality is not written. *)
Lemma C10_counterexample :
  firstCell isPersonalityCell lonePersonality = Some (0, td "豪胆")
  /\ firstInt (skipn 1 lonePersonality) = None
  /\ MainGo.Personality
       (MainGo.extractPersonalityAndLoyalty MainGo.emptyCharacter lonePersonality)
     <> "豪胆".
Proof.
  split; [vm_compute; reflexivity|]. split; [vm_compute; reflexivity|].
  vm_compute. discriminate.
Qed.

(** ** Abilities (claim C2) *)

Lemma extractAbilities_row (c : MainGo.Character) (cells : list Node) :
  MainGo.extractAbilities c cells =
    match firstFive cells with
    | Some (a0, a1, a2, a3, a4) =>
        if (0 <? a0)%Z then commitAbilities (a0, a1, a2, a3, a4) c else c
    | None => c
    end.
Proof.
  destruct cells as [|c0 [|c1 [|c2 [|c3 [|c4 rest]]]]]; try reflexivity.
  unfold MainGo.extractAbilities, firstFive, forRange, upTo, cellText.
  cbn [length Nat.ltb Nat.leb Nat.min Nat.sub seq rangeFlow at_ nth repeat].
  destruct (Atoi (TrimSpace (getNodeText c0))) as [a0|]; [|reflexivity].
  cbn [rangeFlow at_ nth MainGo.assign].
  destruct (Atoi (TrimSpace (getNodeText c1))) as [a1|]; [|reflexivity].
  cbn [rangeFlow at_ nth MainGo.assign].
  destruct (Atoi (TrimSpace (getNodeText c2))) as [a2|]; [|reflexivity].
  cbn [rangeFlow at_ nth MainGo.assign].
  destruct (Atoi (TrimSpace (getNodeText c3))) as [a3|]; [|reflexivity].
  cbn [rangeFlow at_ nth MainGo.assign].
  destruct (Atoi (TrimSpace (getNodeText c4))) as [a4|]; [|reflexivity].
  cbn [rangeFlow at_ nth MainGo.assign result andb commitAbilities].
  reflexivity.
Qed.



(** the extractors of the other fields leave the abilities alone *)
















(** ** Tactics and skills (claims C4 and C9) *)

Lemma skill_cells_loop (isCategory : string -> bool) (cells : list Node)
  (items : list string) :
  forRange
    (fun cell items =>
       if negb (hasStyleWidth cell "70px") then Next items
       else
         let text := MainGo.cleanTacticSkillText (TrimSpace (getNodeText cell)) in
         if negb (text =? "") && negb (isCategory text)
         then Next (items ++ [text])%list
         else Next items)
    cells items
  = (items
       ++ filter (fun text => negb (text =? "") && negb (isCategory text))
            (map (fun cell => MainGo.cleanTacticSkillText (TrimSpace (getNodeText cell)))
               (filter (fun cell => hasStyleWidth cell "70px") cells)))%list.
Proof.
  unfold forRange. revert items.
  induction cells as [|cell cells IH]; intros items;
    cbn [rangeFlow filter map result].
  - symmetry; apply app_nil_r.
  - destruct (hasStyleWidth cell "70px"); cbn [negb]; [|apply IH].
    cbv zeta. cbn [map filter].
    destruct (negb (MainGo.cleanTacticSkillText (TrimSpace (getNodeText cell)) =? "")
              && negb (isCategory
                         (MainGo.cleanTacticSkillText (TrimSpace (getNodeText cell))))).
    + rewrite IH, <- app_assoc. reflexivity.
    + apply IH.
Qed.

Lemma skill_rows_loop (isCategory : string -> bool) (rows : list Node)
  (items : list string) :
  forRange
    (fun row items =>
       let cells := findAllNodes row "td" in
       Next
         (forRange
            (fun cell items =>
               if negb (hasStyleWidth cell "70px") then Next items
               else
                 let text :=
                   MainGo.cleanTacticSkillText (TrimSpace (getNodeText cell)) in
                 if negb (text =? "") && negb (isCategory text)
                 then Next (items ++ [text])%list
                 else Next items)
            cells items))
    rows items
  = (items
       ++ filter (fun text => negb (text =? "") && negb (isCategory text))
            (map (fun cell => MainGo.cleanTacticSkillText (TrimSpace (getNodeText cell)))
               (filter (fun cell => hasStyleWidth cell "70px")
                  (flat_map (fun row => findAllNodes row "td") rows))))%list.
Proof.
  unfold forRange at 1. revert items.
  induction rows as [|row rows IH]; intros items;
    cbn [rangeFlow flat_map result].
  - cbn [filter map]. symmetry; apply app_nil_r.
  - cbv zeta. rewrite skill_cells_loop, IH.
    rewrite filter_app, map_app, filter_app, app_assoc. reflexivity.
Qed.

(** what one table contributes: the kept texts of its 70px cells, in order,
    duplicates included *)
Lemma extractFromSkillTable_items (table : Node) (isCategory : string -> bool) :
  MainGo.extractFromSkillTable table isCategory = cleanedItems table isCategory.
Proof.
  unfold MainGo.extractFromSkillTable, cleanedItems, rowCells. cbv zeta.
  rewrite skill_rows_loop. reflexivity.
Qed.

Lemma tacticsAndSkillsOf_snoc (tables : list Node) (table : Node) :
  MainGo.tacticsAndSkillsOf (tables ++ [table]) =
    MainGo.classifySkillTable table (MainGo.tacticsAndSkillsOf tables).
Proof.
  unfold MainGo.tacticsAndSkillsOf. rewrite !forRange_fold.
  rewrite fold_left_app. reflexivity.
Qed.

Lemma lastMatch_snoc (p : Node -> bool) (tables : list Node) (table : Node) :
  lastMatch p (tables ++ [table]) =
    if p table then Some table else lastMatch p tables.
Proof. unfold lastMatch. rewrite rev_app_distr. reflexivity. Qed.

(** each list is the one of the last table of its class *)
Lemma tacticsAndSkillsOf_last (tables : list Node) :
  MainGo.tacticsAndSkillsOf tables =
    (itemsOfLast isTacticsTable MainGo.isTacticCategory tables,
     itemsOfLast (fun table => negb (isTacticsTable table) && isSkillsTable table)
                 MainGo.isSkillCategory tables).
Proof.
  induction tables as [|table tables IH] using rev_ind; [reflexivity|].
  rewrite tacticsAndSkillsOf_snoc, IH.
  unfold itemsOfLast. rewrite !lastMatch_snoc.
  unfold MainGo.classifySkillTable.
  fold (isTacticsTable table). fold (isSkillsTable table).
  rewrite !extractFromSkillTable_items.
  destruct (isTacticsTable table); cbn [negb andb]; [reflexivity|].
  destruct (isSkillsTable table); reflexivity.
Qed.

(** C4 (as amended).  The Tactics output is the ", "-join of the cleaned
    texts (trimmed, cut at the first '(', trimmed again, the empty text and
    the tactic-category keywords dropped, duplicates kept) of the 70px cells
    under the rows of the last table classified as tactics: each tactics
    table replaces the list of the tables before it.  The Skills output is
    built the same way from the last table that holds the skills keyword
    and not the tactics keyword. *)
Theorem C4_tactics_of_last_table :
  forall doc : Node,
    MainGo.extractTacticsAndSkills doc =
      (Join (itemsOfLast isTacticsTable MainGo.isTacticCategory
               (findAllNodes doc "table")) ", ",
       Join (itemsOfLast
               (fun table => negb (isTacticsTable table) && isSkillsTable table)
               MainGo.isSkillCategory (findAllNodes doc "table")) ", ").
Proof.
  intros doc. unfold MainGo.extractTacticsAndSkills. cbv zeta.
  rewrite tacticsAndSkillsOf_last. reflexivity.
Qed.

(** C4 as stated fails on a page with two tactics tables: the cells of the
    first table do not reach the output. *)
Lemma C4_counterexample :
  map isTacticsTable (findAllNodes twoTacticsTables "table") = [true; true]
  /\ accumulatedTactics twoTacticsTables = "火計, 突撃"
  /\ fst (MainGo.extractTacticsAndSkills twoTacticsTables) = "突撃"
  /\ fst (MainGo.extractTacticsAndSkills twoTacticsTables)
     <> accumulatedTactics twoTacticsTables.
Proof.
  split; [vm_compute; reflexivity|].
  split; [vm_compute; reflexivity|].
  split; [vm_compute; reflexivity|].
  vm_compute. discriminate.
Qed.

Lemma skills_of_fold (tables : list Node) (tactics tactics' skills : list string) :
  snd (fold_left (fun acc table => MainGo.classifySkillTable table acc) tables
         (tactics, skills))
  = snd (fold_left (fun acc table => MainGo.classifySkillTable table acc) tables
           (tactics', skills)).
Proof.
  revert tactics tactics' skills.
  induction tables as [|table tables IH]; intros tactics tactics' skills;
    [reflexivity|].
  cbn [fold_left]. unfold MainGo.classifySkillTable at 2 4.
  destruct (containsAnyTexts table (MainGo.TacticsHeaders MainGo.rules));
    [apply IH|].
  destruct (containsAnyTexts table (MainGo.SkillsHeaders MainGo.rules)); apply IH.
Qed.

(** C9 (as amended).  A table whose text holds both "戦法" and "特技" is
    handled by the tactics case alone: its own step of the pass leaves the
    skills list as it was, and the skills list of the whole pass is the one
    obtained without that table.  (A cell under its rows can still appear
    in Skills when it also lies in another table of the page that is
    classified as skills, such as a table nested in it.) *)
Theorem C9_tactics_case_shadows_skills :
  forall table : Node,
    Contains (getNodeText table) "戦法" = true ->
    Contains (getNodeText table) "特技" = true ->
    (forall acc : list string * list string,
        MainGo.classifySkillTable table acc =
          (MainGo.extractFromSkillTable table MainGo.isTacticCategory, snd acc))
    /\ (forall before after : list Node,
          snd (MainGo.tacticsAndSkillsOf (before ++ table :: after)) =
            snd (MainGo.tacticsAndSkillsOf (before ++ after))).
Proof.
  intros table Htactics Hskills.
  assert (Hstep : forall acc,
             MainGo.classifySkillTable table acc =
               (MainGo.extractFromSkillTable table MainGo.isTacticCategory, snd acc)).
  { intros [tactics skills]. unfold MainGo.classifySkillTable, containsAnyTexts.
    cbn [MainGo.TacticsHeaders MainGo.rules existsb]. rewrite Htactics. reflexivity. }
  split; [exact Hstep|].
  intros before after. unfold MainGo.tacticsAndSkillsOf.
  rewrite !forRange_fold, !fold_left_app. cbn [fold_left].
  rewrite Hstep.
  destruct (fold_left (fun a x => MainGo.classifySkillTable x a) before ([], []))
    as [tactics skills].
  apply skills_of_fold.
Qed.

Lemma C9_tactics_case_shadows_skills_witness :
  snd (MainGo.tacticsAndSkillsOf ([skillsOnlyTable] ++ bothKeywordsTable :: []))
  = snd (MainGo.tacticsAndSkillsOf ([skillsOnlyTable] ++ [])).
Proof.
  apply (proj2 (C9_tactics_case_shadows_skills bothKeywordsTable eq_refl eq_refl)).
Defined.

(** C9 as stated fails when a skills table is nested in the table: the
    nested table is a table of the page too, it is classified as skills, and
    a cell found under the rows of the outer table is in the Skills output. *)
Lemma C9_counterexample :
  Contains (getNodeText outerBothTable) "戦法" = true
  /\ Contains (getNodeText outerBothTable) "特技" = true
  /\ findAllNodes nestedTablesPage "table" = [outerBothTable; innerSkillsTable]
  /\ In nestedSkillsCell (rowCells outerBothTable)
  /\ MainGo.extractTacticsAndSkills nestedTablesPage = ("神算, 神算", "神算")
  /\ snd (MainGo.extractTacticsAndSkills nestedTablesPage) <> "".
Proof.
  split; [vm_compute; reflexivity|]. split; [vm_compute; reflexivity|].
  split; [vm_compute; reflexivity|].
  split; [vm_compute; right; right; right; left; reflexivity|].
  split; [vm_compute; reflexivity|]. vm_compute. discriminate.
Qed.

(** ** Talent and its fallback (claim C3) *)

Lemma extractTalentFromTable000_gold (c : Part000.Character) (table : Node) :
  Part000.extractTalentFromTable c table =
    match goldText table with
    | Some s => Part000.set_Talent s c
    | None => c
    end.
Proof.
  unfold Part000.extractTalentFromTable, goldText, rowCells, forRange. cbv zeta.
  rewrite (rangeFlow_flat_map (fun row => findAllNodes row "td")).
  pose proof
    (rangeFlow_find isGoldCell
       (fun cell character => Part000.set_Talent (cellText cell) character)
       (flat_map (fun row => findAllNodes row "td") (findAllNodes table "tr")) c)
    as R.
  apply (f_equal result) in R. etransitivity; [exact R|].
  destruct (find isGoldCell _); reflexivity.
Qed.

Lemma extractTalentFromTable_gold (c : MainGo.Character) (table : Node) :
  MainGo.extractTalentFromTable c table =
    if MainGo.isTalentTable table
    then match goldText table with
         | Some s => MainGo.set_Talent s c
         | None => c
         end
    else c.
Proof.
  unfold MainGo.extractTalentFromTable.
  destruct (MainGo.isTalentTable table); [|reflexivity]. cbn [negb].
  unfold goldText, rowCells, forRange. cbv zeta.
  rewrite (rangeFlow_flat_map (fun row => findAllNodes row "td")).
  pose proof
    (rangeFlow_find isGoldCell
       (fun cell character => MainGo.set_Talent (cellText cell) character)
       (flat_map (fun row => findAllNodes row "td") (findAllNodes table "tr")) c)
    as R.
  apply (f_equal result) in R. etransitivity; [exact R|].
  destruct (find isGoldCell _); reflexivity.
Qed.

Lemma talentFallback000_first (tables : list Node) (c : Part000.Character) :
  Part000.Talent c = "" ->
  Part000.Talent (Part000.talentFallback c tables) = firstTalent tables.
Proof.
  unfold Part000.talentFallback, forRange. revert c.
  induction tables as [|table tables IH]; intros c Hc;
    cbn [rangeFlow firstTalent result]; [exact Hc|].
  cbv zeta. rewrite extractTalentFromTable000_gold.
  destruct (goldText table) as [s|]; [|rewrite Hc; cbn [negb]; apply IH; exact Hc].
  unfold Part000.set_Talent at 1. cbn [Part000.Talent].
  destruct (s =? "") eqn:E; cbn [negb result]; [|reflexivity].
  apply IH. apply String.eqb_eq in E. rewrite E. reflexivity.
Qed.

Lemma talentFallback_first (tables : list Node) (c : MainGo.Character) :
  MainGo.Talent c = "" ->
  MainGo.Talent (MainGo.talentFallback c tables) =
    firstTalent (filter MainGo.isTalentTable tables).
Proof.
  unfold MainGo.talentFallback, forRange. revert c.
  induction tables as [|table tables IH]; intros c Hc;
    cbn [rangeFlow filter result]; [exact Hc|].
  cbv zeta. rewrite extractTalentFromTable_gold.
  destruct (MainGo.isTalentTable table); cbn [firstTalent];
    [|rewrite Hc; cbn [negb]; apply IH; exact Hc].
  destruct (goldText table) as [s|]; [|rewrite Hc; cbn [negb]; apply IH; exact Hc].
  unfold MainGo.set_Talent at 1. cbn [MainGo.Talent].
  destruct (s =? "") eqn:E; cbn [negb result]; [|reflexivity].
  apply IH. apply String.eqb_eq in E. rewrite E. reflexivity.
Qed.

(** C3 (as amended).  When the classified pass leaves Talent empty, the
    fallback tries the tables in document order and stops at the first one
    that leaves Talent non-empty.  In [src/main.go] the talent extractor
    still ignores every table whose text lacks "奇才" or "効果", so Talent is
    the text of the first gold-styled cell of the first such keyword table
    in which that text is non-empty; in [src/unnamed/part_000], which has no
    keyword test, it is that of the first table of any kind in which the
    first gold-styled cell has a non-empty text.  Talent stays empty when
    there is no such table. *)
Theorem C3_talent_fallback :
  forall (c : MainGo.Character) (c000 : Part000.Character) (doc : Node),
    (MainGo.Talent (classifiedPass c doc) = "" ->
     MainGo.Talent (MainGo.extractFromTables c doc) =
       firstTalent (filter MainGo.isTalentTable (findAllNodes doc "table")))
    /\ (Part000.Talent (classifiedPass000 c000 doc) = "" ->
        Part000.Talent (Part000.extractFromTables c000 doc) =
          firstTalent (findAllNodes doc "table")).
Proof.
  intros c c000 doc. split; intros H.
  - unfold MainGo.extractFromTables. cbv zeta. fold (classifiedPass c doc).
    rewrite H. cbn [String.eqb]. apply talentFallback_first. exact H.
  - unfold Part000.extractFromTables. cbv zeta. fold (classifiedPass000 c000 doc).
    rewrite H. cbn [String.eqb]. apply talentFallback000_first. exact H.
Qed.

Lemma C3_talent_fallback_witness :
  MainGo.Talent (MainGo.extractFromTables MainGo.emptyCharacter goldOutsideTalentTable)
  = firstTalent
      (filter MainGo.isTalentTable (findAllNodes goldOutsideTalentTable "table"))
  /\ Part000.Talent
       (Part000.extractFromTables Part000.emptyCharacter emptyGoldThenNamed)
     = firstTalent (findAllNodes emptyGoldThenNamed "table").
Proof.
  split.
  - apply (proj1 (C3_talent_fallback MainGo.emptyCharacter Part000.emptyCharacter
                    goldOutsideTalentTable)).
    vm_compute; reflexivity.
  - apply (proj2 (C3_talent_fallback MainGo.emptyCharacter Part000.emptyCharacter
                    emptyGoldThenNamed)).
    vm_compute; reflexivity.
Defined.

(** C3 as stated fails.  In [src/main.go] a gold cell in a table without
    the talent keywords is not found by the fallback; in
    [src/unnamed/part_000] a first gold table whose gold cell has no text
    does not end the search. *)
Lemma C3_counterexample :
  (MainGo.Talent (classifiedPass MainGo.emptyCharacter goldOutsideTalentTable) = ""
   /\ talentOfFirstGoldTable (findAllNodes goldOutsideTalentTable "table") = "神算"
   /\ MainGo.Talent
        (MainGo.extractFromTables MainGo.emptyCharacter goldOutsideTalentTable) = ""
   /\ MainGo.Talent
        (MainGo.extractFromTables MainGo.emptyCharacter goldOutsideTalentTable)
      <> talentOfFirstGoldTable (findAllNodes goldOutsideTalentTable "table"))
  /\ (Part000.Talent (classifiedPass000 Part000.emptyCharacter emptyGoldThenNamed) = ""
      /\ talentOfFirstGoldTable (findAllNodes emptyGoldThenNamed "table") = ""
      /\ Part000.Talent
           (Part000.extractFromTables Part000.emptyCharacter emptyGoldThenNamed)
         = "鬼謀"
      /\ Part000.Talent
           (Part000.extractFromTables Part000.emptyCharacter emptyGoldThenNamed)
         <> talentOfFirstGoldTable (findAllNodes emptyGoldThenNamed "table")).
Proof.
  repeat split; try (vm_compute; reflexivity); vm_compute; discriminate.
Qed.

(** ** Cutting and splitting on a one-byte separator *)

Lemma Index_one_cons (ch a : ascii) (s : string) :
  Index (String a s) (String ch "") =
    if Ascii.eqb ch a then Some 0%nat else option_map S (Index s (String ch "")).
Proof.
  cbn [Index HasPrefix]. destruct s; rewrite andb_true_r; reflexivity.
Qed.

Lemma Index_one_nil (ch : ascii) : Index EmptyString (String ch "") = None.
Proof. reflexivity. Qed.

Lemma Contains_one_cons (ch a : ascii) (s : string) :
  Contains (String a s) (String ch "") = Ascii.eqb ch a || Contains s (String ch "").
Proof.
  unfold Contains. rewrite Index_one_cons.
  destruct (Ascii.eqb ch a); [reflexivity|].
  destruct (Index s (String ch "")); reflexivity.
Qed.

Lemma Cut_one_nil (ch : ascii) :
  Cut EmptyString (String ch "") = (EmptyString, EmptyString, false).
Proof. reflexivity. Qed.

Lemma Cut_one_cons (ch a : ascii) (s : string) :
  Cut (String a s) (String ch "") =
    if Ascii.eqb ch a then (EmptyString, s, true)
    else let '(before, after, found) := Cut s (String ch "") in
         (String a before, after, found).
Proof.
  unfold Cut. rewrite Index_one_cons.
  destruct (Ascii.eqb ch a); [reflexivity|].
  destruct (Index s (String ch "")); reflexivity.
Qed.

Lemma Cut_found (s sep : string) :
  snd (Cut s sep) = Contains s sep.
Proof. unfold Cut, Contains. destruct (Index s sep); reflexivity. Qed.

Lemma Index_bound (ch : ascii) (s : string) (i : nat) :
  Index s (String ch "") = Some i -> (i < String.length s)%nat.
Proof.
  revert i; induction s as [|a s IH]; intros i; [discriminate|].
  rewrite Index_one_cons. destruct (Ascii.eqb ch a).
  - intros H; injection H as <-. cbn; lia.
  - destruct (Index s (String ch "")) as [k|]; [|discriminate].
    intros H; injection H as <-. specialize (IH k eq_refl). cbn; lia.
Qed.

Lemma length_drop (n : nat) (s : string) :
  String.length (drop n s) = (String.length s - n)%nat.
Proof.
  revert s; induction n as [|n IH]; intros s; [cbn; lia|].
  destruct s as [|a s]; [reflexivity|]. cbn [drop String.length]. rewrite IH. lia.
Qed.

(** the first element of a split is the part before the first separator *)
Lemma genSplit_first (ch : ascii) (rounds : nat) (s : string) :
  (String.length s <= rounds)%nat ->
  nth 0 (genSplit rounds s (String ch "")) EmptyString = fst (fst (Cut s (String ch ""))).
Proof.
  intros Hlen. unfold Cut. destruct rounds as [|rounds]; cbn [genSplit].
  - destruct s; [reflexivity | cbn in Hlen; lia].
  - destruct (Index s (String ch "")); reflexivity.
Qed.

Lemma Split_first (ch : ascii) (s : string) :
  nth 0 (Split s (String ch "")) EmptyString = fst (fst (Cut s (String ch ""))).
Proof. apply genSplit_first. lia. Qed.

(** when the separator occurs, the split has a second element: the part of
    the rest before the next separator *)
Lemma Split_second (ch : ascii) (s : string) :
  Contains s (String ch "") = true ->
  (2 <= length (Split s (String ch "")))%nat
  /\ nth 1 (Split s (String ch "")) EmptyString =
       fst (fst (Cut (snd (fst (Cut s (String ch "")))) (String ch ""))).
Proof.
  unfold Contains, Split, Cut at 2. intros H.
  destruct (Index s (String ch "")) as [i|] eqn:E; [|discriminate].
  pose proof (Index_bound _ _ _ E) as Hi.
  destruct (String.length s) as [|n] eqn:L; [lia|].
  cbn [genSplit]. rewrite E. cbn [fst snd nth length].
  split.
  - destruct n; cbn [genSplit]; [cbn; lia|].
    destruct (Index (drop (i + String.length (String ch "")) s) (String ch "")); cbn; lia.
  - apply genSplit_first. rewrite length_drop. cbn [String.length]. lia.
Qed.

(** ** The two name/reading parsers (claim C6) *)

(** a separator found in the rest of a cut occurs in the whole text *)
Lemma Contains_rest (ch ch' : ascii) (s : string) :
  Contains (snd (fst (Cut s (String ch "")))) (String ch' "") = true ->
  Contains s (String ch' "") = true.
Proof.
  induction s as [|a s IH]; [intros H; exact H|].
  rewrite Cut_one_cons, Contains_one_cons.
  destruct (Ascii.eqb ch a).
  - cbn [fst snd]. intros H; rewrite H. apply orb_true_r.
  - destruct (Cut s (String ch "")) as [[before after] found]. cbn [fst snd] in *.
    intros H; rewrite (IH H). apply orb_true_r.
Qed.

(** when no '(' comes before the first ')', cutting at '(' first does not
    change what precedes the ')' *)
Lemma reading_of_first_part (r : string) :
  snd (Cut r ")") = true ->
  Contains (fst (fst (Cut r ")"))) "(" = false ->
  fst (fst (Cut (fst (fst (Cut r "("))) ")")) = fst (fst (Cut r ")")).
Proof.
  induction r as [|a r IH]; [intros H; discriminate H|].
  rewrite (Cut_one_cons ")"), (Cut_one_cons "(").
  destruct (Ascii.eqb ")" a) eqn:Eclose.
  - intros _ _. cbn [fst snd].
    apply Ascii.eqb_eq in Eclose. subst a. cbn [Ascii.eqb Bool.eqb].
    destruct (Cut r "(") as [[before after] found]. cbn [fst].
    rewrite Cut_one_cons. reflexivity.
  - destruct (Cut r ")") as [[reading after] found] eqn:Ecut. cbn [fst snd] in *.
    intros Hfound Hopen. rewrite Contains_one_cons in Hopen.
    apply orb_false_iff in Hopen as [Hopen Hreading]. rewrite Hopen.
    destruct (Cut r "(") as [[before after'] found'] eqn:Ecut'. cbn [fst] in *.
    rewrite Cut_one_cons, Eclose.
    specialize (IH Hfound Hreading).
    destruct (Cut before ")") as [[x y] z]. cbn [fst] in *. rewrite IH. reflexivity.
Qed.

Lemma nameAndReading_main (c : MainGo.Character) (doc : Node) :
  MainGo.extractNameAndReading c doc =
    match strongText doc with
    | None => c
    | Some text =>
        let '(name, rest, found) := Cut text "(" in
        if found
        then let '(reading, _, found') := Cut rest ")" in
             if found'
             then MainGo.set_Reading (TrimSpace reading)
                    (MainGo.set_Name (TrimSpace name) c)
             else c
        else c
    end.
Proof.
  unfold MainGo.extractNameAndReading, strongText.
  destruct (findNodeWithText doc "strong") as [nameNode|]; [|reflexivity].
  cbn [option_map]. cbv zeta.
  destruct (Cut (getNodeText nameNode) "(") as [[name rest] found].
  destruct found; [|reflexivity]. cbn [negb].
  destruct (Cut rest ")") as [[reading after] found']. destruct found'; reflexivity.
Qed.

Lemma nameAndReading_part000 (c : Part000.Character) (doc : Node) :
  Part000.extractNameAndReading c doc =
    match strongText doc with
    | None => c
    | Some text =>
        if Contains text "(" && Contains text ")"
        then Part000.set_Reading
               (TrimSpace
                  (fst (fst (Cut (fst (fst (Cut (snd (fst (Cut text "("))) "("))) ")"))))
               (Part000.set_Name (TrimSpace (fst (fst (Cut text "(")))) c)
        else c
    end.
Proof.
  unfold Part000.extractNameAndReading, strongText.
  destruct (findNodeWithText doc "strong") as [nameNode|]; [|reflexivity].
  cbn [option_map]. cbv zeta.
  destruct (Contains (getNodeText nameNode) "(") eqn:Hopen; [|reflexivity].
  destruct (Contains (getNodeText nameNode) ")"); [|reflexivity].
  cbn [negb orb andb].
  destruct (Split_second "(" _ Hopen) as [Hlen Hsecond].
  replace (length (Split (getNodeText nameNode) "(") <? 2)%nat with false
    by (symmetry; apply Nat.ltb_ge; exact Hlen).
  unfold Part000.part. rewrite Split_first, Hsecond, Split_first. reflexivity.
Qed.

(** C6 (as amended).  On every text of the first strong element that has no
    '(', or has no ')', or has a ')' after its first '(' with no second '('
    before it, the two parsers assign the same Name and Reading: the part
    before the first '(' trimmed, and the part between it and the next ')'
    trimmed, or two empty fields when there is no such pair.  A page without
    a strong element gives two empty fields in both. *)
Theorem C6_parsers_agree :
  forall doc : Node,
    match strongText doc with
    | Some text => parsersAgreeOn text = true
    | None => True
    end ->
    let a := MainGo.extractNameAndReading MainGo.emptyCharacter doc in
    let b := Part000.extractNameAndReading Part000.emptyCharacter doc in
    (MainGo.Name a, MainGo.Reading a) = (Part000.Name b, Part000.Reading b)
    /\ (MainGo.Name a, MainGo.Reading a) =
         match strongText doc with
         | Some text => nameAndReadingOf text
         | None => ("", "")
         end.
Proof.
  intros doc. cbv zeta.
  rewrite nameAndReading_main, nameAndReading_part000.
  destruct (strongText doc) as [text|]; [|intros _; split; reflexivity].
  unfold parsersAgreeOn, nameAndReadingOf.
  pose proof (Cut_found text "(") as Hfound.
  pose proof (Contains_rest "(" ")" text) as Hrest.
  pose proof (reading_of_first_part (snd (fst (Cut text "(")))) as Hreading.
  destruct (Cut text "(") as [[name rest] found]. cbn [fst snd] in *.
  rewrite <- Hfound.
  pose proof (Cut_found rest ")") as Hfound'.
  destruct (Cut rest ")") as [[reading after] found']. cbn [fst snd] in *.
  destruct found; cbn [negb orb andb]; [|intros _; split; reflexivity].
  destruct (Contains text ")") eqn:Hclose; cbn [negb orb].
  - destruct found'; cbn [andb]; [|discriminate].
    intros Hopen. apply negb_true_iff in Hopen.
    rewrite (Hreading eq_refl Hopen). split; reflexivity.
  - intros _. destruct found'; [|split; reflexivity].
    symmetry in Hfound'. specialize (Hrest Hfound'). discriminate Hrest.
Qed.

Lemma C6_parsers_agree_witness :
  let a := MainGo.extractNameAndReading MainGo.emptyCharacter (heading "曹操 (そうそう) ") in
  let b := Part000.extractNameAndReading Part000.emptyCharacter (heading "曹操 (そうそう) ") in
  (MainGo.Name a, MainGo.Reading a) = (Part000.Name b, Part000.Reading b)
  /\ (MainGo.Name a, MainGo.Reading a) = ("曹操", "そうそう").
Proof.
  apply (C6_parsers_agree (heading "曹操 (そうそう) ")).
  vm_compute; reflexivity.
Defined.

(** C6 as stated fails: the parsers differ when a second '(' precedes the
    ')' and when the only ')' precedes the '('. *)
Lemma C6_counterexample :
  (let a := MainGo.extractNameAndReading MainGo.emptyCharacter (heading "張飛(ちょう(ひ)") in
   let b := Part000.extractNameAndReading Part000.emptyCharacter (heading "張飛(ちょう(ひ)") in
   (MainGo.Name a, MainGo.Reading a) = ("張飛", "ちょう(ひ")
   /\ (Part000.Name b, Part000.Reading b) = ("張飛", "ちょう")
   /\ (MainGo.Name a, MainGo.Reading a) <> (Part000.Name b, Part000.Reading b))
  /\ (let a := MainGo.extractNameAndReading MainGo.emptyCharacter (heading "張飛)(ちょうひ") in
      let b := Part000.extractNameAndReading Part000.emptyCharacter (heading "張飛)(ちょうひ") in
      (MainGo.Name a, MainGo.Reading a) = ("", "")
      /\ (Part000.Name b, Part000.Reading b) = ("張飛)", "ちょうひ")
      /\ (MainGo.Name a, MainGo.Reading a) <> (Part000.Name b, Part000.Reading b)).
Proof.
  split; cbv zeta; (split; [vm_compute; reflexivity|]);
    (split; [vm_compute; reflexivity|]); vm_compute; discriminate.
Qed.

(** ** Fetching with retry (claim C1) *)

Section PipelineFacts.

Context {World : Type}.
Variable roundTrip : string -> World -> MainGo.Exchange * World.

Lemma extractCharacterInfo_outcome (url : string) (s : MainGo.Sys) :
  MainGo.extractCharacterInfo roundTrip url s =
    (MainGo.Returned
       match MainGo.documentOrError (fst (roundTrip url (MainGo.world s))) with
       | inr err => (MainGo.emptyCharacter, Some err)
       | inl doc => (MainGo.characterOfDocument doc, None)
       end,
     {| MainGo.world := snd (roundTrip url (MainGo.world s));
        MainGo.trace := MainGo.trace s |}).
Proof.
  unfold MainGo.extractCharacterInfo, MainGo.bind, MainGo.fetchAndParseHTML,
    MainGo.ret.
  destruct (roundTrip url (MainGo.world s)) as [x w]. cbn [fst snd].
  destruct (MainGo.documentOrError x); reflexivity.
Qed.

(** no error of the fetch is the retries-exhausted message *)
Lemma documentOrError_not_exhausted (x : MainGo.Exchange) (e : string) :
  MainGo.documentOrError x = inr e -> (e =? MainGo.exhaustedMessage) = false.
Proof.
  destruct x as [e0|e0|code status body]; cbn [MainGo.documentOrError].
  - intros H; injection H as <-. reflexivity.
  - intros H; injection H as <-. reflexivity.
  - unfold MainGo.checkHTTPStatus.
    destruct (code =? 429)%Z; [intros H; injection H as <-; reflexivity|].
    destruct (code =? 200)%Z; cbn [negb];
      [|intros H; injection H as <-; reflexivity].
    destruct body; intros H; [injection H as <- .. | discriminate H]; reflexivity.
Qed.

(** an error that leaves the retry loop before its bound is an error of
    the fetch *)
Lemma retryLoop_error (maxRetries baseDelay : Z) (url : string) (remaining : nat) :
  (1 <= remaining)%nat ->
  forall (attempt : Z) (s : MainGo.Sys),
    Z.of_nat remaining = (maxRetries - attempt)%Z ->
    match fst (MainGo.retryLoop roundTrip maxRetries baseDelay remaining attempt url s)
    with
    | MainGo.Returned (_, Some e) => (e =? MainGo.exhaustedMessage) = false
    | _ => True
    end.
Proof.
  induction remaining as [|remaining IH]; intros Hpos attempt s Hrem; [lia|].
  cbn [MainGo.retryLoop]. unfold MainGo.bind at 1.
  rewrite extractCharacterInfo_outcome.
  destruct (MainGo.documentOrError (fst (roundTrip url (MainGo.world s))))
    as [doc|err] eqn:E; [exact I|].
  unfold MainGo.shouldRetry.
  destruct (containsAnyString err (MainGo.RetryErrors MainGo.rules)); cbn [andb];
    [|exact (documentOrError_not_exhausted _ _ E)].
  destruct (attempt <? maxRetries - 1)%Z eqn:Hlt;
    [|exact (documentOrError_not_exhausted _ _ E)].
  apply Z.ltb_lt in Hlt. cbv zeta.
  unfold MainGo.bind, MainGo.emit. cbn [MainGo.world MainGo.trace].
  apply IH; lia.
Qed.

End PipelineFacts.

Section RetryFacts.

Context {World : Type}.
Variable roundTrip : string -> World -> MainGo.Exchange * World.

(** three failed attempts, the first two rate limited: two backoff sleeps of
    once and twice the base delay, then the error of the third attempt *)
Lemma retry_three_attempts (url : string) (s : MainGo.Sys)
  (x0 x1 x2 : MainGo.Exchange) (w1 w2 w3 : World) (e0 e1 e2 : string) :
  roundTrip url (MainGo.world s) = (x0, w1) ->
  roundTrip url w1 = (x1, w2) ->
  roundTrip url w2 = (x2, w3) ->
  MainGo.documentOrError x0 = inr e0 ->
  MainGo.documentOrError x1 = inr e1 ->
  MainGo.documentOrError x2 = inr e2 ->
  containsAnyString e0 (MainGo.RetryErrors MainGo.rules) = true ->
  containsAnyString e1 (MainGo.RetryErrors MainGo.rules) = true ->
  MainGo.extractCharacterInfoWithRetry roundTrip url s =
    (MainGo.Returned (MainGo.emptyCharacter, Some e2),
     {| MainGo.world := w3;
        MainGo.trace :=
          (MainGo.trace s
             ++ [retryNotice (2 * MainGo.Second) 0 3; MainGo.Slept (2 * MainGo.Second);
                 retryNotice (4 * MainGo.Second) 1 3; MainGo.Slept (4 * MainGo.Second)])%list
     |}).
Proof.
  intros R0 R1 R2 E0 E1 E2 L0 L1.
  unfold MainGo.extractCharacterInfoWithRetry.
  change (Z.to_nat (MainGo.MaxRetries MainGo.config)) with 3%nat.
  cbn [MainGo.retryLoop]. unfold MainGo.bind at 1.
  rewrite extractCharacterInfo_outcome, R0. cbn [fst snd]. rewrite E0.
  unfold MainGo.shouldRetry at 1. rewrite L0.
  change (0 <? MainGo.MaxRetries MainGo.config - 1)%Z with true. cbn [andb]. cbv zeta.
  unfold MainGo.bind at 1 2 3, MainGo.emit at 1 2. cbn [MainGo.world MainGo.trace].
  rewrite extractCharacterInfo_outcome. cbn [MainGo.world MainGo.trace].
  rewrite R1. cbn [fst snd]. rewrite E1.
  unfold MainGo.shouldRetry at 1. rewrite L1.
  change (0 + 1 <? MainGo.MaxRetries MainGo.config - 1)%Z with true. cbn [andb].
  unfold MainGo.bind at 1 2 3, MainGo.emit at 1 2. cbn [MainGo.world MainGo.trace].
  rewrite extractCharacterInfo_outcome. cbn [MainGo.world MainGo.trace].
  rewrite R2. cbn [fst snd]. rewrite E2.
  unfold MainGo.shouldRetry.
  change (0 + 1 + 1 <? MainGo.MaxRetries MainGo.config - 1)%Z with false.
  rewrite andb_false_r. unfold MainGo.ret.
  rewrite <- !app_assoc. reflexivity.
Qed.

(** a rate-limited attempt followed by a successful one: one backoff sleep
    of the base delay, then the record of the page *)
Lemma retry_second_attempt_succeeds (url : string) (s : MainGo.Sys)
  (x0 x1 : MainGo.Exchange) (w1 w2 : World) (e0 : string) (doc : Node) :
  roundTrip url (MainGo.world s) = (x0, w1) ->
  roundTrip url w1 = (x1, w2) ->
  MainGo.documentOrError x0 = inr e0 ->
  MainGo.documentOrError x1 = inl doc ->
  containsAnyString e0 (MainGo.RetryErrors MainGo.rules) = true ->
  MainGo.extractCharacterInfoWithRetry roundTrip url s =
    (MainGo.Returned (MainGo.characterOfDocument doc, None),
     {| MainGo.world := w2;
        MainGo.trace :=
          (MainGo.trace s
             ++ [retryNotice (2 * MainGo.Second) 0 3; MainGo.Slept (2 * MainGo.Second)])%list
     |}).
Proof.
  intros R0 R1 E0 E1 L0.
  unfold MainGo.extractCharacterInfoWithRetry.
  change (Z.to_nat (MainGo.MaxRetries MainGo.config)) with 3%nat.
  cbn [MainGo.retryLoop]. unfold MainGo.bind at 1.
  rewrite extractCharacterInfo_outcome, R0. cbn [fst snd]. rewrite E0.
  unfold MainGo.shouldRetry at 1. rewrite L0.
  change (0 <? MainGo.MaxRetries MainGo.config - 1)%Z with true. cbn [andb]. cbv zeta.
  unfold MainGo.bind at 1 2 3, MainGo.emit at 1 2. cbn [MainGo.world MainGo.trace].
  rewrite extractCharacterInfo_outcome. cbn [MainGo.world MainGo.trace].
  rewrite R1. cbn [fst snd]. rewrite E1. unfold MainGo.ret.
  rewrite <- !app_assoc. reflexivity.
Qed.

End RetryFacts.

(** C1.  With the configured three attempts, the error returned by
    [extractCharacterInfoWithRetry] is never the retries-exhausted message:
    the last attempt is not retried and its own error is returned.  Against
    a server that always answers 429 the call sleeps the base delay once,
    then twice the base delay, and returns "429 Too Many Requests"; against
    a server that answers 429 once and then delivers the page it sleeps the
    base delay once and returns the record of the page. *)
Theorem C1_exhaustion_returns_the_fetch_error :
  (forall (World : Type) (roundTrip : string -> World -> MainGo.Exchange * World)
          (url : string) (s : MainGo.Sys),
      match fst (MainGo.extractCharacterInfoWithRetry roundTrip url s) with
      | MainGo.Returned (_, Some e) => (e =? MainGo.exhaustedMessage) = false
      | _ => True
      end)
  /\ (forall url : string,
        MainGo.extractCharacterInfoWithRetry alwaysRateLimited url (start tt) =
          (MainGo.Returned (MainGo.emptyCharacter, Some "429 Too Many Requests"),
           {| MainGo.world := tt;
              MainGo.trace :=
                [retryNotice (2 * MainGo.Second) 0 3; MainGo.Slept (2 * MainGo.Second);
                 retryNotice (4 * MainGo.Second) 1 3; MainGo.Slept (4 * MainGo.Second)]
           |}))
  /\ (forall (doc : Node) (url : string),
        MainGo.extractCharacterInfoWithRetry (rateLimitedOnce doc) url (start 0%nat) =
          (MainGo.Returned (MainGo.characterOfDocument doc, None),
           {| MainGo.world := 2%nat;
              MainGo.trace :=
                [retryNotice (2 * MainGo.Second) 0 3; MainGo.Slept (2 * MainGo.Second)]
           |})).
Proof.
  split; [|split].
  - intros World roundTrip url s.
    apply retryLoop_error; [cbn; lia | reflexivity].
  - intros url.
    apply (retry_three_attempts alwaysRateLimited url (start tt)
             _ _ _ tt tt tt _ _ _ eq_refl eq_refl eq_refl eq_refl eq_refl eq_refl);
      reflexivity.
  - intros doc url.
    apply (retry_second_attempt_succeeds (rateLimitedOnce doc) url (start 0%nat)
             _ _ 1%nat 2%nat _ doc eq_refl eq_refl eq_refl eq_refl).
    reflexivity.
Qed.

(** ** The batch loop (claim C5) *)

Lemma fatalText_isRateLimitError (err : string) :
  MainGo.isRateLimitError err = fatalText err.
Proof.
  unfold MainGo.isRateLimitError, fatalText, containsAnyString.
  cbn [MainGo.RetryErrors MainGo.rules existsb]. rewrite orb_false_r. reflexivity.
Qed.

(** C5.  When the fetch of an item ends in an error: if the error text
    holds "429", "Too Many Requests" or the retries-exhausted message, the
    fatal line is logged and the process exits, so no further item is
    processed; otherwise one line naming the item and the error is logged
    and the loop goes on with the next item and the same list of records. *)
Theorem C5_fatal_or_continue :
  forall (World : Type) (roundTrip : string -> World -> MainGo.Exchange * World)
         (url : string) (rest : list string) (i totalCount : Z)
         (characters : list MainGo.Character) (s s1 : MainGo.Sys)
         (c : MainGo.Character) (err : string),
    MainGo.extractCharacterInfoWithRetry roundTrip url
      (after s [progressLine i totalCount url]) = (MainGo.Returned (c, Some err), s1) ->
    (fatalText err = true ->
     MainGo.processUrls roundTrip i totalCount (url :: rest) characters s =
       (MainGo.Exited 1, after s1 [MainGo.Logged (fatalLine url err)]))
    /\ (fatalText err = false ->
        MainGo.processUrls roundTrip i totalCount (url :: rest) characters s =
          MainGo.processUrls roundTrip (i + 1) totalCount rest characters
            (after s1 [MainGo.Logged (errorLine url err)])).
Proof.
  intros World roundTrip url rest i totalCount characters s s1 c err Hfetch.
  rewrite <- fatalText_isRateLimitError.
  split; intros Hfatal; cbn [MainGo.processUrls];
    unfold MainGo.bind at 1 2, MainGo.emit at 1;
    fold (progressLine i totalCount url);
    fold (after s [progressLine i totalCount url]);
    rewrite Hfetch; unfold MainGo.bind at 1, MainGo.handleProcessingError;
    rewrite Hfatal; cbv zeta.
  - reflexivity.
  - reflexivity.
Qed.

Lemma C5_fatal_or_continue_witness :
  MainGo.processUrls alwaysServerError 0 2 ["a"; "b"] [] (start tt) =
    MainGo.processUrls alwaysServerError (0 + 1) 2 ["b"] []
      (after (after (start tt) [progressLine 0 2 "a"])
             [MainGo.Logged (errorLine "a" "HTTPエラー: 500 500 Internal Server Error")])
  /\ MainGo.processUrls alwaysRateLimited 0 2 ["a"; "b"] [] (start tt) =
       (MainGo.Exited 1,
        after (after (start tt)
                 [progressLine 0 2 "a";
                  retryNotice (2 * MainGo.Second) 0 3; MainGo.Slept (2 * MainGo.Second);
                  retryNotice (4 * MainGo.Second) 1 3; MainGo.Slept (4 * MainGo.Second)])
              [MainGo.Logged (fatalLine "a" "429 Too Many Requests")]).
Proof.
  split.
  - apply (proj2 (C5_fatal_or_continue unit alwaysServerError "a" ["b"] 0 2 []
                    (start tt) (after (start tt) [progressLine 0 2 "a"])
                    MainGo.emptyCharacter
                    "HTTPエラー: 500 500 Internal Server Error" eq_refl)).
    vm_compute; reflexivity.
  - apply (proj1 (C5_fatal_or_continue unit alwaysRateLimited "a" ["b"] 0 2 []
                    (start tt) _ MainGo.emptyCharacter "429 Too Many Requests"
                    eq_refl)).
    vm_compute; reflexivity.
Defined.

(** * Further properties of the code *)

(** ** Tree query primitives *)

Lemma Node_forall_ind (P : Node -> Prop) :
  (forall t d a cs, Forall P cs -> P (MkNode t d a cs)) -> forall n, P n.
Proof.
  intros H. fix IH 1. intros [t d a cs]. apply H.
  induction cs as [|c cs IHcs]; constructor; [apply IH | exact IHcs].
Qed.

Lemma hd_error_app {A : Type} (l1 l2 : list A) :
  hd_error (l1 ++ l2) =
    match hd_error l1 with Some x => Some x | None => hd_error l2 end.
Proof. destruct l1; reflexivity. Qed.

(** X1.  [findNodeWithText] returns the first element, in document order,
    of those [findAllNodes] collects for the same tag, and nothing when
    there is none. *)
Theorem X1_findNodeWithText_is_first :
  forall (n : Node) (tagName : string),
    findNodeWithText n tagName = hd_error (findAllNodes n tagName).
Proof.
  intros n tagName. induction n as [t d a cs IH] using Node_forall_ind.
  cbn [findNodeWithText findAllNodes].
  destruct (NodeType_eqb t ElementNode && (d =? tagName)); [reflexivity|].
  cbn [app]. induction IH as [|c cs Hc _ IHcs]; [reflexivity|].
  cbn [flat_map]. rewrite hd_error_app, <- Hc.
  destruct (findNodeWithText c tagName); [reflexivity | exact IHcs].
Qed.

(** X2.  Every node [findAllNodes] returns is an element whose name is the
    tag asked for. *)
Theorem X2_findAllNodes_only_elements_of_the_tag :
  forall (n : Node) (tagName : string),
    Forall (fun x => nodeType x = ElementNode /\ nodeData x = tagName)
           (findAllNodes n tagName).
Proof.
  intros n tagName. induction n as [t d a cs IH] using Node_forall_ind.
  cbn [findAllNodes]. apply Forall_app. split.
  - destruct (NodeType_eqb t ElementNode && (d =? tagName)) eqn:E; [|constructor].
    apply andb_true_iff in E as [Et Ed]. apply String.eqb_eq in Ed.
    constructor; [|constructor]. cbn [nodeType nodeData]. split; [|exact Ed].
    destruct t; first [reflexivity | discriminate Et].
  - induction IH as [|c cs Hc _ IHcs]; [constructor|].
    cbn [flat_map]. apply Forall_app. split; assumption.
Qed.

Lemma existsb_swap {A B : Type} (f : A -> B -> bool) (la : list A) (lb : list B) :
  existsb (fun a => existsb (fun b => f a b) lb) la =
    existsb (fun b => existsb (fun a => f a b) la) lb.
Proof.
  induction la as [|a la IH]; cbn [existsb].
  - induction lb as [|b lb IHb]; [reflexivity | cbn [existsb]; exact IHb].
  - rewrite IH. clear IH.
    induction lb as [|b lb IHb]; [reflexivity|].
    cbn [existsb]. rewrite <- IHb.
    destruct (f a b), (existsb (fun a0 => f a0 b) la),
      (existsb (fun b0 => f a b0) lb); reflexivity.
Qed.

(** X3.  A cell has one of several widths exactly when [hasStyleWidth]
    holds for one of them: the two style tests agree. *)
Theorem X3_hasAnyStyleWidth_is_some_hasStyleWidth :
  forall (n : Node) (widths : list string),
    hasAnyStyleWidth n widths = existsb (fun width => hasStyleWidth n width) widths.
Proof.
  intros n widths. unfold hasAnyStyleWidth, hasStyleWidth.
  rewrite <- (existsb_swap
                (fun attr width =>
                   (Key attr =? "style") && Contains (Val attr) ("width:" ++ width))).
  induction (nodeAttr n) as [|attr attrs IH]; [reflexivity|].
  cbn [existsb]. rewrite IH. f_equal.
  destruct (Key attr =? "style"); cbn [andb]; [reflexivity|].
  clear. induction widths as [|w widths IHw]; [reflexivity | exact IHw].
Qed.

(** ** The assignments behind an extracted record

    A property of records that survives each assignment the extractors can
    make, with the values they can assign, survives every extractor. *)

Lemma strategyScan_cases (texts : list string) (old : string) :
  strategyScan texts old = old
  \/ (slices_Contains (MainGo.StrategyTypes MainGo.rules) (strategyScan texts old)
      || (strategyScan texts old =? "-")) = true.
Proof.
  induction texts as [|t texts IH]; cbn [strategyScan]; [left; reflexivity|].
  destruct ((t =? "") || (t =? "ー")); [exact IH|].
  destruct (slices_Contains (MainGo.StrategyTypes MainGo.rules) t || (t =? "-")) eqn:E;
    [right; exact E | exact IH].
Qed.

Lemma firstCell_holds (p : Node -> bool) (cells : list Node) (j : nat) (cell : Node) :
  firstCell p cells = Some (j, cell) -> p cell = true.
Proof. intros H. apply (firstFrom_spec p cells 0 j cell H). Qed.

Section Footprint.

Variable P : MainGo.Character -> Prop.

Hypothesis P_Name : forall v c, P c -> P (MainGo.set_Name v c).
Hypothesis P_Reading : forall v c, P c -> P (MainGo.set_Reading v c).
Hypothesis P_Azana : forall v c, P c -> P (MainGo.set_Azana v c).
Hypothesis P_Death :
  forall d c, (minInt <= d <= maxInt)%Z -> P c ->
              P (MainGo.set_DeathMinus13 (wrapInt (d - 13)) (MainGo.set_DeathYear d c)).
Hypothesis P_Abilities :
  forall a0 a1 a2 a3 a4 c, (0 < a0)%Z -> P c -> P (commitAbilities (a0, a1, a2, a3, a4) c).
Hypothesis P_Personality :
  forall t c, slices_Contains (MainGo.PersonalityTypes MainGo.rules) t = true ->
              P c -> P (MainGo.set_Personality t c).
Hypothesis P_Loyalty : forall v c, P c -> P (MainGo.set_Loyalty v c).
Hypothesis P_Fame :
  forall t c, slices_Contains (MainGo.FameTypes MainGo.rules) t = true ->
              P c -> P (MainGo.set_Fame t c).
Hypothesis P_Greed :
  forall t c, greedSuppressed t = false -> P c -> P (MainGo.set_Greed t c).
Hypothesis P_Strategy :
  forall t c,
    (slices_Contains (MainGo.StrategyTypes MainGo.rules) t || (t =? "-")) = true ->
    P c -> P (MainGo.set_Strategy t c).
Hypothesis P_Talent : forall v c, P c -> P (MainGo.set_Talent v c).
Hypothesis P_Interest : forall v c, P c -> P (MainGo.set_Interest v c).
Hypothesis P_Tactics : forall v c, P c -> P (MainGo.set_Tactics v c).
Hypothesis P_Skills : forall v c, P c -> P (MainGo.set_Skills v c).

Lemma kept_extractNameAndReading (c : MainGo.Character) (doc : Node) :
  P c -> P (MainGo.extractNameAndReading c doc).
Proof.
  intros Hc. rewrite nameAndReading_main.
  destruct (strongText doc) as [text|]; [|exact Hc].
  destruct (Cut text "(") as [[name rest] found]. destruct found; [|exact Hc].
  destruct (Cut rest ")") as [[reading after] found']. destruct found'; [|exact Hc].
  apply P_Reading, P_Name, Hc.
Qed.

Lemma Atoi_range (s : string) (v : Z) :
  Atoi s = Some v -> (minInt <= v <= maxInt)%Z.
Proof.
  assert (H : forall neg body, parseSigned neg body = Some v ->
                               (minInt <= v <= maxInt)%Z).
  { intros neg body. unfold parseSigned. destruct body; [discriminate|].
    destruct (parseDigits _ _) as [n|]; [|discriminate]. cbv zeta.
    destruct ((minInt <=? (if neg then (- n)%Z else n))%Z
              && ((if neg then (- n)%Z else n) <=? maxInt)%Z) eqn:E; [|discriminate].
    intros Hv; injection Hv as <-.
    apply andb_true_iff in E as [E1 E2].
    apply Z.leb_le in E1. apply Z.leb_le in E2. split; assumption. }
  unfold Atoi. destruct s as [|a s]; [discriminate|].
  destruct (byte_is a 45); [apply H|]. destruct (byte_is a 43); apply H.
Qed.

Lemma kept_extractBasicInfoFromTable (c : MainGo.Character) (table : Node) :
  P c -> P (MainGo.extractBasicInfoFromTable c table).
Proof.
  unfold MainGo.extractBasicInfoFromTable. cbv zeta.
  apply forRange_invariant. intros row a Ha.
  destruct (length (findAllNodes row "td") <? 9)%nat; [exact Ha|].
  cbn [result].
  assert (H1 : P (if (1 <? length (findAllNodes row "td"))%nat
                  then MainGo.set_Azana
                         (TrimSpace (getNodeText (at_ (findAllNodes row "td") 1))) a
                  else a)).
  { destruct (1 <? length (findAllNodes row "td"))%nat; [apply P_Azana|]; exact Ha. }
  destruct (6 <? length (findAllNodes row "td"))%nat; [|exact H1].
  destruct (Atoi (TrimSpace (getNodeText (at_ (findAllNodes row "td") 6))))
    as [d|] eqn:E; [|exact H1].
  apply P_Death; [exact (Atoi_range _ _ E) | exact H1].
Qed.

Lemma kept_extractAbilities (c : MainGo.Character) (cells : list Node) :
  P c -> P (MainGo.extractAbilities c cells).
Proof.
  intros Hc. rewrite extractAbilities_row.
  destruct (firstFive cells) as [[[[[a0 a1] a2] a3] a4]|]; [|exact Hc].
  destruct (0 <? a0)%Z eqn:E; [|exact Hc].
  apply P_Abilities; [apply Z.ltb_lt; exact E | exact Hc].
Qed.

Lemma kept_extractPersonalityAndLoyalty (c : MainGo.Character) (cells : list Node) :
  P c -> P (MainGo.extractPersonalityAndLoyalty c cells).
Proof.
  intros Hc. rewrite extractPersonalityAndLoyalty_row.
  destruct (length cells <? 2)%nat; [exact Hc|].
  destruct (firstCell isPersonalityCell cells) as [[j cell]|] eqn:E; [|exact Hc].
  cbv zeta. pose proof (firstCell_holds _ _ _ _ E) as Hcell.
  destruct (firstInt (skipn (j + 1) cells));
    [apply P_Loyalty|]; apply P_Personality; assumption.
Qed.

Lemma kept_extractGreed (c : MainGo.Character) (cells : list Node) (j : nat) :
  P c -> P (MainGo.extractGreed c cells j).
Proof.
  intros Hc. rewrite extractGreed_nth.
  destruct (nth_error cells (j + 1)) as [cell|]; [|exact Hc].
  destruct (greedSuppressed (cellText cell)) eqn:E; [exact Hc|].
  apply P_Greed; assumption.
Qed.

Lemma kept_extractStrategy (c : MainGo.Character) (cells : list Node) (j : nat) :
  P c -> P (MainGo.extractStrategy c cells j).
Proof.
  intros Hc. rewrite extractStrategy_scan.
  destruct (strategyScan_cases (map cellText (twoAfterGreed cells j))
                               (MainGo.Strategy c)) as [H|H].
  - rewrite H, set_Strategy_same. exact Hc.
  - apply P_Strategy; assumption.
Qed.

Lemma kept_extractStatusInfo (c : MainGo.Character) (row : Node) (cells : list Node) :
  P c -> P (MainGo.extractStatusInfo c row cells).
Proof.
  intros Hc.
  destruct (isDataRow row cells) eqn:Hrow;
    [|rewrite extractStatusInfo_skip by (left; exact Hrow); exact Hc].
  destruct (firstCell isFameCell cells) as [[j cell]|] eqn:Hfame;
    [|rewrite extractStatusInfo_skip by (right; exact Hfame); exact Hc].
  rewrite (extractStatusInfo_data c row cells j cell Hrow Hfame).
  apply kept_extractStrategy, kept_extractGreed, P_Fame;
    [exact (firstCell_holds _ _ _ _ Hfame) | exact Hc].
Qed.

Lemma kept_extractTalentFromTable (c : MainGo.Character) (table : Node) :
  P c -> P (MainGo.extractTalentFromTable c table).
Proof.
  intros Hc. rewrite extractTalentFromTable_gold.
  destruct (MainGo.isTalentTable table); [|exact Hc].
  destruct (goldText table); [apply P_Talent|]; exact Hc.
Qed.

Lemma kept_extractAbilitiesFromTable (c : MainGo.Character) (table : Node) :
  P c -> P (MainGo.extractAbilitiesFromTable c table).
Proof.
  unfold MainGo.extractAbilitiesFromTable. cbv zeta.
  apply forRange_invariant. intros row a Ha. cbn [result].
  unfold MainGo.processTableRow. cbv zeta.
  apply kept_extractStatusInfo, kept_extractPersonalityAndLoyalty,
    kept_extractAbilities, Ha.
Qed.

Lemma kept_extractFromTables (c : MainGo.Character) (doc : Node) :
  P c -> P (MainGo.extractFromTables c doc).
Proof.
  intros Hc. unfold MainGo.extractFromTables. cbv zeta.
  assert (H : P (forRange
                   (fun table character =>
                      Next (MainGo.classifyAndExtract character table))
                   (findAllNodes doc "table") c)).
  { apply forRange_invariant; [|exact Hc]. intros table a Ha. cbn [result].
    unfold MainGo.classifyAndExtract.
    destruct (containsAllTexts table (MainGo.BasicInfoHeaders MainGo.rules));
      [apply kept_extractBasicInfoFromTable, Ha|].
    destruct (containsAllTexts table (MainGo.AbilityHeaders MainGo.rules));
      [apply kept_extractTalentFromTable, kept_extractAbilitiesFromTable, Ha|].
    destruct (containsAnyTexts table (MainGo.TalentHeaders MainGo.rules));
      [apply kept_extractTalentFromTable, Ha | exact Ha]. }
  destruct (MainGo.Talent _ =? ""); [|exact H].
  unfold MainGo.talentFallback.
  apply forRange_invariant; [|exact H]. intros table a Ha. cbv zeta.
  destruct (negb (MainGo.Talent (MainGo.extractTalentFromTable a table) =? ""));
    cbn [result]; apply kept_extractTalentFromTable, Ha.
Qed.

Lemma kept_characterOfDocument (doc : Node) :
  P MainGo.emptyCharacter -> P (MainGo.characterOfDocument doc).
Proof.
  intros H0. unfold MainGo.characterOfDocument, MainGo.extractBasicInfo,
    MainGo.extractInterests. cbv zeta.
  destruct (MainGo.extractTacticsAndSkills doc) as [tactics skills].
  apply P_Skills, P_Tactics, P_Interest, kept_extractFromTables,
    kept_extractNameAndReading, H0.
Qed.

End Footprint.

(** ** Invariants of an extracted record *)

(** X4.  In the record extracted from any page, Personality and Fame are
    empty or a word of their vocabulary, and Strategy is empty, the hyphen
    or a word of its vocabulary. *)
Theorem X4_enumerated_fields_in_vocabulary :
  forall doc : Node, validEnums (MainGo.characterOfDocument doc).
Proof.
  intros doc.
  apply (kept_characterOfDocument validEnums); try (intros; assumption).
  - intros t c Ht (_ & Hf & Hs). split; [right; exact Ht | split; assumption].
  - intros t c Ht (Hp & _ & Hs). split; [exact Hp | split; [right; exact Ht | exact Hs]].
  - intros t c Ht (Hp & Hf & _). split; [exact Hp | split; [exact Hf|]].
    apply orb_true_iff in Ht as [Ht|Ht];
      [right; right; exact Ht | right; left; apply String.eqb_eq; exact Ht].
  - split; [left; reflexivity | split; left; reflexivity].
Qed.

(** X5.  The Greed of an extracted record is never the hyphen nor the long
    dash: it is empty or a text that does not suppress the assignment. *)
Theorem X5_greed_never_a_dash :
  forall doc : Node,
    MainGo.Greed (MainGo.characterOfDocument doc) = ""
    \/ greedSuppressed (MainGo.Greed (MainGo.characterOfDocument doc)) = false.
Proof.
  intros doc.
  apply (kept_characterOfDocument
           (fun c => MainGo.Greed c = "" \/ greedSuppressed (MainGo.Greed c) = false));
    try (intros; assumption).
  - intros t c Ht _. right. exact Ht.
  - left. reflexivity.
Qed.

(** X6.  In an extracted record the death year is a 64-bit integer, and
    either the death year and the derived year are both zero (no death year
    was read) or the derived year is the death year minus 13 in 64-bit
    arithmetic. *)
Theorem X6_derived_year_follows_death_year :
  forall doc : Node,
    let r := MainGo.characterOfDocument doc in
    (minInt <= MainGo.DeathYear r <= maxInt)%Z
    /\ ((MainGo.DeathYear r, MainGo.DeathMinus13 r) = (0, 0)%Z
        \/ MainGo.DeathMinus13 r = wrapInt (MainGo.DeathYear r - 13)).
Proof.
  intros doc. cbv zeta.
  apply (kept_characterOfDocument
           (fun c =>
              (minInt <= MainGo.DeathYear c <= maxInt)%Z
              /\ ((MainGo.DeathYear c, MainGo.DeathMinus13 c) = (0, 0)%Z
                  \/ MainGo.DeathMinus13 c = wrapInt (MainGo.DeathYear c - 13))));
    try (intros; assumption).
  - intros d c Hd _. split; [exact Hd | right; reflexivity].
  - split; [unfold minInt, maxInt; cbn; lia | left; reflexivity].
Qed.

Lemma extractFromTables_outside (c : MainGo.Character) (doc : Node) :
  outsideTables (MainGo.extractFromTables c doc) = outsideTables c.
Proof.
  apply (kept_extractFromTables (fun c' => outsideTables c' = outsideTables c));
    try (intros; assumption).
  reflexivity.
Qed.

(** X7.  [extractFromTables] writes none of Name, Reading, Interest, Tactics
    and Skills. *)
Theorem X7_extractFromTables_leaves_other_sections :
  forall (c : MainGo.Character) (doc : Node),
    outsideTables (MainGo.extractFromTables c doc) = outsideTables c.
Proof. exact extractFromTables_outside. Qed.

(** ** The interest scan *)

Lemma excluded_not_interest (t : string) :
  slices_Contains (MainGo.ExcludeTexts MainGo.rules) t = true ->
  MainGo.isInterestCell t = false.
Proof.
  cbn [MainGo.ExcludeTexts MainGo.rules slices_Contains].
  intros H. repeat (apply orb_true_iff in H as [H|H]);
    try discriminate H; apply String.eqb_eq in H; subst t; reflexivity.
Qed.

Lemma interests_loop (cells : list Node) (interests : list string) :
  forRange
    (fun cell interests =>
       if negb (hasAnyStyleWidth cell (MainGo.InterestWidths MainGo.rules))
       then Next interests
       else
         let text := TrimSpace (getNodeText cell) in
         if slices_Contains (MainGo.ExcludeTexts MainGo.rules) text
            || negb (MainGo.isInterestCell text)
         then Next interests
         else Next (interests ++ [text])%list)
    cells interests
  = (interests
       ++ filter MainGo.isInterestCell (map cellText (filter hasInterestWidth cells)))%list.
Proof.
  unfold forRange. revert interests.
  induction cells as [|cell cells IH]; intros interests;
    cbn [rangeFlow filter map result].
  - symmetry; apply app_nil_r.
  - fold (hasInterestWidth cell).
    destruct (hasInterestWidth cell); cbn [negb]; [|apply IH].
    cbv zeta. fold (cellText cell). cbn [map filter].
    destruct (MainGo.isInterestCell (cellText cell)) eqn:Hi.
    + destruct (slices_Contains (MainGo.ExcludeTexts MainGo.rules) (cellText cell))
        eqn:He.
      * rewrite (excluded_not_interest _ He) in Hi. discriminate Hi.
      * cbn [negb orb]. rewrite IH, <- app_assoc. reflexivity.
    + rewrite orb_true_r. apply IH.
Qed.

Lemma extractInterests_texts (c : MainGo.Character) (doc : Node) :
  MainGo.extractInterests c doc =
    MainGo.set_Interest (Join (interestTexts doc) ", ") c.
Proof.
  unfold MainGo.extractInterests, interestTexts. cbv zeta.
  rewrite interests_loop. reflexivity.
Qed.

(** X8.  [extractInterests] replaces Interest, and nothing else, by the
    ", "-join of the vocabulary words found, in document order and with
    repetitions, as trimmed texts of the cells of the page whose style has
    one of the five widths; the list of excluded texts removes nothing the
    vocabulary test would keep.  The cells "興味", "武具", "ー", "書物", "-"
    give "武具, 書物". *)
Theorem X8_interests_are_the_vocabulary_cells :
  (forall (c : MainGo.Character) (doc : Node),
      MainGo.extractInterests c doc =
        MainGo.set_Interest (Join (interestTexts doc) ", ") c)
  /\ MainGo.Interest (MainGo.extractInterests MainGo.emptyCharacter interestPage)
     = "武具, 書物".
Proof.
  split; [exact extractInterests_texts | vm_compute; reflexivity].
Qed.

(** X9.  The sections of an extracted record do not overwrite each other:
    its Name and Reading are those parsed from the first strong element,
    its Interest is the joined list of the interest scan, and its Tactics
    and Skills are the two outputs of the tactics/skills pass. *)
Theorem X9_record_sections_compose :
  forall doc : Node,
    let r := MainGo.characterOfDocument doc in
    (MainGo.Name r, MainGo.Reading r) =
      match strongText doc with
      | Some text => nameAndReadingOf text
      | None => ("", "")
      end
    /\ MainGo.Interest r = Join (interestTexts doc) ", "
    /\ (MainGo.Tactics r, MainGo.Skills r) = MainGo.extractTacticsAndSkills doc.
Proof.
  intros doc. cbv zeta.
  unfold MainGo.characterOfDocument, MainGo.extractBasicInfo. cbv zeta.
  rewrite extractInterests_texts.
  destruct (MainGo.extractTacticsAndSkills doc) as [tactics skills].
  split; [|split; reflexivity].
  pose proof (extractFromTables_outside
                (MainGo.extractNameAndReading MainGo.emptyCharacter doc) doc) as H.
  unfold outsideTables in H. injection H as Hn Hr _ _ _.
  change (MainGo.Name (MainGo.set_Skills skills _)) with
    (MainGo.Name (MainGo.extractFromTables
                    (MainGo.extractNameAndReading MainGo.emptyCharacter doc) doc)).
  change (MainGo.Reading (MainGo.set_Skills skills _)) with
    (MainGo.Reading (MainGo.extractFromTables
                       (MainGo.extractNameAndReading MainGo.emptyCharacter doc) doc)).
  rewrite Hn, Hr, nameAndReading_main. unfold nameAndReadingOf.
  destruct (strongText doc) as [text|]; [|reflexivity].
  destruct (Cut text "(") as [[name rest] found]. destruct found; [|reflexivity].
  destruct (Cut rest ")") as [[reading after] found']. destruct found'; reflexivity.
Qed.

(** ** Rows of the basic-info and ability tables *)

Lemma basic_rows_loop (c : MainGo.Character) (rows : list Node) :
  forRange
    (fun row character =>
       let cells := findAllNodes row "td" in
       if (length cells <? 9)%nat then Next character
       else
         let character :=
           if (1 <? length cells)%nat
           then MainGo.set_Azana (TrimSpace (getNodeText (at_ cells 1))) character
           else character in
         let character :=
           if (6 <? length cells)%nat
           then match Atoi (TrimSpace (getNodeText (at_ cells 6))) with
                | Some deathYear =>
                    MainGo.set_DeathMinus13 (wrapInt (deathYear - 13))
                      (MainGo.set_DeathYear deathYear character)
                | None => character
                end
           else character in
         Stop character)
    rows c
  = match find (fun row => (9 <=? length (findAllNodes row "td"))%nat) rows with
    | None => c
    | Some row =>
        let cells := findAllNodes row "td" in
        let c1 := MainGo.set_Azana (cellText (at_ cells 1)) c in
        match Atoi (cellText (at_ cells 6)) with
        | Some deathYear =>
            MainGo.set_DeathMinus13 (wrapInt (deathYear - 13))
              (MainGo.set_DeathYear deathYear c1)
        | None => c1
        end
    end.
Proof.
  unfold forRange.
  induction rows as [|row rows IH]; cbn [rangeFlow find result]; [reflexivity|].
  cbv zeta.
  destruct (length (findAllNodes row "td") <? 9)%nat eqn:E.
  - apply Nat.ltb_lt in E.
    replace (9 <=? length (findAllNodes row "td"))%nat with false
      by (symmetry; apply Nat.leb_gt; exact E).
    exact IH.
  - apply Nat.ltb_ge in E.
    replace (9 <=? length (findAllNodes row "td"))%nat with true
      by (symmetry; apply Nat.leb_le; exact E).
    replace (1 <? length (findAllNodes row "td"))%nat with true
      by (symmetry; apply Nat.ltb_lt; lia).
    replace (6 <? length (findAllNodes row "td"))%nat with true
      by (symmetry; apply Nat.ltb_lt; lia).
    reflexivity.
Qed.

(** X10.  [extractBasicInfoFromTable] reads the first row that has at least
    nine cells and no other row: the courtesy name becomes the trimmed text
    of its cell 1 (even when empty); when the trimmed text of its cell 6 is
    an integer the death year becomes that integer and the derived year that
    integer minus 13, otherwise both keep their values.  A table without
    such a row changes nothing. *)
Theorem X10_basic_info_from_first_long_row :
  forall (c : MainGo.Character) (table : Node),
    MainGo.extractBasicInfoFromTable c table =
      match firstLongRow table with
      | None => c
      | Some row =>
          let cells := findAllNodes row "td" in
          let c1 := MainGo.set_Azana (cellText (at_ cells 1)) c in
          match Atoi (cellText (at_ cells 6)) with
          | Some deathYear =>
              MainGo.set_DeathMinus13 (wrapInt (deathYear - 13))
                (MainGo.set_DeathYear deathYear c1)
          | None => c1
          end
      end.
Proof.
  intros c table. unfold MainGo.extractBasicInfoFromTable, firstLongRow. cbv zeta.
  apply basic_rows_loop.
Qed.

(** X11.  On a row of at least two cells [extractPersonalityAndLoyalty]
    takes the first cell whose trimmed text is a personality word and
    stores it, then stores as loyalty the first integer among the cells
    after it; cells before the personality cell, later personality cells
    and later integers are not used.  A row of fewer than two cells, or
    without a personality cell, changes nothing. *)
Theorem X11_personality_then_first_integer :
  forall (c : MainGo.Character) (cells : list Node),
    MainGo.extractPersonalityAndLoyalty c cells =
      if (length cells <? 2)%nat then c
      else match firstCell isPersonalityCell cells with
           | None => c
           | Some (j, cell) =>
               let c' := MainGo.set_Personality (cellText cell) c in
               match firstInt (skipn (j + 1) cells) with
               | Some v => MainGo.set_Loyalty v c'
               | None => c'
               end
           end.
Proof. exact extractPersonalityAndLoyalty_row. Qed.

(** X12.  [extractStatusInfo] changes nothing on a row whose text holds a
    status header keyword, on a row of fewer than three cells and on a row
    without a fame word; on any other row it stores the first fame word and
    then runs the greed and strategy extractors from the index of that
    cell. *)
Theorem X12_status_row :
  forall (c : MainGo.Character) (row : Node) (cells : list Node),
    MainGo.extractStatusInfo c row cells =
      if isDataRow row cells
      then match firstCell isFameCell cells with
           | Some (j, cell) =>
               MainGo.extractStrategy
                 (MainGo.extractGreed (MainGo.set_Fame (cellText cell) c) cells j)
                 cells j
           | None => c
           end
      else c.
Proof.
  intros c row cells.
  destruct (isDataRow row cells) eqn:Hrow;
    [|apply extractStatusInfo_skip; left; exact Hrow].
  destruct (firstCell isFameCell cells) as [[j cell]|] eqn:Hfame;
    [|apply extractStatusInfo_skip; right; exact Hfame].
  apply extractStatusInfo_data; assumption.
Qed.

(** X13.  A row that commits abilities overwrites all five values an
    earlier row committed: among several qualifying rows the last one
    wins. *)
Theorem X13_last_ability_row_wins :
  forall (c : MainGo.Character) (earlier later : list Node)
         (a0 a1 a2 a3 a4 : Z),
    firstFive later = Some (a0, a1, a2, a3, a4) ->
    (0 < a0)%Z ->
    MainGo.extractAbilities (MainGo.extractAbilities c earlier) later =
      MainGo.extractAbilities c later
    /\ abilities (MainGo.extractAbilities (MainGo.extractAbilities c earlier) later)
       = (a0, a1, a2, a3, a4).
Proof.
  intros c earlier later a0 a1 a2 a3 a4 Hfive Hpos.
  rewrite !(extractAbilities_row _ later), Hfive.
  apply Z.ltb_lt in Hpos. rewrite Hpos.
  split; [|reflexivity].
  rewrite extractAbilities_row.
  destruct (firstFive earlier) as [[[[[b0 b1] b2] b3] b4]|]; [|reflexivity].
  destruct (0 <? b0)%Z; reflexivity.
Qed.

Lemma X13_last_ability_row_wins_witness :
  MainGo.extractAbilities (MainGo.extractAbilities MainGo.emptyCharacter abilityRowA)
                          abilityRowB
  = MainGo.extractAbilities MainGo.emptyCharacter abilityRowB
  /\ abilities (MainGo.extractAbilities
                  (MainGo.extractAbilities MainGo.emptyCharacter abilityRowA)
                  abilityRowB)
     = (120, 95, 60, 70, 80)%Z.
Proof.
  apply (X13_last_ability_row_wins MainGo.emptyCharacter abilityRowA abilityRowB).
  - vm_compute; reflexivity.
  - reflexivity.
Defined.

(** ** More on fetching with retry *)

Section RetryMore.

Context {World : Type}.
Variable roundTrip : string -> World -> MainGo.Exchange * World.

(** the first attempt is final unless its error is rate limited *)
Lemma retry_first_attempt_final (url : string) (s : MainGo.Sys)
  (x : MainGo.Exchange) (w1 : World) :
  roundTrip url (MainGo.world s) = (x, w1) ->
  (forall e, MainGo.documentOrError x = inr e ->
             containsAnyString e (MainGo.RetryErrors MainGo.rules) = false) ->
  MainGo.extractCharacterInfoWithRetry roundTrip url s =
    (MainGo.Returned
       match MainGo.documentOrError x with
       | inl doc => (MainGo.characterOfDocument doc, None)
       | inr e => (MainGo.emptyCharacter, Some e)
       end,
     {| MainGo.world := w1; MainGo.trace := MainGo.trace s |}).
Proof.
  intros R H.
  unfold MainGo.extractCharacterInfoWithRetry.
  change (Z.to_nat (MainGo.MaxRetries MainGo.config)) with 3%nat.
  cbn [MainGo.retryLoop]. unfold MainGo.bind at 1.
  rewrite extractCharacterInfo_outcome, R. cbn [fst snd].
  destruct (MainGo.documentOrError x) as [doc|e]; [reflexivity|].
  unfold MainGo.shouldRetry. rewrite (H e eq_refl). reflexivity.
Qed.

Lemma sleeps_app (t1 t2 : list MainGo.Event) :
  MainGo.sleeps (t1 ++ t2) = (MainGo.sleeps t1 ++ MainGo.sleeps t2)%list.
Proof.
  induction t1 as [|ev t1 IH]; [reflexivity|].
  destruct ev; cbn [app MainGo.sleeps]; rewrite IH; reflexivity.
Qed.

Lemma logged_app (t1 t2 : list MainGo.Event) :
  MainGo.logged (t1 ++ t2) = (MainGo.logged t1 ++ MainGo.logged t2)%list.
Proof.
  induction t1 as [|ev t1 IH]; [reflexivity|].
  destruct ev; cbn [app MainGo.logged]; rewrite IH; reflexivity.
Qed.

(** a call returns, logs nothing, only adds events, and sleeps nothing, the
    base delay, or the base delay and then twice the base delay *)
Lemma retry_bounded (url : string) (s : MainGo.Sys) :
  exists (r : MainGo.Character * option string) (w : World)
         (evs : list MainGo.Event),
    MainGo.extractCharacterInfoWithRetry roundTrip url s =
      (MainGo.Returned r,
       {| MainGo.world := w; MainGo.trace := (MainGo.trace s ++ evs)%list |})
    /\ In (MainGo.sleeps evs) backoffs
    /\ MainGo.logged evs = [].
Proof.
  unfold MainGo.extractCharacterInfoWithRetry.
  change (Z.to_nat (MainGo.MaxRetries MainGo.config)) with 3%nat.
  cbn [MainGo.retryLoop]. unfold MainGo.bind at 1.
  rewrite extractCharacterInfo_outcome.
  destruct (MainGo.documentOrError (fst (roundTrip url (MainGo.world s))))
    as [doc|e0].
  { eexists; eexists; exists []. rewrite app_nil_r.
    split; [reflexivity|]. split; [left; reflexivity | reflexivity]. }
  destruct (MainGo.shouldRetry e0 0 (MainGo.MaxRetries MainGo.config)).
  2:{ eexists; eexists; exists []. rewrite app_nil_r. unfold MainGo.ret.
      split; [reflexivity|]. split; [left; reflexivity | reflexivity]. }
  cbv zeta. unfold MainGo.bind at 1 2 3, MainGo.emit at 1 2.
  cbn [MainGo.world MainGo.trace].
  rewrite extractCharacterInfo_outcome. cbn [MainGo.world MainGo.trace].
  set (w1 := snd (roundTrip url (MainGo.world s))).
  destruct (MainGo.documentOrError (fst (roundTrip url w1))) as [doc|e1].
  { eexists; eexists; eexists. rewrite <- app_assoc.
    split; [reflexivity|]. split; [right; left; reflexivity | reflexivity]. }
  destruct (MainGo.shouldRetry e1 (0 + 1) (MainGo.MaxRetries MainGo.config)).
  2:{ eexists; eexists; eexists. rewrite <- app_assoc. unfold MainGo.ret.
      split; [reflexivity|]. split; [right; left; reflexivity | reflexivity]. }
  unfold MainGo.bind at 1 2 3, MainGo.emit at 1 2.
  cbn [MainGo.world MainGo.trace].
  rewrite extractCharacterInfo_outcome. cbn [MainGo.world MainGo.trace].
  set (w2 := snd (roundTrip url w1)).
  assert (Hlast : forall e2,
             MainGo.shouldRetry e2 (0 + 1 + 1) (MainGo.MaxRetries MainGo.config) = false).
  { intros e2. unfold MainGo.shouldRetry. apply andb_false_r. }
  destruct (MainGo.documentOrError (fst (roundTrip url w2))) as [doc|e2];
    [|rewrite Hlast];
    (eexists; eexists; eexists; rewrite <- !app_assoc; unfold MainGo.ret;
     split; [reflexivity|]; split; [right; right; left; reflexivity | reflexivity]).
Qed.

End RetryMore.

(** ** The batch loop on a server that delivers every page *)

Lemma fetch_serving (pages : string -> Node) (url : string) (s : MainGo.Sys) :
  MainGo.extractCharacterInfoWithRetry (serving pages) url s =
    (MainGo.Returned (MainGo.characterOfDocument (pages url), None), s).
Proof.
  rewrite (retry_first_attempt_final (serving pages) url s
             (MainGo.Responded 200 "200 OK" (MainGo.Parsed (pages url)))
             (MainGo.world s) eq_refl).
  - destruct s; reflexivity.
  - intros e H. discriminate H.
Qed.

Lemma processUrls_serving (pages : string -> Node) (urls : list string) :
  forall (i : Z) (characters : list MainGo.Character) (s : MainGo.Sys),
  exists evs : list MainGo.Event,
    MainGo.processUrls (serving pages) i (i + Z.of_nat (length urls)) urls characters s
    = (MainGo.Returned
         (characters ++ map (fun url => MainGo.characterOfDocument (pages url)) urls)%list,
       after s evs)
    /\ MainGo.sleeps evs = repeat (MainGo.RequestDelay MainGo.config) (length urls - 1)
    /\ MainGo.logged evs = [].
Proof.
  induction urls as [|url rest IH]; intros i characters s.
  - exists []. cbn [MainGo.processUrls map]. unfold MainGo.ret, after.
    rewrite !app_nil_r. destruct s.
    split; [reflexivity|]. split; reflexivity.
  - cbn [MainGo.processUrls]. unfold MainGo.bind at 1 2, MainGo.emit at 1.
    rewrite fetch_serving. cbv zeta.
    fold (progressLine i (i + Z.of_nat (length (url :: rest))) url).
    set (line := progressLine i (i + Z.of_nat (length (url :: rest))) url).
    unfold MainGo.bind at 1, MainGo.sleepBetweenRequests.
    replace (i + Z.of_nat (length (url :: rest)))%Z
      with (i + 1 + Z.of_nat (length rest))%Z in * by (cbn [length]; lia).
    destruct rest as [|url' rest'].
    + replace (i <? i + 1 + Z.of_nat (length (@nil string)) - 1)%Z with false
        by (symmetry; apply Z.ltb_ge; cbn [length]; lia).
      unfold MainGo.ret at 1.
      destruct (IH (i + 1)%Z (characters ++ [MainGo.characterOfDocument (pages url)])%list
                  {| MainGo.world := MainGo.world s;
                     MainGo.trace := (MainGo.trace s ++ [line])%list |})
        as (evs & Hrun & Hsleeps & Hlogged).
      exists (line :: evs). rewrite Hrun.
      split; [|split].
      * unfold after. cbn [MainGo.world MainGo.trace map].
        rewrite <- !app_assoc. reflexivity.
      * cbn [MainGo.sleeps]. exact Hsleeps.
      * cbn [MainGo.logged]. exact Hlogged.
    + replace (i <? i + 1 + Z.of_nat (length (url' :: rest')) - 1)%Z with true
        by (symmetry; apply Z.ltb_lt; cbn [length]; lia).
      unfold MainGo.emit at 1. cbn [MainGo.world MainGo.trace].
      destruct (IH (i + 1)%Z (characters ++ [MainGo.characterOfDocument (pages url)])%list
                  {| MainGo.world := MainGo.world s;
                     MainGo.trace :=
                       ((MainGo.trace s ++ [line])
                          ++ [MainGo.Slept (MainGo.RequestDelay MainGo.config)])%list |})
        as (evs & Hrun & Hsleeps & Hlogged).
      exists (line :: MainGo.Slept (MainGo.RequestDelay MainGo.config) :: evs).
      rewrite Hrun. split; [|split].
      * unfold after. cbn [MainGo.world MainGo.trace map].
        rewrite <- !app_assoc. reflexivity.
      * cbn [MainGo.sleeps]. rewrite Hsleeps. cbn [length Nat.sub].
        rewrite Nat.sub_0_r. reflexivity.
      * cbn [MainGo.logged]. exact Hlogged.
Qed.

(** X14.  When the first attempt succeeds, or fails with an error whose text
    holds no rate-limit marker, [extractCharacterInfoWithRetry] returns its
    result at once: one request, no sleep, no output. *)
Theorem X14_first_attempt_final :
  forall (World : Type) (roundTrip : string -> World -> MainGo.Exchange * World)
         (url : string) (s : MainGo.Sys) (x : MainGo.Exchange) (w1 : World),
    roundTrip url (MainGo.world s) = (x, w1) ->
    (forall e, MainGo.documentOrError x = inr e ->
               containsAnyString e (MainGo.RetryErrors MainGo.rules) = false) ->
    MainGo.extractCharacterInfoWithRetry roundTrip url s =
      (MainGo.Returned
         match MainGo.documentOrError x with
         | inl doc => (MainGo.characterOfDocument doc, None)
         | inr e => (MainGo.emptyCharacter, Some e)
         end,
       {| MainGo.world := w1; MainGo.trace := MainGo.trace s |}).
Proof. intros World roundTrip. exact (retry_first_attempt_final roundTrip). Qed.

Lemma X14_first_attempt_final_witness :
  MainGo.extractCharacterInfoWithRetry scripted "u" (start [serverError; tooManyRequests])
  = (MainGo.Returned
       (MainGo.emptyCharacter, Some "HTTPエラー: 500 500 Internal Server Error"),
     start [tooManyRequests]).
Proof.
  apply (X14_first_attempt_final (list MainGo.Exchange) scripted "u"
           (start [serverError; tooManyRequests]) serverError [tooManyRequests]
           eq_refl).
  intros e H. injection H as <-. reflexivity.
Defined.

(** X15.  After two attempts that failed with a rate-limit error, the third
    attempt is final whatever its error: the call has slept the base delay
    and then twice the base delay, and returns the third error itself, rate
    limited or not. *)
Theorem X15_third_attempt_final :
  forall (World : Type) (roundTrip : string -> World -> MainGo.Exchange * World)
         (url : string) (s : MainGo.Sys) (x0 x1 x2 : MainGo.Exchange)
         (w1 w2 w3 : World) (e0 e1 e2 : string),
    roundTrip url (MainGo.world s) = (x0, w1) ->
    roundTrip url w1 = (x1, w2) ->
    roundTrip url w2 = (x2, w3) ->
    MainGo.documentOrError x0 = inr e0 ->
    MainGo.documentOrError x1 = inr e1 ->
    MainGo.documentOrError x2 = inr e2 ->
    containsAnyString e0 (MainGo.RetryErrors MainGo.rules) = true ->
    containsAnyString e1 (MainGo.RetryErrors MainGo.rules) = true ->
    MainGo.extractCharacterInfoWithRetry roundTrip url s =
      (MainGo.Returned (MainGo.emptyCharacter, Some e2),
       {| MainGo.world := w3;
          MainGo.trace :=
            (MainGo.trace s
               ++ [retryNotice (2 * MainGo.Second) 0 3; MainGo.Slept (2 * MainGo.Second);
                   retryNotice (4 * MainGo.Second) 1 3; MainGo.Slept (4 * MainGo.Second)])%list
       |}).
Proof. intros World roundTrip. exact (retry_three_attempts roundTrip). Qed.

Lemma X15_third_attempt_final_witness :
  MainGo.extractCharacterInfoWithRetry scripted "u"
    (start [tooManyRequests; tooManyRequests; serverError])
  = (MainGo.Returned
       (MainGo.emptyCharacter, Some "HTTPエラー: 500 500 Internal Server Error"),
     {| MainGo.world := [];
        MainGo.trace :=
          [retryNotice (2 * MainGo.Second) 0 3; MainGo.Slept (2 * MainGo.Second);
           retryNotice (4 * MainGo.Second) 1 3; MainGo.Slept (4 * MainGo.Second)] |}).
Proof.
  apply (X15_third_attempt_final (list MainGo.Exchange) scripted "u"
           (start [tooManyRequests; tooManyRequests; serverError])
           tooManyRequests tooManyRequests serverError
           [tooManyRequests; serverError] [serverError] []
           "429 Too Many Requests" "429 Too Many Requests"
           "HTTPエラー: 500 500 Internal Server Error");
    reflexivity.
Defined.

(** X16.  A call of [extractCharacterInfoWithRetry] always returns (it never
    ends the process), writes nothing to the log, keeps the events already
    recorded, and sleeps nothing, or the base delay, or the base delay and
    then twice the base delay: at most six seconds in all. *)
Theorem X16_retry_returns_within_two_backoffs :
  forall (World : Type) (roundTrip : string -> World -> MainGo.Exchange * World)
         (url : string) (s : MainGo.Sys),
  exists (r : MainGo.Character * option string) (w : World)
         (evs : list MainGo.Event),
    MainGo.extractCharacterInfoWithRetry roundTrip url s =
      (MainGo.Returned r,
       {| MainGo.world := w; MainGo.trace := (MainGo.trace s ++ evs)%list |})
    /\ In (MainGo.sleeps evs) backoffs
    /\ MainGo.logged evs = [].
Proof. intros World roundTrip. exact (retry_bounded roundTrip). Qed.

(** X17.  A fetch delivers a document only for a response of status 200
    whose body was read and parsed; every other exchange is an error. *)
Theorem X17_document_only_from_status_200 :
  forall (x : MainGo.Exchange) (doc : Node),
    MainGo.documentOrError x = inl doc ->
    exists status : string, x = MainGo.Responded 200 status (MainGo.Parsed doc).
Proof.
  intros x doc. destruct x as [e|e|code status body];
    cbn [MainGo.documentOrError]; try discriminate.
  unfold MainGo.checkHTTPStatus.
  destruct (code =? 429)%Z; [discriminate|].
  destruct (code =? 200)%Z eqn:E; cbn [negb]; [|discriminate].
  apply Z.eqb_eq in E. subst code.
  destruct body; try discriminate.
  intros H; injection H as <-. exists status. reflexivity.
Qed.

Lemma X17_document_only_from_status_200_witness :
  exists status : string,
    MainGo.Responded 200 "200 OK" (MainGo.Parsed goldOutsideTalentTable)
    = MainGo.Responded 200 status (MainGo.Parsed goldOutsideTalentTable).
Proof.
  apply (X17_document_only_from_status_200
           (MainGo.Responded 200 "200 OK" (MainGo.Parsed goldOutsideTalentTable))
           goldOutsideTalentTable).
  reflexivity.
Defined.



(** ** The list of pages: URLs and duplicates *)

Lemma unescape_escaped_head (c : ascii) (s : string) :
  unescapeQuery (QueryEscape (String c s)) = String c (unescapeQuery (QueryEscape s)).
Proof.
  destruct c as [b0 b1 b2 b3 b4 b5 b6 b7].
  destruct b0, b1, b2, b3, b4, b5, b6, b7; reflexivity.
Qed.

Lemma unescape_escaped (s : string) : unescapeQuery (QueryEscape s) = s.
Proof.
  induction s as [|c s IH]; [reflexivity|].
  rewrite unescape_escaped_head, IH. reflexivity.
Qed.

Lemma append_cancel (p a b : string) : p ++ a = p ++ b -> a = b.
Proof.
  induction p as [|c p IH]; cbn [append]; intros H; [exact H|].
  injection H as H. exact (IH H).
Qed.

Lemma generateURL_injective (a b : string) :
  MainGo.generateURL a = MainGo.generateURL b -> a = b.
Proof.
  unfold MainGo.generateURL. intros H. apply append_cancel in H.
  apply (f_equal unescapeQuery) in H. rewrite !unescape_escaped in H. exact H.
Qed.

Lemma NoDup_snoc (l : list string) (x : string) :
  NoDup (l ++ [x]) <-> NoDup l /\ ~ In x l.
Proof.
  split.
  - intros H. apply NoDup_remove in H. rewrite app_nil_r in H. exact H.
  - intros [Hl Hx]. apply NoDup_app; [exact Hl | repeat constructor; intros [] |].
    intros a Ha [<-|[]]. exact (Hx Ha).
Qed.

Lemma slices_Index_nil_only (l : list string) (x : string) :
  (slices_Index l x =? -1)%Z = false -> l <> [].
Proof. intros H E. subst l. discriminate H. Qed.

(** the loop of [findDuplicateURLs], after the URLs [done] *)
Lemma duplicates_loop (urls : list string) :
  forall (k : nat) (seen : list (string * nat)) (duplicates done : list string),
    (forall u, MainGo.seenAt seen u = None <-> ~ In u done) ->
    (duplicates = [] <-> NoDup done) ->
    snd (forRange
           (fun '(i, url) '(seen, duplicates) =>
              match MainGo.seenAt seen url with
              | Some firstIndex =>
                  let duplicateInfo :=
                    url ++ " (位置: " ++ Itoa (Z.of_nat firstIndex + 1) ++ ", "
                        ++ Itoa (Z.of_nat i + 1) ++ ")" in
                  if (slices_Index duplicates duplicateInfo =? -1)%Z
                  then Next (seen, (duplicates ++ [duplicateInfo])%list)
                  else Next (seen, duplicates)
              | None => Next ((url, i) :: seen, duplicates)
              end)
           (combine (seq k (length urls)) urls) (seen, duplicates)) = []
    <-> NoDup (done ++ urls).
Proof.
  unfold forRange.
  induction urls as [|url rest IH]; intros k seen duplicates done Hseen Hdup.
  - cbn [length seq combine rangeFlow result snd]. rewrite app_nil_r. exact Hdup.
  - cbn [length seq combine rangeFlow].
    replace (done ++ url :: rest)%list with ((done ++ [url]) ++ rest)%list
      by (rewrite <- app_assoc; reflexivity).
    destruct (MainGo.seenAt seen url) as [firstIndex|] eqn:E.
    + assert (Hin : In url done).
      { destruct (in_dec string_dec url done) as [Hin|Hout]; [exact Hin|].
        apply Hseen in Hout. rewrite Hout in E. discriminate E. }
      assert (Hseen' : forall u, MainGo.seenAt seen u = None <-> ~ In u (done ++ [url])).
      { intros u. rewrite Hseen, in_app_iff. cbn [In]. split.
        - intros Hu [H|[<-|[]]]; [exact (Hu H) | exact (Hu Hin)].
        - intros Hu H. apply Hu. left. exact H. }
      cbv zeta.
      match goal with
      | |- context [if ?b then _ else _] => destruct b eqn:Eidx
      end; apply IH; try exact Hseen'.
      * split; [intros H; destruct (app_cons_not_nil _ _ _ (eq_sym H))|].
        intros H. apply NoDup_snoc in H as [_ H]. destruct (H Hin).
      * split; [intros H; destruct (slices_Index_nil_only _ _ Eidx H)|].
        intros H. apply NoDup_snoc in H as [_ H]. destruct (H Hin).
    + assert (Hout : ~ In url done) by (apply Hseen; exact E).
      apply IH.
      * intros u. cbn [MainGo.seenAt]. rewrite in_app_iff. cbn [In].
        destruct (String.eqb url u) eqn:Eu.
        -- apply String.eqb_eq in Eu. subst u. split; [discriminate|].
           intros H. destruct H. right. left. reflexivity.
        -- apply String.eqb_neq in Eu. rewrite Hseen. split.
           ++ intros Hu [H|[H|[]]]; [exact (Hu H) | exact (Eu H)].
           ++ intros Hu H. apply Hu. left. exact H.
      * rewrite Hdup, NoDup_snoc. split; [intros H; split; assumption | intros [H _]; exact H].
Qed.

Lemma findDuplicateURLs_none (urls : list string) :
  MainGo.findDuplicateURLs urls = [] <-> NoDup urls.
Proof.
  unfold MainGo.findDuplicateURLs, indexed.
  pose proof (duplicates_loop urls 0 [] [] []) as H. cbn [app] in H.
  match type of H with
  | _ -> _ -> (snd ?X = [] <-> _) => destruct X as [seen duplicates] eqn:E
  end.
  cbn [snd] in H. apply H.
  - intros u. cbn [MainGo.seenAt In]. split; [intros _ []|reflexivity].
  - split; [intros _; constructor | reflexivity].
Qed.

(** X19.  [findDuplicateURLs] reports nothing exactly when no URL occurs
    twice in the list. *)
Theorem X19_duplicates_reported_iff_repeated :
  forall urls : list string,
    MainGo.findDuplicateURLs urls = [] <-> NoDup urls.
Proof. exact findDuplicateURLs_none. Qed.

(** X20.  Two names with the same URL are the same name: [generateURL]
    loses nothing of the name. *)
Theorem X20_generateURL_injective :
  forall a b : string, MainGo.generateURL a = MainGo.generateURL b -> a = b.
Proof. exact generateURL_injective. Qed.

Lemma X20_generateURL_injective_witness : "曹操" = "曹操".
Proof. apply (X20_generateURL_injective "曹操" "曹操"). reflexivity. Defined.

Lemma escaped_head_safe (c : ascii) (s : string) :
  allBytes isQuerySafe (QueryEscape (String c s)) = allBytes isQuerySafe (QueryEscape s).
Proof.
  destruct c as [b0 b1 b2 b3 b4 b5 b6 b7].
  destruct b0, b1, b2, b3, b4, b5, b6, b7; reflexivity.
Qed.

(** X21.  The URL of a name is the base URL followed by the escaped name,
    and the escaped name is made of ASCII letters, digits and the bytes
    [-], [_], [.], [~], [+] and [%] only; reading the escapes back gives the
    name. *)
Theorem X21_escaped_name_is_safe_and_readable :
  forall name : string,
    MainGo.generateURL name = MainGo.BaseURL MainGo.config ++ QueryEscape name
    /\ allBytes isQuerySafe (QueryEscape name) = true
    /\ unescapeQuery (QueryEscape name) = name.
Proof.
  intros name. split; [reflexivity|]. split; [|apply unescape_escaped].
  induction name as [|c name IH]; [reflexivity|].
  rewrite escaped_head_safe. exact IH.
Qed.

Lemma generateURL_NoDup (names : list string) :
  NoDup names -> NoDup (map MainGo.generateURL names).
Proof.
  intros H. induction H as [|x l Hx _ IH]; cbn [map]; [constructor|].
  constructor; [|exact IH].
  rewrite in_map_iff. intros (y & E & Hy).
  apply generateURL_injective in E. subst y. exact (Hx Hy).
Qed.

(** X22.  For a category present in the decoded file,
    [loadCharactersFromJSON] returns URLs exactly when no name is repeated
    in the category; the URLs are then those of the names, in the order of
    the names, and pairwise distinct.  With a repeated name it returns an
    error and no URL. *)
Theorem X22_loader_rejects_repeated_names :
  forall (category : string) (categorizedNames : list (string * list string))
         (names : list string),
    MainGo.namesOf categorizedNames category = Some names ->
    (NoDup names ->
     fst (MainGo.loadCharactersFromJSON category (MainGo.Decoded categorizedNames))
     = inl (map MainGo.generateURL names)
     /\ NoDup (map MainGo.generateURL names))
    /\ (~ NoDup names ->
        exists err : string,
          fst (MainGo.loadCharactersFromJSON category (MainGo.Decoded categorizedNames))
          = inr err).
Proof.
  intros category categorizedNames names Hnames.
  assert (Hurls : NoDup (map MainGo.generateURL names) <-> NoDup names).
  { split; [apply NoDup_map_inv|].
    apply generateURL_NoDup. }
  cbn [MainGo.loadCharactersFromJSON]. rewrite Hnames. cbv zeta.
  split.
  - intros Hnodup. apply Hurls in Hnodup. split; [|exact Hnodup].
    apply findDuplicateURLs_none in Hnodup. rewrite Hnodup. reflexivity.
  - intros Hdup.
    destruct (MainGo.findDuplicateURLs (map MainGo.generateURL names)) as [|d ds] eqn:E.
    + destruct Hdup. apply Hurls, findDuplicateURLs_none. exact E.
    + cbn [length Nat.ltb Nat.leb fst]. eexists. reflexivity.
Qed.

Lemma X22_loader_rejects_repeated_names_witness :
  (fst (MainGo.loadCharactersFromJSON "奇才" (MainGo.Decoded distinctNames))
   = inl (map MainGo.generateURL ["曹操"; "関羽"])
   /\ NoDup (map MainGo.generateURL ["曹操"; "関羽"]))
  /\ exists err : string,
       fst (MainGo.loadCharactersFromJSON "奇才" (MainGo.Decoded repeatedNames))
       = inr err.
Proof.
  split.
  - apply (proj1 (X22_loader_rejects_repeated_names "奇才" distinctNames
                    ["曹操"; "関羽"] eq_refl)).
    constructor; [|constructor; [|constructor]]; cbn [In].
    + intros [H|[]]. discriminate H.
    + intros [].
  - apply (proj2 (X22_loader_rejects_repeated_names "奇才" repeatedNames
                    ["曹操"; "関羽"; "曹操"] eq_refl)).
    intros H. inversion H as [|x l Hx Hl]. apply Hx. right. left. reflexivity.
Defined.

(** X23.  The parser of [src/unnamed/part_000] fills Name and Reading when
    the text of the first strong element holds both '(' and ')', wherever
    they stand: Name is the trimmed part before the first '(' and Reading
    the trimmed part after it up to the next '(' or ')', whichever comes
    first, or up to the end.  Otherwise it changes nothing. *)
Theorem X23_part000_name_and_reading :
  forall (c : Part000.Character) (doc : Node),
    Part000.extractNameAndReading c doc =
      match strongText doc with
      | None => c
      | Some text =>
          if Contains text "(" && Contains text ")"
          then Part000.set_Reading
                 (TrimSpace
                    (fst (fst (Cut (fst (fst (Cut (snd (fst (Cut text "("))) "("))) ")"))))
                 (Part000.set_Name (TrimSpace (fst (fst (Cut text "(")))) c)
          else c
      end.
Proof. exact nameAndReading_part000. Qed.

(** ** What trimming and cutting keep out of an item *)

Lemma Contains_one_nil (ch : ascii) : Contains "" (String ch "") = false.
Proof. reflexivity. Qed.

Lemma Contains_one_app (ch : ascii) (a b : string) :
  Contains (a ++ b) (String ch "") =
    Contains a (String ch "") || Contains b (String ch "").
Proof.
  induction a as [|c a IH]; [reflexivity|].
  cbn [append]. rewrite !Contains_one_cons, IH. apply orb_assoc.
Qed.

Lemma Contains_one_rev (ch : ascii) (s : string) :
  Contains (Go.rev s) (String ch "") = Contains s (String ch "").
Proof.
  induction s as [|c s IH]; [reflexivity|].
  cbn [Go.rev]. rewrite Contains_one_app, IH, !Contains_one_cons, Contains_one_nil.
  rewrite orb_false_r. apply orb_comm.
Qed.

(** trimming on the left returns a final part of the text *)
Lemma TrimLeftSpace_within (ch : ascii) (n : nat) :
  forall s, (String.length s <= n)%nat ->
            Contains (TrimLeftSpace s) (String ch "") = true ->
            Contains s (String ch "") = true.
Proof.
  induction n as [|n IH]; intros s Hlen.
  - destruct s; [intros H; exact H | cbn in Hlen; lia].
  - destruct s as [|a s1]; [intros H; exact H|].
    cbn [String.length] in Hlen. cbn [TrimLeftSpace].
    destruct (asciiSpace a).
    { intros H. rewrite Contains_one_cons, (IH s1) by (lia || exact H).
      apply orb_true_r. }
    destruct s1 as [|b s2]; [intros H; exact H|].
    cbn [String.length] in Hlen.
    destruct (space2 a b).
    { intros H. rewrite !Contains_one_cons, (IH s2) by (lia || exact H).
      rewrite !orb_true_r. reflexivity. }
    destruct s2 as [|c s3]; [intros H; exact H|].
    cbn [String.length] in Hlen.
    destruct (space3 a b c); [|intros H; exact H].
    intros H. rewrite !Contains_one_cons, (IH s3) by (lia || exact H).
    rewrite !orb_true_r. reflexivity.
Qed.

Lemma TrimLeftSpaceRev_within (ch : ascii) (n : nat) :
  forall s, (String.length s <= n)%nat ->
            Contains (TrimLeftSpaceRev s) (String ch "") = true ->
            Contains s (String ch "") = true.
Proof.
  induction n as [|n IH]; intros s Hlen.
  - destruct s; [intros H; exact H | cbn in Hlen; lia].
  - destruct s as [|a s1]; [intros H; exact H|].
    cbn [String.length] in Hlen. cbn [TrimLeftSpaceRev].
    destruct (asciiSpace a).
    { intros H. rewrite Contains_one_cons, (IH s1) by (lia || exact H).
      apply orb_true_r. }
    destruct s1 as [|b s2]; [intros H; exact H|].
    cbn [String.length] in Hlen.
    destruct (space2 b a).
    { intros H. rewrite !Contains_one_cons, (IH s2) by (lia || exact H).
      rewrite !orb_true_r. reflexivity. }
    destruct s2 as [|c s3]; [intros H; exact H|].
    cbn [String.length] in Hlen.
    destruct (space3 c b a); [|intros H; exact H].
    intros H. rewrite !Contains_one_cons, (IH s3) by (lia || exact H).
    rewrite !orb_true_r. reflexivity.
Qed.

(** a byte of the trimmed text is a byte of the text *)
Lemma TrimSpace_within (ch : ascii) (s : string) :
  Contains (TrimSpace s) (String ch "") = true -> Contains s (String ch "") = true.
Proof.
  unfold TrimSpace, TrimRightSpace. rewrite Contains_one_rev. intros H.
  apply (TrimLeftSpaceRev_within ch _ _ (le_n _)) in H.
  rewrite Contains_one_rev in H.
  exact (TrimLeftSpace_within ch _ _ (le_n _) H).
Qed.

Lemma Cut_before_free (ch : ascii) (s : string) :
  Contains (fst (fst (Cut s (String ch "")))) (String ch "") = false.
Proof.
  induction s as [|a s IH]; [reflexivity|].
  rewrite Cut_one_cons. destruct (Ascii.eqb ch a) eqn:E; [reflexivity|].
  destruct (Cut s (String ch "")) as [[before after] found]. cbn [fst] in *.
  rewrite Contains_one_cons, E, IH. reflexivity.
Qed.

Lemma cleanTacticSkillText_free (text : string) :
  Contains (MainGo.cleanTacticSkillText text) "(" = false.
Proof.
  unfold MainGo.cleanTacticSkillText.
  pose proof (Cut_before_free "(" text) as H.
  destruct (Cut text "(") as [[before after] found]. cbn [fst] in H.
  destruct (Contains (TrimSpace before) "(") eqn:E; [|reflexivity].
  apply TrimSpace_within in E. rewrite E in H. discriminate H.
Qed.

(** X24.  No item [extractFromSkillTable] returns holds a '(', is empty or
    is a category keyword. *)
Theorem X24_items_without_annotation :
  forall (table : Node) (isCategory : string -> bool),
    forallb (fun item =>
               negb (Contains item "(") && negb (item =? "") && negb (isCategory item))
            (MainGo.extractFromSkillTable table isCategory) = true.
Proof.
  intros table isCategory. rewrite extractFromSkillTable_items.
  unfold cleanedItems. apply forallb_forall. intros item Hin.
  apply filter_In in Hin as [Hin Hkeep].
  apply in_map_iff in Hin as (cell & <- & _).
  rewrite cleanTacticSkillText_free. exact Hkeep.
Qed.

(** ** The batch loop under failures *)

Lemma fetch_server_error (url : string) (s : MainGo.Sys) :
  MainGo.extractCharacterInfoWithRetry alwaysServerError url s =
    (MainGo.Returned (MainGo.emptyCharacter, Some serverErrorText), s).
Proof.
  rewrite (retry_first_attempt_final alwaysServerError url s serverError
             (MainGo.world s) eq_refl).
  - destruct s; reflexivity.
  - intros e H. injection H as <-. reflexivity.
Qed.

Lemma processUrls_server_error (urls : list string) :
  forall (i totalCount : Z) (characters : list MainGo.Character) (s : MainGo.Sys),
  exists evs : list MainGo.Event,
    MainGo.processUrls alwaysServerError i totalCount urls characters s
    = (MainGo.Returned characters, after s evs)
    /\ MainGo.logged evs = map (fun url => errorLine url serverErrorText) urls
    /\ MainGo.sleeps evs = [].
Proof.
  induction urls as [|url rest IH]; intros i totalCount characters s.
  - exists []. cbn [MainGo.processUrls map]. unfold MainGo.ret, after.
    rewrite app_nil_r. destruct s. split; [reflexivity|]. split; reflexivity.
  - cbn [MainGo.processUrls]. unfold MainGo.bind at 1 2, MainGo.emit at 1.
    rewrite fetch_server_error.
    fold (progressLine i totalCount url).
    unfold MainGo.bind at 1, MainGo.handleProcessingError.
    change (MainGo.isRateLimitError serverErrorText) with false. cbv zeta.
    unfold MainGo.emit. cbn [MainGo.world MainGo.trace].
    destruct (IH (i + 1)%Z totalCount characters
                {| MainGo.world := MainGo.world s;
                   MainGo.trace :=
                     ((MainGo.trace s ++ [progressLine i totalCount url])
                        ++ [MainGo.Logged
                              (MainGo.ProcessingError_Error
                                 {| MainGo.URL := url;
                                    MainGo.Message := serverErrorText;
                                    MainGo.Err := serverErrorText |})])%list |})
      as (evs & Hrun & Hlogged & Hsleeps).
    exists (progressLine i totalCount url
              :: MainGo.Logged (errorLine url serverErrorText) :: evs).
    rewrite Hrun. split; [|split].
    + unfold after. cbn [MainGo.world MainGo.trace].
      rewrite <- !app_assoc. reflexivity.
    + cbn [MainGo.logged progressLine map]. rewrite Hlogged. reflexivity.
    + cbn [MainGo.sleeps progressLine]. exact Hsleeps.
Qed.

(** X25.  When every page of the batch fails with an ordinary error (here a
    response of status 500), the batch still visits every URL: it returns no
    record, logs one line per URL, in order, naming the URL and the error,
    and never sleeps, since the request delay is only taken after a
    successful item. *)
Theorem X25_failed_items_are_logged_and_skipped :
  forall urls : list string,
  exists evs : list MainGo.Event,
    MainGo.processCategory alwaysServerError (inl urls) (start tt)
    = (MainGo.Returned [], after (start tt) evs)
    /\ MainGo.logged evs = map (fun url => errorLine url serverErrorText) urls
    /\ MainGo.sleeps evs = [].
Proof.
  intros urls. unfold MainGo.processCategory.
  exact (processUrls_server_error urls 0 (Z.of_nat (length urls)) [] (start tt)).
Qed.

(** X26.  A page that is rate limited on all three attempts ends the whole
    batch: after the two backoff sleeps the fatal line is logged for that
    URL and the process exits with status 1, whatever URLs remain and
    whatever records were collected. *)
Theorem X26_persistent_rate_limit_ends_the_batch :
  forall (World : Type) (roundTrip : string -> World -> MainGo.Exchange * World)
         (url : string) (rest : list string) (i totalCount : Z)
         (characters : list MainGo.Character) (s : MainGo.Sys)
         (x0 x1 x2 : MainGo.Exchange) (w1 w2 w3 : World) (e0 e1 e2 : string),
    roundTrip url (MainGo.world s) = (x0, w1) ->
    roundTrip url w1 = (x1, w2) ->
    roundTrip url w2 = (x2, w3) ->
    MainGo.documentOrError x0 = inr e0 ->
    MainGo.documentOrError x1 = inr e1 ->
    MainGo.documentOrError x2 = inr e2 ->
    containsAnyString e0 (MainGo.RetryErrors MainGo.rules) = true ->
    containsAnyString e1 (MainGo.RetryErrors MainGo.rules) = true ->
    containsAnyString e2 (MainGo.RetryErrors MainGo.rules) = true ->
    MainGo.processUrls roundTrip i totalCount (url :: rest) characters s =
      (MainGo.Exited 1,
       {| MainGo.world := w3;
          MainGo.trace :=
            (MainGo.trace s
               ++ [progressLine i totalCount url;
                   retryNotice (2 * MainGo.Second) 0 3; MainGo.Slept (2 * MainGo.Second);
                   retryNotice (4 * MainGo.Second) 1 3; MainGo.Slept (4 * MainGo.Second);
                   MainGo.Logged (fatalLine url e2)])%list |}).
Proof.
  intros World roundTrip url rest i totalCount characters s x0 x1 x2 w1 w2 w3
    e0 e1 e2 R0 R1 R2 E0 E1 E2 L0 L1 L2.
  cbn [MainGo.processUrls]. unfold MainGo.bind at 1 2, MainGo.emit at 1.
  fold (progressLine i totalCount url).
  fold (after s [progressLine i totalCount url]).
  rewrite (retry_three_attempts roundTrip url (after s [progressLine i totalCount url])
             x0 x1 x2 w1 w2 w3 e0 e1 e2 R0 R1 R2 E0 E1 E2 L0 L1).
  unfold MainGo.bind at 1, MainGo.handleProcessingError, MainGo.isRateLimitError.
  rewrite L2. cbn [orb]. cbv zeta.
  unfold MainGo.bind, MainGo.emit, MainGo.exit, after.
  cbn [MainGo.world MainGo.trace].
  rewrite <- !app_assoc. reflexivity.
Qed.

Lemma X26_persistent_rate_limit_ends_the_batch_witness :
  MainGo.processUrls scripted 0 2 ["a"; "b"] []
    (start [tooManyRequests; tooManyRequests; tooManyRequests])
  = (MainGo.Exited 1,
     {| MainGo.world := [];
        MainGo.trace :=
          [progressLine 0 2 "a";
           retryNotice (2 * MainGo.Second) 0 3; MainGo.Slept (2 * MainGo.Second);
           retryNotice (4 * MainGo.Second) 1 3; MainGo.Slept (4 * MainGo.Second);
           MainGo.Logged (fatalLine "a" "429 Too Many Requests")] |}).
Proof.
  apply (X26_persistent_rate_limit_ends_the_batch (list MainGo.Exchange) scripted
           "a" ["b"] 0 2 []
           (start [tooManyRequests; tooManyRequests; tooManyRequests])
           tooManyRequests tooManyRequests tooManyRequests
           [tooManyRequests; tooManyRequests] [tooManyRequests] []
           "429 Too Many Requests" "429 Too Many Requests" "429 Too Many Requests");
    reflexivity.
Defined.
